(** * Live Slide Enhancer: the deviation-detection and update pipeline

    A shallow embedding of the core of [main.py], [content_generator.py] and
    [slide_updater.py], and the properties of the design document checked
    against it.

    Python strings are modelled as [string] (sequences of code points below
    256), Python ints as [Z], floats that only carry inch/point geometry or
    font sizes as [Q].  The remote model, [json.loads], the visual generator
    and the file system are collaborators taken as parameters. *)

From Stdlib Require Import ZArith QArith Qround List String Ascii Bool Lia.
From stdpp Require Import base strings gmap sets.
Import ListNotations.

Set Warnings "-register-all".
Close Scope Q_scope.
Open Scope string_scope.
Open Scope list_scope.
Open Scope nat_scope.

(* ===================================================================== *)
(** * Python string primitives *)
(* ===================================================================== *)

Module PyStr.

Definition LF : ascii := ascii_of_nat 10.
Definition CR : ascii := ascii_of_nat 13.
Definition DQ : ascii := ascii_of_nat 34.

Definition nl : string := String LF EmptyString.
Definition crlf : string := String CR (String LF EmptyString).
Definition dq : string := String DQ EmptyString.

(** [str.isspace] on one code point below 256: TAB..CR, FS..US, SPACE,
    NEL and NBSP. *)
Definition is_space (c : ascii) : bool :=
  let n := nat_of_ascii c in
  ((9 <=? n) && (n <=? 13)) || ((28 <=? n) && (n <=? 32))
  || (n =? 133) || (n =? 160).

(** The line boundaries of [str.splitlines] below 256: LF, VT, FF, CR,
    FS, GS, RS and NEL (US is not one). *)
Definition is_linebreak (c : ascii) : bool :=
  let n := nat_of_ascii c in
  ((10 <=? n) && (n <=? 13)) || ((28 <=? n) && (n <=? 30)) || (n =? 133).

Fixpoint lstrip (s : string) : string :=
  match s with
  | EmptyString => EmptyString
  | String c rest => if is_space c then lstrip rest else s
  end.

(** [rstrip], by one right-to-left pass: a character is kept when it is
    not a space or when something is kept after it. *)
Fixpoint rstrip (s : string) : string :=
  match s with
  | EmptyString => EmptyString
  | String c rest =>
      match rstrip rest with
      | EmptyString => if is_space c then EmptyString else String c EmptyString
      | kept => String c kept
      end
  end.

Definition strip (s : string) : string := rstrip (lstrip s).

(** [str.splitlines()]: [cur] is the line being read.  A boundary closes
    the line (empty or not); CR LF is one boundary; what is left at the
    end is a line only when it is not empty. *)
Fixpoint splitlines_from (cur s : string) : list string :=
  match s with
  | EmptyString =>
      match cur with EmptyString => [] | _ => [cur] end
  | String c rest =>
      if is_linebreak c then
        cur ::
          (if Ascii.eqb c CR then
             match rest with
             | String c' rest' =>
                 if Ascii.eqb c' LF then splitlines_from EmptyString rest'
                 else splitlines_from EmptyString rest
             | EmptyString => splitlines_from EmptyString rest
             end
           else splitlines_from EmptyString rest)
      else splitlines_from (cur +:+ String c EmptyString) rest
  end.

Definition splitlines (s : string) : list string :=
  splitlines_from EmptyString s.

(** [str.lower] below 256: A..Z and the Latin-1 capitals (0xC0..0xDE but
    the multiplication sign 0xD7) move up by 32. *)
Definition lower_char (c : ascii) : ascii :=
  let n := nat_of_ascii c in
  if ((65 <=? n) && (n <=? 90))
     || ((192 <=? n) && (n <=? 222) && negb (n =? 215))
  then ascii_of_nat (n + 32) else c.

Fixpoint lower (s : string) : string :=
  match s with
  | EmptyString => EmptyString
  | String c rest => String (lower_char c) (lower rest)
  end.

(** [sep.join(parts)]. *)
Fixpoint join (sep : string) (parts : list string) : string :=
  match parts with
  | [] => EmptyString
  | [p] => p
  | p :: rest => p +:+ sep +:+ join sep rest
  end.

(** [len(s.split())]: the number of maximal runs of non-space
    characters; [inword] tells whether the previous character was in a
    word. *)
Fixpoint count_words_from (inword : bool) (s : string) : nat :=
  match s with
  | EmptyString => 0
  | String c rest =>
      if is_space c then count_words_from false rest
      else (if inword then 0 else 1) + count_words_from true rest
  end.

Definition word_count (s : string) : nat := count_words_from false s.

(** [s.index(c)] and [s.rindex(c)]: [None] stands for [ValueError]. *)
Fixpoint index (c : ascii) (s : string) : option nat :=
  match s with
  | EmptyString => None
  | String c' rest =>
      if Ascii.eqb c' c then Some 0 else option_map S (index c rest)
  end.

Fixpoint rindex (c : ascii) (s : string) : option nat :=
  match s with
  | EmptyString => None
  | String c' rest =>
      match rindex c rest with
      | Some i => Some (S i)
      | None => if Ascii.eqb c' c then Some 0 else None
      end
  end.

(** [s[start:stop]] for non-negative bounds. *)
Definition slice (start stop : nat) (s : string) : string :=
  substring start (stop - start) s.

(** [lines[-1]]: [None] stands for [IndexError]. *)
Definition last_error_line (lines : list string) : option string :=
  match lines with
  | [] => None
  | l :: rest => Some (List.last rest l)
  end.

(** Truthiness of a [str]. *)
Definition nonempty (s : string) : bool :=
  match s with EmptyString => false | _ => true end.

End PyStr.

(* ===================================================================== *)
(** * collections.deque(maxlen=...) *)
(* ===================================================================== *)

Module Deque.

(** [d.append(x)] on a bounded deque: the item goes to the right end and,
    when the deque is then longer than [maxlen], the leftmost is popped. *)
Definition append {A} (maxlen : nat) (d : list A) (x : A) : list A :=
  let d' := d ++ [x] in
  if (maxlen <? length d')%nat then tl d' else d'.

Definition clear {A} (d : list A) : list A := [].

End Deque.

(* ===================================================================== *)
(** * Python values that come out of json.loads *)
(* ===================================================================== *)

Module Json.

Inductive json : Type :=
| JNull
| JBool (b : bool)
| JNum (q : Q)
| JStr (s : string)
| JArr (items : list json)
| JObj (fields : list (string * json)).

(** Python truthiness ([if v:]). *)
Definition truthy (v : json) : bool :=
  match v with
  | JNull => false
  | JBool b => b
  | JNum q => negb (Qeq_bool q (0 # 1))
  | JStr s => PyStr.nonempty s
  | JArr items => match items with [] => false | _ => true end
  | JObj fields => match fields with [] => false | _ => true end
  end.

Fixpoint assoc (key : string) (fields : list (string * json)) : option json :=
  match fields with
  | [] => None
  | (k, v) :: rest => if String.eqb k key then Some v else assoc key rest
  end.

(** [d.get(key)]: [None] (here [JNull]) when the key is absent.  On a
    value that is not a dict the attribute lookup raises ([None]). *)
Definition get (d : json) (key : string) : option json :=
  match d with
  | JObj fields => Some (match assoc key fields with Some v => v | None => JNull end)
  | _ => None
  end.

(** [d.get(key, default)]. *)
Definition get_default (d : json) (key : string) (default : json) : option json :=
  match d with
  | JObj fields => Some (match assoc key fields with Some v => v | None => default end)
  | _ => None
  end.

(** [for x in v]: a list yields its items, a str its characters, a dict
    its keys; anything else is not iterable ([None] for [TypeError]). *)
Definition iterate (v : json) : option (list json) :=
  match v with
  | JArr items => Some items
  | JStr s => Some (map (fun c => JStr (String c EmptyString)) (list_ascii_of_string s))
  | JObj fields => Some (map (fun kv => JStr (fst kv)) fields)
  | _ => None
  end.

(** [v + suffix] with [suffix] a str: defined on a str only. *)
Definition add_str (v : json) (suffix : string) : option string :=
  match v with
  | JStr s => Some (s +:+ suffix)
  | _ => None
  end.

End Json.
Export Json.

(* ===================================================================== *)
(** * External collaborators *)
(* ===================================================================== *)

(** What the core calls and does not implement.  [None] stands for a raised
    exception in [model_generate_content] (the remote call, or reading
    [response.text]), [json_loads] ([JSONDecodeError]) and [com_text]; in
    the three visual functions it is the [None] they return themselves
    (each catches its own failures).

    A record holds the answers of the collaborators at one moment.  The
    remote model, the icon and image look-ups and the file system may
    answer differently the next time they are asked: code that runs at
    two moments is given two records. *)
Record collaborators : Type := {
  model_generate_content : string -> option string;
  json_loads : string -> option json;
  create_chart : json -> option string;
  get_icon : json -> option string;
  get_image : json -> option string;
  path_exists : string -> bool;
  abspath : string -> string;
  (** the text PowerPoint stores when a Python value is assigned to
      [TextRange.Text] *)
  com_text : json -> option string;
  (** whether [Shapes.AddPicture] accepts the file *)
  picture_loads : string -> bool
}.

(* ===================================================================== *)
(** * content_generator.py *)
(* ===================================================================== *)

Module ContentGenerator.
Import PyStr.

Section WithCollaborators.
Variable E : collaborators.

(** [_extract_json]: the text from the first opening brace to the last
    closing brace, parsed; [None] on [ValueError] / [JSONDecodeError]. *)
Definition _extract_json (text : string) : option json :=
  match index "{" text with
  | None => None
  | Some start_index =>
      match rindex "}" text with
      | None => None
      | Some r =>
          let end_index := r + 1 in
          let json_str := slice start_index end_index text in
          json_loads E json_str
      end
  end.

Definition deviation_prompt (slide_text speech_text : string) : string :=
  join nl
    [ EmptyString;
      "        Analyze the following. Has the presenter's speech moved to a new topic not covered by the slide?";
      "        Current Slide Content: " +:+ dq +:+ slide_text +:+ dq;
      "        Presenter's Speech: " +:+ dq +:+ speech_text +:+ dq;
      "        Task: If the speech has clearly shifted to a new topic, respond ONLY with the new topic in up to 10 words. Otherwise, respond with the single word: None.";
      "        Response:";
      "        " ].

(** [check_for_deviation]: the stripped last line of the stripped
    response, unless it is empty or reads "none" in any case.  Every
    exception (the remote call, [[-1]] on an empty list) gives [None]. *)
Definition check_for_deviation (slide_text speech_text : string) : option string :=
  match model_generate_content E (deviation_prompt slide_text speech_text) with
  | None => None
  | Some text =>
      match last_error_line (splitlines (strip text)) with
      | None => None
      | Some line =>
          let new_topic := strip line in
          if negb (String.eqb (lower new_topic) "none")
             && (0 <? String.length new_topic)
          then Some new_topic else None
      end
  end.

Definition content_prompt (topic : string) : string :=
  join nl
    [ EmptyString;
      "        You are a factual research assistant creating a presentation slide. Your goal is to be informative and data-driven.";
      "        The presentation topic is: " +:+ dq +:+ topic +:+ dq +:+ ".";
      EmptyString;
      "        **CRITICAL INSTRUCTIONS:**";
      "        1.  **Title:** Create a clear, factual title directly related to the topic.";
      "        2.  **Bullet Points:** Write 4-5 bullet points. You MUST find and include real, quantifiable data (e.g., financial figures, percentages, statistics) relevant to the topic. For a topic like " +:+ dq +:+ "Virat Kohli's wealth," +:+ dq +:+ " you must include his estimated net worth and earnings. For " +:+ dq +:+ "Google's quarterly earnings," +:+ dq +:+ " you must include revenue and net income figures.";
      "        3.  **Layout Suggestion:**";
      "            - If you generate `chart_data`, the layout MUST be 'text_left_visual_right'.";
      "            - If you do not generate `chart_data`, the layout can be 'text_only' or 'text_left_visual_right'.";
      "        4.  **Chart Data (Conditional):**";
      "            - If the topic is about finances, statistics, market share, or any quantifiable data, you MUST generate a simple JSON object for a chart summarizing the key data points from your bullet points. Use a 'pie' chart for breakdowns (like earnings sources) or a 'bar' chart for comparisons. For a bar chart, use a simple " +:+ dq +:+ "values" +:+ dq +:+ " array, not a complex " +:+ dq +:+ "datasets" +:+ dq +:+ " structure.";
      "            - If the topic is purely qualitative (e.g., " +:+ dq +:+ "The History of Origami" +:+ dq +:+ "), this value MUST be null.";
      "        5.  **Image Suggestion (Conditional):**";
      "            - If you generated `chart_data`, this value MUST be null.";
      "            - If `chart_data` is null, suggest a simple, direct search query for a relevant icon or image.";
      EmptyString;
      "        Format the entire response as a single JSON object with the keys: " +:+ dq +:+ "title" +:+ dq +:+ ", " +:+ dq +:+ "points" +:+ dq +:+ ", " +:+ dq +:+ "image_suggestion" +:+ dq +:+ ", " +:+ dq +:+ "layout" +:+ dq +:+ ", and " +:+ dq +:+ "chart_data" +:+ dq +:+ ".";
      "        " ].

(** [generate_slide_content]: the parsed object when it is truthy, [None]
    otherwise and on every exception.  [style_guide] is not used by the
    body, so it is no argument here. *)
Definition generate_slide_content (topic : string) : option json :=
  match model_generate_content E (content_prompt topic) with
  | None => None
  | Some text =>
      match _extract_json text with
      | Some content_json => if truthy content_json then Some content_json else None
      | None => None
      end
  end.

End WithCollaborators.

End ContentGenerator.

(* ===================================================================== *)
(** * The PowerPoint object model as slide_updater.py drives it *)
(* ===================================================================== *)

Module Com.

Definition msoTrue : Z := (-1)%Z.
Definition ppLayoutBlank : Z := 12%Z.
Definition ppAlignCenter : Z := 2%Z.
Definition ppAlignLeft : Z := 1%Z.

(** A stretch of text with its own formatting (a [TextRange]).  A
    property that was never assigned is [None]. *)
Record run : Type := {
  r_text : string;
  r_bullet : option Z;
  r_font_name : option string;
  r_font_size : option Z;
  r_bold : option Z;
  r_color : option Z
}.

Record textbox : Type := {
  tb_orientation : Z;
  tb_left : Q; tb_top : Q; tb_width : Q; tb_height : Q;
  tb_runs : list run;
  tb_alignment : option Z
}.

Record picture : Type := {
  pic_file : string;
  pic_left : Q; pic_top : Q; pic_width : Q; pic_height : Q
}.

(** [Existing] is a shape of the original deck, by name. *)
Inductive shape : Type :=
| Textbox (t : textbox)
| Picture (p : picture)
| Existing (name : string).

Record slide : Type := {
  sl_layout : Z;
  sl_shapes : list shape
}.

(** The presentation that runs the slide show: its slides, the show's
    current position (1-based) and what was last written to the file. *)
Record presentation : Type := {
  slides : list slide;
  show_position : Z;
  saved : list slide
}.

Definition plain_run (text : string) : run :=
  {| r_text := text; r_bullet := None; r_font_name := None;
     r_font_size := None; r_bold := None; r_color := None |}.

(** Setters on a run, one per assigned property. *)
Definition set_bullet (v : Z) (r : run) : run :=
  {| r_text := r_text r; r_bullet := Some v; r_font_name := r_font_name r;
     r_font_size := r_font_size r; r_bold := r_bold r; r_color := r_color r |}.
Definition set_font_name (v : string) (r : run) : run :=
  {| r_text := r_text r; r_bullet := r_bullet r; r_font_name := Some v;
     r_font_size := r_font_size r; r_bold := r_bold r; r_color := r_color r |}.
Definition set_font_size (v : Z) (r : run) : run :=
  {| r_text := r_text r; r_bullet := r_bullet r; r_font_name := r_font_name r;
     r_font_size := Some v; r_bold := r_bold r; r_color := r_color r |}.
Definition set_bold (v : Z) (r : run) : run :=
  {| r_text := r_text r; r_bullet := r_bullet r; r_font_name := r_font_name r;
     r_font_size := r_font_size r; r_bold := Some v; r_color := r_color r |}.
Definition set_color (v : Z) (r : run) : run :=
  {| r_text := r_text r; r_bullet := r_bullet r; r_font_name := r_font_name r;
     r_font_size := r_font_size r; r_bold := r_bold r; r_color := Some v |}.

Definition with_runs (f : list run -> list run) (t : textbox) : textbox :=
  {| tb_orientation := tb_orientation t;
     tb_left := tb_left t; tb_top := tb_top t;
     tb_width := tb_width t; tb_height := tb_height t;
     tb_runs := f (tb_runs t);
     tb_alignment := tb_alignment t |}.

Definition set_alignment (v : Z) (t : textbox) : textbox :=
  {| tb_orientation := tb_orientation t;
     tb_left := tb_left t; tb_top := tb_top t;
     tb_width := tb_width t; tb_height := tb_height t;
     tb_runs := tb_runs t;
     tb_alignment := Some v |}.

(** [TextRange.Text = text] on the whole frame. *)
Definition set_text (text : string) : textbox -> textbox :=
  with_runs (fun _ => if PyStr.nonempty text then [plain_run text] else []).

(** A property assigned on the frame's whole [TextRange]. *)
Definition format_all (f : run -> run) : textbox -> textbox :=
  with_runs (map f).

(** [TextRange.InsertAfter(text)]: the new range comes last. *)
Definition insert_after (text : string) : textbox -> textbox :=
  with_runs (fun runs => runs ++ [plain_run text]).

(** A property assigned on the range [InsertAfter] returned. *)
Fixpoint on_last {A} (f : A -> A) (l : list A) : list A :=
  match l with
  | [] => []
  | [x] => [f x]
  | x :: rest => x :: on_last f rest
  end.

Definition format_last (f : run -> run) : textbox -> textbox :=
  with_runs (on_last f).

Definition on_textbox (f : textbox -> textbox) (s : shape) : shape :=
  match s with
  | Textbox t => Textbox (f t)
  | other => other
  end.

(** [Shapes.AddTextbox(orientation, left, top, width, height)]: a new,
    empty text box on top of the others. *)
Definition AddTextbox (orientation : Z) (l t w h : Q) (shapes : list shape) : list shape :=
  shapes ++ [Textbox {| tb_orientation := orientation;
                        tb_left := l; tb_top := t; tb_width := w; tb_height := h;
                        tb_runs := []; tb_alignment := None |}].

Definition AddPicture (file : string) (l t w h : Q) (shapes : list shape) : list shape :=
  shapes ++ [Picture {| pic_file := file; pic_left := l; pic_top := t;
                        pic_width := w; pic_height := h |}].

(** [Shapes(i).Delete()], [i] counted from 1. *)
Fixpoint delete_nth {A} (n : nat) (l : list A) : list A :=
  match n, l with
  | _, [] => []
  | 0, _ :: rest => rest
  | S k, x :: rest => x :: delete_nth k rest
  end.

Definition Delete (i : nat) (shapes : list shape) : list shape :=
  delete_nth (i - 1) shapes.

(** 1-based access into a collection; [None] when out of range (the COM
    call raises). *)
Definition item {A} (l : list A) (i : Z) : option A :=
  if ((1 <=? i) && (i <=? Z.of_nat (length l)))%Z
  then nth_error l (Z.to_nat (i - 1)) else None.

Fixpoint replace_nth {A} (n : nat) (x : A) (l : list A) : list A :=
  match n, l with
  | _, [] => []
  | 0, _ :: rest => x :: rest
  | S k, y :: rest => y :: replace_nth k x rest
  end.

Fixpoint insert_at {A} (n : nat) (x : A) (l : list A) : list A :=
  match n, l with
  | 0, _ => x :: l
  | S k, [] => [x]
  | S k, y :: rest => y :: insert_at k x rest
  end.

Definition with_slides (f : list slide -> list slide) (p : presentation) : presentation :=
  {| slides := f (slides p); show_position := show_position p; saved := saved p |}.

(** [Slides.Add(index, layout)]: a new slide with no shape at [index];
    the index must lie in 1..Count+1. *)
Definition SlidesAdd (index layout : Z) (p : presentation) : option presentation :=
  if ((1 <=? index) && (index <=? Z.of_nat (length (slides p)) + 1))%Z
  then Some (with_slides
               (insert_at (Z.to_nat (index - 1))
                          {| sl_layout := layout; sl_shapes := [] |}) p)
  else None.

(** The shapes of slide [index] replaced. *)
Definition set_shapes (index : Z) (shapes : list shape) : presentation -> presentation :=
  with_slides (fun sl =>
    match nth_error sl (Z.to_nat (index - 1)) with
    | Some s => replace_nth (Z.to_nat (index - 1))
                  {| sl_layout := sl_layout s; sl_shapes := shapes |} sl
    | None => sl
    end).

(** [SlideShowWindow.View.GotoSlide(index)]. *)
Definition GotoSlide (index : Z) (p : presentation) : option presentation :=
  if ((1 <=? index) && (index <=? Z.of_nat (length (slides p))))%Z
  then Some {| slides := slides p; show_position := index; saved := saved p |}
  else None.

Definition Save (p : presentation) : presentation :=
  {| slides := slides p; show_position := show_position p; saved := slides p |}.

End Com.
Export Com.

(* ===================================================================== *)
(** * The style guide (theme_analyzer.py, get_style) *)
(* ===================================================================== *)

(** [get_style] returns a dict with exactly these six keys, or [None].  The
    sizes are points as python-pptx reports them (a float, or the integer
    default); the colours are [str(RGBColor)], six hexadecimal digits. *)
Record style : Type := {
  title_font_name : string;
  title_font_size : Q;
  body_font_name : string;
  body_font_size : Q;
  primary_color_rgb : string;
  accent_color_rgb : string
}.

Module PyNum.

(** [int(x)] on a float: truncation towards zero. *)
Definition int_of_float (q : Q) : Z :=
  if Qle_bool (0 # 1) q then Qfloor q else Qceiling q.

Definition hex_digit (c : ascii) : option Z :=
  let n := nat_of_ascii c in
  if (48 <=? n) && (n <=? 57) then Some (Z.of_nat (n - 48))
  else if (65 <=? n) && (n <=? 70) then Some (Z.of_nat (n - 55))
  else if (97 <=? n) && (n <=? 102) then Some (Z.of_nat (n - 87))
  else None.

Fixpoint hex_from (acc : Z) (s : string) : option Z :=
  match s with
  | EmptyString => Some acc
  | String c rest =>
      match hex_digit c with
      | Some d => hex_from (16 * acc + d)%Z rest
      | None => None
      end
  end.

(** [int(s, 16)] on a string of hexadecimal digits, which is what the
    style guide holds; [None] stands for [ValueError]. *)
Definition int_base16 (s : string) : option Z :=
  match s with
  | EmptyString => None
  | _ => hex_from 0%Z s
  end.

End PyNum.

(* ===================================================================== *)
(** * slide_updater.py *)
(* ===================================================================== *)

(** The deck file as python-pptx reads it in [get_text_from_slide]. *)
Inductive pptx_shape : Type :=
| NoTextFrame                 (* [hasattr(shape, "text_frame")] is false *)
| TextFrame (text : string)   (* [shape.text_frame.text] *)
| BrokenShape.                (* reading the shape raises *)

Inductive deck_file : Type :=
| FileMissing                               (* [os.path.exists] is false *)
| FileUnreadable                            (* [Presentation(path)] raises *)
| FileDeck (file_slides : list (list pptx_shape)).

Module SlideUpdater.
Import PyStr PyNum.

(** ** Code that mutates the shapes of one slide and may raise

    [M A] threads the shapes of the target slide; [None] in the result is
    a raised exception, and the shapes reached so far stay as they are. *)
Definition M (A : Type) : Type := list shape -> list shape * option A.

Definition ret {A} (a : A) : M A := fun shapes => (shapes, Some a).
Definition raise {A} : M A := fun shapes => (shapes, None).
Definition bind {A B} (m : M A) (k : A -> M B) : M B :=
  fun shapes =>
    match m shapes with
    | (shapes', Some a) => k a shapes'
    | (shapes', None) => (shapes', None)
    end.
Definition lift {A} (o : option A) : M A :=
  match o with Some a => ret a | None => raise end.
Definition modify (f : list shape -> list shape) : M unit :=
  fun shapes => (f shapes, Some tt).

Notation "x <- m ;; k" := (bind m (fun x => k))
  (at level 100, m at next level, right associativity).
Notation "m ;; k" := (bind m (fun _ => k))
  (at level 100, right associativity).

Fixpoint for_each {A} (items : list A) (body : A -> M unit) : M unit :=
  match items with
  | [] => ret tt
  | x :: rest => body x ;; for_each rest body
  end.

(** A property assigned through the box that was added last. *)
Definition on_box (f : textbox -> textbox) : M unit :=
  modify (on_last (on_textbox f)).

Definition inch_to_points (i : Q) : Q := (i * (72 # 1))%Q.

(** Truthiness of a path that may be [None]. *)
Definition path_truthy (p : option string) : bool :=
  match p with Some s => nonempty s | None => false end.

Section WithCollaborators.
Variable E : collaborators.

(** [get_current_slide_index]; [active] is what [_get_active_presentation]
    finds: the open presentation of this path that has a slide show
    window, or [None]. *)
Definition get_current_slide_index (active : option presentation) : option Z :=
  match active with
  | Some pres => Some (show_position pres)
  | None => None
  end.

(** The loop of [get_text_from_slide] over the shapes; [None] when
    reading a shape raises. *)
Fixpoint shape_texts (shapes : list pptx_shape) (all_text : list string)
  : option (list string) :=
  match shapes with
  | [] => Some all_text
  | NoTextFrame :: rest => shape_texts rest all_text
  | TextFrame text :: rest =>
      shape_texts rest (if nonempty text then all_text ++ [text] else all_text)
  | BrokenShape :: _ => None
  end.

Definition get_text_from_slide (file : deck_file) (slide_index : Z) : string :=
  match file with
  | FileMissing => EmptyString
  | FileUnreadable => EmptyString
  | FileDeck prs_slides =>
      if negb ((0 <? slide_index)%Z && (slide_index <=? Z.of_nat (length prs_slides))%Z)
      then EmptyString
      else
        match nth_error prs_slides (Z.to_nat (slide_index - 1)) with
        | None => EmptyString
        | Some slide_shapes =>
            match shape_texts slide_shapes [] with
            | Some all_text => join nl all_text
            | None => EmptyString
            end
        end
  end.

(** The visual of a slide: the chart when [chart_data] is truthy,
    otherwise the icon for [image_suggestion] and, failing that, the
    image. *)
Definition resolve_visual (content_json : json) : M (option string) :=
  chart_data <- lift (get content_json "chart_data") ;;
  if truthy chart_data then ret (create_chart E chart_data)
  else
    image_suggestion <- lift (get content_json "image_suggestion") ;;
    if truthy image_suggestion then
      let visual_path := get_icon E image_suggestion in
      if negb (path_truthy visual_path) then ret (get_image E image_suggestion)
      else ret visual_path
    else ret None.

Definition _add_content_to_slide (content_json : json) (style_guide : option style)
  : M unit :=
  layout <- lift (get_default content_json "layout" (JStr "text_left_visual_right")) ;;
  visual_path <- resolve_visual content_json ;;
  let text_box_width :=
    if path_truthy visual_path then inch_to_points (11 # 2) else inch_to_points (9 # 1) in
  (* Add Title *)
  modify (AddTextbox 1 (inch_to_points (1 # 2)) (inch_to_points (1 # 5))
                     text_box_width (inch_to_points (3 # 2))) ;;
  title <- lift (get_default content_json "title" (JStr "New Topic")) ;;
  title_text <- lift (com_text E title) ;;
  on_box (set_text title_text) ;;
  sg <- lift style_guide ;;
  on_box (format_all (set_font_name (title_font_name sg))) ;;
  on_box (format_all (set_font_size (int_of_float (title_font_size sg)))) ;;
  on_box (format_all (set_bold msoTrue)) ;;
  primary <- lift (int_base16 (primary_color_rgb sg)) ;;
  on_box (format_all (set_color primary)) ;;
  on_box (set_alignment (if negb (path_truthy visual_path) then ppAlignCenter else ppAlignLeft)) ;;
  (* Add Body *)
  modify (AddTextbox 1 (inch_to_points (1 # 2)) (inch_to_points (9 # 5))
                     text_box_width (inch_to_points (5 # 1))) ;;
  on_box (set_text EmptyString) ;;
  points <- lift (get_default content_json "points" (JArr [])) ;;
  items <- lift (iterate points) ;;
  for_each items (fun point_text =>
    line <- lift (add_str point_text crlf) ;;
    on_box (insert_after line) ;;
    on_box (format_last (set_bullet msoTrue)) ;;
    on_box (format_last (set_font_name (body_font_name sg))) ;;
    on_box (format_last (set_font_size (int_of_float (body_font_size sg)))) ;;
    accent <- lift (int_base16 (accent_color_rgb sg)) ;;
    on_box (format_last (set_color accent))) ;;
  on_box (set_alignment ppAlignLeft) ;;
  (* Add Branding Watermark *)
  modify (AddTextbox 1 (inch_to_points (1 # 5)) (inch_to_points (36 # 5))
                     (inch_to_points (2 # 1)) (inch_to_points (1 # 2))) ;;
  on_box (set_text "Updated live by Savi.ai") ;;
  on_box (format_all (set_font_size 10)) ;;
  logo_color <- lift (int_base16 "A0A0A0") ;;
  on_box (format_all (set_color logo_color)) ;;
  (* Add the visual if one was created *)
  match visual_path with
  | Some path =>
      if nonempty path && path_exists E path then
        if picture_loads E (abspath E path) then
          modify (AddPicture (abspath E path)
                             (inch_to_points (6 # 1)) (inch_to_points (5 # 2))
                             (inch_to_points (7 # 2)) (inch_to_points (7 # 2)))
        else raise
      else ret tt
  | None => ret tt
  end.

(** [for i in range(Shapes.Count, 0, -1): Shapes(i).Delete()] *)
Fixpoint delete_down (i : nat) (shapes : list shape) : list shape :=
  match i with
  | 0 => shapes
  | S k => delete_down k (Delete i shapes)
  end.

Definition delete_all_shapes (shapes : list shape) : list shape :=
  delete_down (length shapes) shapes.

(** What the [try] block leaves behind: the presentation as mutated up to
    the end or up to the exception.  The flag tells which; the callers do
    not see it, since both methods return [None] on every path. *)
Definition outcome : Type := presentation * bool.

Definition insert_try (pres : presentation) (slide_index : Z)
           (content_json : json) (style_guide : option style) : outcome :=
  let new_slide_index := (slide_index + 1)%Z in
  match SlidesAdd new_slide_index ppLayoutBlank pres with
  | None => (pres, false)
  | Some pres1 =>
      match _add_content_to_slide content_json style_guide [] with
      | (shapes, None) => (set_shapes new_slide_index shapes pres1, false)
      | (shapes, Some _) =>
          let pres2 := set_shapes new_slide_index shapes pres1 in
          match GotoSlide new_slide_index pres2 with
          | None => (pres2, false)
          | Some pres3 => (Save pres3, true)
          end
      end
  end.

Definition insert_new_slide_after_current (active : option presentation)
           (slide_index : Z) (content_json : json) (style_guide : option style)
  : option presentation :=
  match active with
  | None => None
  | Some pres => Some (fst (insert_try pres slide_index content_json style_guide))
  end.

Definition update_try (pres : presentation) (slide_index : Z)
           (content_json : json) (style_guide : option style) : outcome :=
  match item (slides pres) slide_index with
  | None => (pres, false)
  | Some target_slide =>
      let cleared := delete_all_shapes (sl_shapes target_slide) in
      match _add_content_to_slide content_json style_guide cleared with
      | (shapes, None) => (set_shapes slide_index shapes pres, false)
      | (shapes, Some _) =>
          let pres2 := set_shapes slide_index shapes pres in
          match GotoSlide slide_index pres2 with
          | None => (pres2, false)
          | Some pres3 => (Save pres3, true)
          end
      end
  end.

Definition update_existing_slide (active : option presentation)
           (slide_index : Z) (content_json : json) (style_guide : option style)
  : option presentation :=
  match active with
  | None => None
  | Some pres => Some (fst (update_try pres slide_index content_json style_guide))
  end.

End WithCollaborators.

End SlideUpdater.

(* ===================================================================== *)
(** * main.py: the application state and its methods *)
(* ===================================================================== *)

Module Application.
Import PyStr.

(** What [_set_status] posts to the status widgets. *)
Record status_t : Type := {
  st_text : string;
  st_color : string;
  st_pulse : bool
}.

(** A thread started by [handle_update] on [_generate_and_apply], with
    the arguments it was given and how far it has come: before the
    content call, between the content call and the deck call, or at its
    end. *)
Inductive phase : Type :=
| Started
| Generated (content : json)
| Finished.

Record worker : Type := {
  w_topic : string;
  w_slide_index : Z;
  w_is_update : bool;
  w_action_text : string;
  w_phase : phase
}.

(** The attributes of [Application] the core uses, together with what
    they refer to outside the process: the deck file, the running
    presentation, the threads started by [handle_update], and the
    prompts sent to the remote model so far. *)
Record app : Type := {
  pptx_file : deck_file;
  style_guide : option style;
  slide_updater : bool;                    (* [self.slide_updater] is not [None] *)
  is_running : bool;
  is_checking : bool;
  speech_queue : list string;
  speech_buffer : list string;             (* [deque(maxlen=10)] *)
  generated_slide_indices : gset Z;
  status : status_t;
  powerpoint : option presentation;
  workers : list worker;
  model_log : list string
}.

Definition maxlen : nat := 10.

Definition set_is_checking (v : bool) (a : app) : app :=
  {| pptx_file := pptx_file a; style_guide := style_guide a;
     slide_updater := slide_updater a; is_running := is_running a;
     is_checking := v;
     speech_queue := speech_queue a; speech_buffer := speech_buffer a;
     generated_slide_indices := generated_slide_indices a;
     status := status a; powerpoint := powerpoint a;
     workers := workers a; model_log := model_log a |}.

Definition set_speech (queue buffer : list string) (a : app) : app :=
  {| pptx_file := pptx_file a; style_guide := style_guide a;
     slide_updater := slide_updater a; is_running := is_running a;
     is_checking := is_checking a;
     speech_queue := queue; speech_buffer := buffer;
     generated_slide_indices := generated_slide_indices a;
     status := status a; powerpoint := powerpoint a;
     workers := workers a; model_log := model_log a |}.

Definition set_generated_slide_indices (v : gset Z) (a : app) : app :=
  {| pptx_file := pptx_file a; style_guide := style_guide a;
     slide_updater := slide_updater a; is_running := is_running a;
     is_checking := is_checking a;
     speech_queue := speech_queue a; speech_buffer := speech_buffer a;
     generated_slide_indices := v;
     status := status a; powerpoint := powerpoint a;
     workers := workers a; model_log := model_log a |}.

Definition set_powerpoint (v : option presentation) (a : app) : app :=
  {| pptx_file := pptx_file a; style_guide := style_guide a;
     slide_updater := slide_updater a; is_running := is_running a;
     is_checking := is_checking a;
     speech_queue := speech_queue a; speech_buffer := speech_buffer a;
     generated_slide_indices := generated_slide_indices a;
     status := status a; powerpoint := v;
     workers := workers a; model_log := model_log a |}.

Definition set_workers (v : list worker) (a : app) : app :=
  {| pptx_file := pptx_file a; style_guide := style_guide a;
     slide_updater := slide_updater a; is_running := is_running a;
     is_checking := is_checking a;
     speech_queue := speech_queue a; speech_buffer := speech_buffer a;
     generated_slide_indices := generated_slide_indices a;
     status := status a; powerpoint := powerpoint a;
     workers := v; model_log := model_log a |}.

(** A prompt goes out to the remote model. *)
Definition log_call (prompt : string) (a : app) : app :=
  {| pptx_file := pptx_file a; style_guide := style_guide a;
     slide_updater := slide_updater a; is_running := is_running a;
     is_checking := is_checking a;
     speech_queue := speech_queue a; speech_buffer := speech_buffer a;
     generated_slide_indices := generated_slide_indices a;
     status := status a; powerpoint := powerpoint a;
     workers := workers a; model_log := model_log a ++ [prompt] |}.

(** [_set_status(text, color, pulse)] *)
Definition _set_status (text color : string) (pulse : bool) (a : app) : app :=
  {| pptx_file := pptx_file a; style_guide := style_guide a;
     slide_updater := slide_updater a; is_running := is_running a;
     is_checking := is_checking a;
     speech_queue := speech_queue a; speech_buffer := speech_buffer a;
     generated_slide_indices := generated_slide_indices a;
     status := {| st_text := text; st_color := color; st_pulse := pulse |};
     powerpoint := powerpoint a;
     workers := workers a; model_log := model_log a |}.

(** The transcriber's callback: [speech_queue.put(text)]. *)
Definition put_speech (text : string) (a : app) : app :=
  set_speech (speech_queue a ++ [text]) (speech_buffer a) a.

(** [process_speech_queue]: the queue is drained into the buffer, oldest
    first. *)
Fixpoint drain (queue buffer : list string) : list string :=
  match queue with
  | [] => buffer
  | text :: rest => drain rest (Deque.append maxlen buffer text)
  end.

Definition process_speech_queue (a : app) : app :=
  set_speech [] (drain (speech_queue a) (speech_buffer a)) a.

(** What happens to the speech between two checks: the transcriber puts
    a text on the queue, or the 200 ms timer runs
    [process_speech_queue]. *)
Inductive speech_event : Type :=
| Put (text : string)
| Tick.

Definition speech_step (a : app) (e : speech_event) : app :=
  match e with
  | Put text => put_speech text a
  | Tick => process_speech_queue a
  end.

Definition speech_run (events : list speech_event) (a : app) : app :=
  fold_left speech_step events a.

Fixpoint put_texts (events : list speech_event) : list string :=
  match events with
  | [] => []
  | Put text :: rest => text :: put_texts rest
  | Tick :: rest => put_texts rest
  end.

Section WithCollaborators.
Variable E : collaborators.

(** [handle_update]: the status line, then a new thread on
    [_generate_and_apply]. *)
Definition handle_update (topic : string) (slide_index : Z) (is_update : bool)
           (a : app) : app :=
  let action_text := if is_update then "Updating" else "Inserting" in
  let a1 := _set_status ("New topic '" +:+ topic +:+ "'. Generating content...")
                        "#FBBC05" false a in
  set_workers (workers a1 ++
               [{| w_topic := topic; w_slide_index := slide_index;
                   w_is_update := is_update; w_action_text := action_text;
                   w_phase := Started |}]) a1.

(** [_generate_and_apply], first half: the content call and the test on
    its result.  [None] is the [else] branch. *)
Definition generate_step (topic action_text : string) (a : app) : app * option json :=
  let a1 := log_call (ContentGenerator.content_prompt topic) a in
  match ContentGenerator.generate_slide_content E topic with
  | Some content =>
      if truthy content
      then (_set_status (action_text +:+ " slide...") "#FBBC05" false a1, Some content)
      else (_set_status "Failed to generate content. Listening..." "#EA4335" false a1, None)
  | None => (_set_status "Failed to generate content. Listening..." "#EA4335" false a1, None)
  end.

(** [_generate_and_apply], second half: the deck call, the tracking of
    the new index on the insert path, and the status line. *)
Definition apply_step (slide_index : Z) (is_update : bool) (content : json)
           (a : app) : app :=
  let a1 :=
    if is_update then
      set_powerpoint
        (SlideUpdater.update_existing_slide E (powerpoint a) slide_index content
                                            (style_guide a)) a
    else
      let new_slide_index := (slide_index + 1)%Z in
      let a' :=
        set_powerpoint
          (SlideUpdater.insert_new_slide_after_current E (powerpoint a) slide_index
                                                       content (style_guide a)) a in
      set_generated_slide_indices ({[ new_slide_index ]} ∪ generated_slide_indices a') a'
  in
  _set_status "Listening for speech..." "#4285F4" true a1.

(** [_generate_and_apply] run from its first line to its last. *)
Definition _generate_and_apply (topic : string) (slide_index : Z) (is_update : bool)
           (action_text : string) (a : app) : app :=
  match generate_step topic action_text a with
  | (a1, Some content) => apply_step slide_index is_update content a1
  | (a1, None) => a1
  end.

(** [run_deviation_check].  No call in the [try] block raises (each
    catches its own exceptions), so the [finally] clause is the last
    assignment on every path. *)
Definition run_deviation_check (a : app) : app :=
  let result :=
    if negb (slide_updater a) || (length (speech_buffer a) <? 3) then a
    else
      match SlideUpdater.get_current_slide_index (powerpoint a) with
      | None => a
      | Some current_index =>
          if (current_index =? 0)%Z then a
          else
            let slide_text :=
              SlideUpdater.get_text_from_slide (pptx_file a) current_index in
            let slide_text :=
              if negb (nonempty (strip slide_text)) then "An empty slide."
              else slide_text in
            let recent_speech := join " " (speech_buffer a) in
            let a1 := _set_status "Analyzing speech vs. slide..." "#FBBC05" false a in
            let a2 :=
              log_call (ContentGenerator.deviation_prompt slide_text recent_speech) a1 in
            match ContentGenerator.check_for_deviation E slide_text recent_speech with
            | Some new_topic =>
                if nonempty new_topic then
                  let a3 := set_speech (speech_queue a2)
                                       (Deque.clear (speech_buffer a2)) a2 in
                  let is_update_action :=
                    bool_decide (current_index ∈ generated_slide_indices a3) in
                  handle_update new_topic current_index is_update_action a3
                else _set_status "Listening for speech..." "#4285F4" true a2
            | None => _set_status "Listening for speech..." "#4285F4" true a2
            end
      end
  in
  set_is_checking false result.

(** [periodic_check], as far as the check goes: the flag is raised and a
    thread runs [run_deviation_check], here to its end.  (The timer that
    calls [periodic_check] again is not part of the state.) *)
Definition periodic_check (a : app) : app :=
  if is_running a && negb (is_checking a)
  then run_deviation_check (set_is_checking true a)
  else a.

(** [handle_manual_generate] with the text of the entry field. *)
Definition handle_manual_generate (topic : string) (a : app) : app :=
  if negb (nonempty (strip topic)) then a
  else if negb (slide_updater a) then a
  else
    match SlideUpdater.get_current_slide_index (powerpoint a) with
    | None => a
    | Some current_index =>
        if (current_index =? 0)%Z then a
        else handle_update topic current_index false a
    end.

(** ** Threads

    The threads of [handle_update] run side by side with each other and
    with the caller.  One step of thread [i] is one of the two halves of
    [_generate_and_apply]; any thread that has not finished may take the
    next step. *)
Definition set_phase (ph : phase) (w : worker) : worker :=
  {| w_topic := w_topic w; w_slide_index := w_slide_index w;
     w_is_update := w_is_update w; w_action_text := w_action_text w;
     w_phase := ph |}.

Definition step_worker (i : nat) (a : app) : option app :=
  match nth_error (workers a) i with
  | None => None
  | Some w =>
      match w_phase w with
      | Started =>
          match generate_step (w_topic w) (w_action_text w) a with
          | (a1, Some content) =>
              Some (set_workers (replace_nth i (set_phase (Generated content) w)
                                             (workers a1)) a1)
          | (a1, None) =>
              Some (set_workers (replace_nth i (set_phase Finished w) (workers a1)) a1)
          end
      | Generated content =>
          let a1 := apply_step (w_slide_index w) (w_is_update w) content a in
          Some (set_workers (replace_nth i (set_phase Finished w) (workers a1)) a1)
      | Finished => None
      end
  end.

Definition in_flight (w : worker) : bool :=
  match w_phase w with Finished => false | _ => true end.

(** The number of [_generate_and_apply] threads that have not ended. *)
Definition running_applies (a : app) : nat :=
  length (List.filter in_flight (workers a)).

Inductive step : app -> app -> Prop :=
| step_thread (i : nat) (a a' : app) :
    step_worker i a = Some a' -> step a a'.

(** A schedule names the thread that takes each next step. *)
Fixpoint run_schedule (schedule : list nat) (a : app) : option app :=
  match schedule with
  | [] => Some a
  | i :: rest =>
      match step_worker i a with
      | Some a' => run_schedule rest a'
      | None => None
      end
  end.

Definition phase_of (i : nat) (a : app) : option phase :=
  option_map w_phase (nth_error (workers a) i).

Definition deck_size (a : app) : option nat :=
  option_map (fun pres => length (slides pres)) (powerpoint a).

End WithCollaborators.

End Application.

(* ===================================================================== *)
(** * theme_analyzer.py *)
(* ===================================================================== *)

Module ThemeAnalyzer.

(** [PP_PLACEHOLDER], as far as the analysis tells the members apart. *)
Inductive placeholder_type : Type :=
| TITLE
| CENTER_TITLE
| SUBTITLE
| BODY
| OTHER_PLACEHOLDER.

(** python-pptx's [RGBColor]: three components, each in 0..255. *)
Record RGBColor : Type := { red : nat; green : nat; blue : nat }.

Definition valid_rgb (c : RGBColor) : Prop :=
  red c < 256 /\ green c < 256 /\ blue c < 256.

(** The font of the first paragraph of a placeholder: its name, its size
    (a length in EMU; [.pt] divides by 12700) and its colour, each [None]
    when the master does not set it. *)
Record font : Type := {
  f_name : option string;
  f_size : option Z;
  f_color : option RGBColor
}.

(** A placeholder of a slide master; [ph_font] is [None] when it has no
    text frame. *)
Record placeholder : Type := {
  ph_type : placeholder_type;
  ph_font : option font
}.

Definition hex_char (d : nat) : ascii :=
  if d <? 10 then ascii_of_nat (48 + d) else ascii_of_nat (55 + d).

(** ['%02X' % n] for [n] below 256. *)
Definition hex2 (n : nat) : string :=
  String (hex_char (n / 16)) (String (hex_char (n mod 16)) EmptyString).

(** [str(color)]: ['%02X%02X%02X'] of the three components. *)
Definition str_rgb (c : RGBColor) : string :=
  hex2 (red c) +:+ hex2 (green c) +:+ hex2 (blue c).

Definition rgb_eqb (c d : RGBColor) : bool :=
  (red c =? red d) && (green c =? green d) && (blue c =? blue d).

(** [Counter(items)[x]] *)
Fixpoint count {A} (eqb : A -> A -> bool) (x : A) (items : list A) : nat :=
  match items with
  | [] => 0
  | y :: rest => (if eqb y x then 1 else 0) + count eqb x rest
  end.

(** The key that comes out of [most_common(1)]: going through the items in
    the order they were counted, the best so far is replaced only by an
    item that was counted more often, so that among the most frequent the
    one seen first wins. *)
Fixpoint pick {A} (score : A -> nat) (best : option A) (items : list A) : option A :=
  match items with
  | [] => best
  | x :: rest =>
      pick score
           (match best with
            | None => Some x
            | Some b => if score b <? score x then Some x else Some b
            end) rest
  end.

(** [Counter(items).most_common(1)[0][0] if Counter(items) else default] *)
Definition most_common_or {A} (eqb : A -> A -> bool) (items : list A) (default : A) : A :=
  match pick (fun x => count eqb x items) None items with
  | Some x => x
  | None => default
  end.

Definition is_title_type (t : placeholder_type) : bool :=
  match t with TITLE | CENTER_TITLE | SUBTITLE => true | _ => false end.

Definition is_body_type (t : placeholder_type) : bool :=
  match t with BODY => true | _ => false end.

(** The fonts the two loops of [_analyze_theme] look at: those of the
    placeholders of the wanted kind that have a text frame, master after
    master. *)
Definition fonts_of (wanted : placeholder_type -> bool)
           (slide_masters : list (list placeholder)) : list font :=
  flat_map (fun ph =>
              if wanted (ph_type ph)
              then match ph_font ph with Some f => [f] | None => [] end
              else [])
           (concat slide_masters).

(** [if font.name: names.append(font.name)] *)
Definition names_of (fonts : list font) : list string :=
  flat_map (fun f => match f_name f with
                     | Some name => if PyStr.nonempty name then [name] else []
                     | None => []
                     end) fonts.

(** [if font.size: sizes.append(font.size.pt)] *)
Definition sizes_of (fonts : list font) : list Q :=
  flat_map (fun f => match f_size f with
                     | Some emu => if (emu =? 0)%Z then [] else [(emu # 12700)%Q]
                     | None => []
                     end) fonts.

(** [if hasattr(font.color, 'rgb') and font.color.rgb is not None] *)
Definition colors_of (fonts : list font) : list RGBColor :=
  flat_map (fun f => match f_color f with Some c => [c] | None => [] end) fonts.

(** What a call of [get_style] comes to. *)
Inductive style_result : Type :=
| NoStyle                 (* returns [None] *)
| StyleRaises             (* raises [TypeError] *)
| Style (s : style).

(** [ThemeAnalyzer(path).get_style()].  [prs] is [None] when
    [Presentation(path)] raised.  With no slide master [_analyze_theme]
    returns before it sets [title_font], which [get_style] then
    subscripts. *)
Definition get_style (prs : option (list (list placeholder))) : style_result :=
  match prs with
  | None => NoStyle
  | Some [] => StyleRaises
  | Some slide_masters =>
      let title_fonts := fonts_of is_title_type slide_masters in
      let body_fonts := fonts_of is_body_type slide_masters in
      Style
        {| title_font_name := most_common_or String.eqb (names_of title_fonts) "Calibri";
           title_font_size := most_common_or Qeq_bool (sizes_of title_fonts) (32 # 1)%Q;
           body_font_name := most_common_or String.eqb (names_of body_fonts) "Calibri";
           body_font_size := most_common_or Qeq_bool (sizes_of body_fonts) (18 # 1)%Q;
           primary_color_rgb :=
             str_rgb (most_common_or rgb_eqb (colors_of title_fonts)
                                     {| red := 0; green := 0; blue := 0 |});
           accent_color_rgb :=
             str_rgb (most_common_or rgb_eqb (colors_of body_fonts)
                                     {| red := 89; green := 89; blue := 89 |}) |}
  end.

End ThemeAnalyzer.

(* ===================================================================== *)
(** * voice_processor.py, and the events of a session *)
(* ===================================================================== *)

Module VoiceProcessor.

(** What [recognizer.recognize_whisper] does with a piece of audio: a
    text, or one of the two exceptions that [_audio_callback] catches. *)
Inductive recognition : Type :=
| Recognized (text : string)
| UnknownValueError
| RequestError.

(** [_audio_callback]: the text goes to [text_callback] when it is not
    blank. *)
Definition _audio_callback {S : Type} (text_callback : string -> S -> S)
           (r : recognition) (st : S) : S :=
  match r with
  | Recognized text =>
      if PyStr.nonempty (PyStr.strip text) then text_callback text st else st
  | UnknownValueError => st
  | RequestError => st
  end.

End VoiceProcessor.

Module Session.
Import Application VoiceProcessor.

Definition set_is_running (v : bool) (a : app) : app :=
  {| pptx_file := pptx_file a; style_guide := style_guide a;
     slide_updater := slide_updater a; is_running := v;
     is_checking := is_checking a;
     speech_queue := speech_queue a; speech_buffer := speech_buffer a;
     generated_slide_indices := generated_slide_indices a;
     status := status a; powerpoint := powerpoint a;
     workers := workers a; model_log := model_log a |}.

Definition set_style_guide (v : option style) (a : app) : app :=
  {| pptx_file := pptx_file a; style_guide := v;
     slide_updater := slide_updater a; is_running := is_running a;
     is_checking := is_checking a;
     speech_queue := speech_queue a; speech_buffer := speech_buffer a;
     generated_slide_indices := generated_slide_indices a;
     status := status a; powerpoint := powerpoint a;
     workers := workers a; model_log := model_log a |}.

(** [self.slide_updater = SlideUpdater(path)]: from now on the updater
    reads the file at the new path. *)
Definition set_slide_updater (file : deck_file) (a : app) : app :=
  {| pptx_file := file; style_guide := style_guide a;
     slide_updater := true; is_running := is_running a;
     is_checking := is_checking a;
     speech_queue := speech_queue a; speech_buffer := speech_buffer a;
     generated_slide_indices := generated_slide_indices a;
     status := status a; powerpoint := powerpoint a;
     workers := workers a; model_log := model_log a |}.

(** The file picked in the dialog of [select_file_and_start_show], as the
    program gets to see it: its slides and its slide masters as
    python-pptx reads them, and the presentation that runs once
    [start_presentation_show] has succeeded ([None] when it fails). *)
Record chosen_deck : Type := {
  cd_file : deck_file;
  cd_masters : option (list (list ThemeAnalyzer.placeholder));
  cd_show : option presentation
}.

(** [select_file_and_start_show]; [choice] is [None] when the dialog is
    closed without a file. *)
Definition select_file_and_start_show (choice : option chosen_deck) (a : app) : app :=
  match choice with
  | None => a
  | Some deck =>
      let a1 := set_generated_slide_indices ∅ a in
      match ThemeAnalyzer.get_style (cd_masters deck) with
      | ThemeAnalyzer.StyleRaises => a1
      | ThemeAnalyzer.NoStyle => set_style_guide None a1
      | ThemeAnalyzer.Style sg =>
          let a2 := set_slide_updater (cd_file deck) (set_style_guide (Some sg) a1) in
          match cd_show deck with
          | Some pres =>
              _set_status "Slideshow running. Ready." "#34A853" false
                          (set_powerpoint (Some pres) a2)
          | None => set_powerpoint None a2
          end
      end
  end.

Section WithCollaborators.
Variable E : collaborators.

(** [start_processing]: the flag, the status, the first [periodic_check];
    the voice thread it starts is the source of the [Heard] events below,
    with the callback of line 163. *)
Definition start_processing (a : app) : app :=
  periodic_check E
    (_set_status "Listening for speech..." "#4285F4" true (set_is_running true a)).

(** [stop_processing] *)
Definition stop_processing (a : app) : app :=
  _set_status "Stopped. Ready to start again." "#34A853" false (set_is_running false a).

(** All that can happen once a deck is selected: the buttons, the voice
    thread's callback, the two timers, and a step of a thread started by
    [handle_update]. *)
Inductive event : Type :=
| Start
| Stop
| Heard (r : recognition)
| QueueTimer
| CheckTimer
| ManualGenerate (topic : string)
| ThreadStep (i : nat).

Definition handle (a : app) (e : event) : app :=
  match e with
  | Start => start_processing a
  | Stop => stop_processing a
  | Heard r => _audio_callback put_speech r a
  | QueueTimer => process_speech_queue a
  | CheckTimer => periodic_check E a
  | ManualGenerate topic => handle_manual_generate topic a
  | ThreadStep i =>
      match step_worker E i a with
      | Some a' => a'
      | None => a
      end
  end.

Definition run (events : list event) (a : app) : app :=
  fold_left handle events a.

Definition is_thread_step (e : event) : bool :=
  match e with ThreadStep _ => true | _ => false end.

End WithCollaborators.

End Session.

(* ===================================================================== *)
(** * Vocabulary of the statements, and sample inputs *)
(* ===================================================================== *)

(** The last [n] items of a list. *)
Definition last_n {A} (n : nat) (l : list A) : list A :=
  skipn (length l - n) l.

(** The texts [get_text_from_slide] is after: those of the shapes that
    have a text frame with some text in it, in the order of the shapes. *)
Fixpoint visible_texts (shapes : list pptx_shape) : list string :=
  match shapes with
  | [] => []
  | TextFrame text :: rest =>
      if PyStr.nonempty text then text :: visible_texts rest else visible_texts rest
  | _ :: rest => visible_texts rest
  end.

Fixpoint has_broken (shapes : list pptx_shape) : bool :=
  match shapes with
  | [] => false
  | BrokenShape :: _ => true
  | _ :: rest => has_broken rest
  end.

(** The slide text a detection cycle sends to the model (lines 193-194 of
    main.py): the text of the slide, or a fixed phrase when it is blank. *)
Definition checked_slide_text (file : deck_file) (current_index : Z) : string :=
  let slide_text := SlideUpdater.get_text_from_slide file current_index in
  if negb (PyStr.nonempty (PyStr.strip slide_text)) then "An empty slide."
  else slide_text.

(** [get_current_slide_index] gave nothing to work on: [None], or an index
    that is falsy. *)
Definition no_current_slide (a : Application.app) : Prop :=
  SlideUpdater.get_current_slide_index (Application.powerpoint a) = None
  \/ SlideUpdater.get_current_slide_index (Application.powerpoint a) = Some 0%Z.

(** Every character of a string passes a test. *)
Fixpoint all_chars (p : ascii -> bool) (s : string) : bool :=
  match s with
  | EmptyString => true
  | String c rest => p c && all_chars p rest
  end.

(** An utterance with something other than blanks in it. *)
Definition not_blank (text : string) : Prop :=
  PyStr.strip text <> EmptyString.

(** [String.append] unfolded on a string that starts with a known
    constructor. *)
Ltac red_append :=
  repeat match goal with
         | |- context [String.append EmptyString ?s] =>
             change (String.append EmptyString s) with s
         | |- context [String.append (String ?c ?r) ?s] =>
             change (String.append (String c r) s) with (String c (String.append r s))
         | H : context [String.append EmptyString ?s] |- _ =>
             change (String.append EmptyString s) with s in H
         | H : context [String.append (String ?c ?r) ?s] |- _ =>
             change (String.append (String c r) s)
               with (String c (String.append r s)) in H
         end.

(** A character that [str.splitlines] does not split at. *)
Definition not_linebreak (c : ascii) : bool := negb (PyStr.is_linebreak c).

(** A piece of layout code that works on the shapes it finds at the end
    of the slide and leaves those before them alone: run after some shapes
    [pre], it does what it does without them, behind them. *)
Definition appends {A} (m : SlideUpdater.M A) : Prop :=
  forall pre l : list shape,
    l <> [] ->
    m (pre ++ l) = (pre ++ fst (m l), snd (m l)) /\ fst (m l) <> [].

(** Layout code that does not touch the shapes at all. *)
Definition reads_only {A} (m : SlideUpdater.M A) : Prop :=
  forall shapes : list shape, m shapes = (shapes, snd (m [])).

(** Layout code that only adds shapes, the same ones whatever is there. *)
Definition frames {A} (m : SlideUpdater.M A) : Prop :=
  forall pre : list shape, m pre = (pre ++ fst (m []), snd (m [])).

(** Two text boxes that differ in their text at most. *)
Definition same_frame (t t' : textbox) : Prop :=
  tb_orientation t' = tb_orientation t
  /\ tb_left t' = tb_left t /\ tb_top t' = tb_top t
  /\ tb_width t' = tb_width t /\ tb_height t' = tb_height t
  /\ tb_alignment t' = tb_alignment t.

(** Layout code that, run on a slide that ends with a text box, changes
    the text of that box and nothing else, whether or not it raises. *)
Definition keeps_box {A} (m : SlideUpdater.M A) : Prop :=
  forall (pre : list shape) (t : textbox),
  exists t', fst (m (pre ++ [Textbox t])) = pre ++ [Textbox t'] /\ same_frame t t'.

(** The width of the two text boxes, by the visual that was resolved. *)
Definition text_width (visual_path : option string) : Q :=
  if SlideUpdater.path_truthy visual_path
  then SlideUpdater.inch_to_points (11 # 2)
  else SlideUpdater.inch_to_points (9 # 1).

(** The picture that goes with a resolved visual, if any. *)
Definition picture_of (E : collaborators) (visual_path : option string) : list shape :=
  match visual_path with
  | Some path =>
      if PyStr.nonempty path && path_exists E path
      then [Picture {| pic_file := abspath E path;
                       pic_left := SlideUpdater.inch_to_points (6 # 1);
                       pic_top := SlideUpdater.inch_to_points (5 # 2);
                       pic_width := SlideUpdater.inch_to_points (7 # 2);
                       pic_height := SlideUpdater.inch_to_points (7 # 2) |}]
      else []
  | None => []
  end.

(** The title box of a slide laid out for [title_text], by the visual
    that was resolved. *)
Definition title_box (sg : style) (primary : Z) (visual_path : option string)
           (title_text : string) : textbox :=
  {| tb_orientation := 1%Z;
     tb_left := SlideUpdater.inch_to_points (1 # 2);
     tb_top := SlideUpdater.inch_to_points (1 # 5);
     tb_width := text_width visual_path;
     tb_height := SlideUpdater.inch_to_points (3 # 2);
     tb_runs :=
       if PyStr.nonempty title_text
       then [ {| r_text := title_text; r_bullet := None;
                 r_font_name := Some (title_font_name sg);
                 r_font_size := Some (PyNum.int_of_float (title_font_size sg));
                 r_bold := Some msoTrue;
                 r_color := Some primary |} ]
       else [];
     tb_alignment :=
       Some (if SlideUpdater.path_truthy visual_path then ppAlignLeft
             else ppAlignCenter) |}.

(** One bulleted line of the body. *)
Definition body_run (sg : style) (accent : Z) (text : string) : run :=
  {| r_text := text +:+ PyStr.crlf; r_bullet := Some msoTrue;
     r_font_name := Some (body_font_name sg);
     r_font_size := Some (PyNum.int_of_float (body_font_size sg));
     r_bold := None;
     r_color := Some accent |}.

(** The body box: one bulleted line per point. *)
Definition body_box (sg : style) (accent : Z) (visual_path : option string)
           (texts : list string) : textbox :=
  {| tb_orientation := 1%Z;
     tb_left := SlideUpdater.inch_to_points (1 # 2);
     tb_top := SlideUpdater.inch_to_points (9 # 5);
     tb_width := text_width visual_path;
     tb_height := SlideUpdater.inch_to_points (5 # 1);
     tb_runs := map (body_run sg accent) texts;
     tb_alignment := Some ppAlignLeft |}.

(** The watermark. *)
Definition logo_box : textbox :=
  {| tb_orientation := 1%Z;
     tb_left := SlideUpdater.inch_to_points (1 # 5);
     tb_top := SlideUpdater.inch_to_points (36 # 5);
     tb_width := SlideUpdater.inch_to_points (2 # 1);
     tb_height := SlideUpdater.inch_to_points (1 # 2);
     tb_runs := [ {| r_text := "Updated live by Savi.ai"; r_bullet := None;
                     r_font_name := None; r_font_size := Some 10%Z;
                     r_bold := None; r_color := Some 10526880%Z |} ];
     tb_alignment := None |}.

(** The shapes of slide [slide_index] of the presentation in use. *)
Definition shapes_on (active : option presentation) (slide_index : Z)
  : option (list shape) :=
  match active with
  | Some pres => option_map sl_shapes (item (slides pres) slide_index)
  | None => None
  end.

(** The collaborators answer at a second moment what they answered at
    the first, as far as the layout of [content_json] asks them: the
    visual that is resolved, the text PowerPoint makes of a value, and
    what the file system and the picture loader say of a path. *)
Definition same_answers (E1 E2 : collaborators) (content_json : json) : Prop :=
  snd (SlideUpdater.resolve_visual E1 content_json [])
  = snd (SlideUpdater.resolve_visual E2 content_json [])
  /\ (forall v, com_text E1 v = com_text E2 v)
  /\ (forall path, path_exists E1 path = path_exists E2 path)
  /\ (forall path, abspath E1 path = abspath E2 path)
  /\ (forall path, picture_loads E1 path = picture_loads E2 path).

(** One statement of the layout is run in [H]; a statement that raises
    ends the case. *)
Ltac run_statement H :=
  unfold SlideUpdater.bind at 1 in H;
  lazymatch type of H with
  | context [match SlideUpdater.lift ?o ?s with _ => _ end] =>
      destruct o eqn:?;
      cbn [SlideUpdater.lift SlideUpdater.ret SlideUpdater.raise] in H;
      [| discriminate H]
  | context [match SlideUpdater.modify ?f ?s with _ => _ end] =>
      cbn [SlideUpdater.modify AddTextbox app] in H
  | context [match SlideUpdater.on_box ?f ?s with _ => _ end] =>
      cbn [SlideUpdater.on_box SlideUpdater.modify on_last on_textbox] in H
  end.

(** Layout code that never raises, whatever shapes it starts from. *)
Definition completes {A} (m : SlideUpdater.M A) : Prop :=
  forall shapes : list shape, exists a, snd (m shapes) = Some a.

(** The shape of the speech store that every event keeps. *)
Definition speech_ok (a : Application.app) : Prop :=
  length (Application.speech_buffer a) <= 10
  /\ Forall not_blank (Application.speech_buffer a)
  /\ Forall not_blank (Application.speech_queue a).

Module Sample.
Import Application PyStr.

(** The model answers [reply] to every prompt; [loads] stands for
    [json.loads]. *)
Definition answering (reply : string) (loads : string -> option json) : collaborators :=
  {| model_generate_content := fun _ => Some reply;
     json_loads := loads;
     create_chart := fun _ => Some "temp_visuals/temp_chart.png";
     get_icon := fun _ => None;
     get_image := fun _ => None;
     path_exists := fun _ => true;
     abspath := fun p => p;
     com_text := fun v => match v with JStr s => Some s | _ => None end;
     picture_loads := fun _ => true |}.

Definition eleven_words : string :=
  "the rapid growth of electric vehicle adoption across all of Europe".

Definition idle_status : status_t :=
  {| st_text := "Idle"; st_color := "#BDBDBD"; st_pulse := false |}.

(** The state [__init__] builds. *)
Definition fresh : app :=
  {| pptx_file := FileMissing; style_guide := None;
     slide_updater := false; is_running := false; is_checking := false;
     speech_queue := []; speech_buffer := [];
     generated_slide_indices := ∅;
     status := idle_status;
     powerpoint := None; workers := []; model_log := [] |}.

Definition deck_q2 : deck_file :=
  FileDeck [ [TextFrame "Q2 Revenue"; NoTextFrame; TextFrame ""; TextFrame "Up 12%"];
             [TextFrame "Outlook"] ].


Definition title_slide : slide :=
  {| sl_layout := 1%Z; sl_shapes := [Existing "Title 1"; Existing "Subtitle 2"] |}.

(** A running show of two slides, on its first slide. *)
Definition show : presentation :=
  {| slides := [title_slide; title_slide]; show_position := 1%Z;
     saved := [title_slide; title_slide] |}.

Definition plain_style : style :=
  {| title_font_name := "Calibri"; title_font_size := 32 # 1;
     body_font_name := "Calibri"; body_font_size := 18 # 1;
     primary_color_rgb := "000000"; accent_color_rgb := "595959" |}.

(** A deck is selected, the show runs, and three utterances are in the
    buffer. *)
Definition listening : app :=
  {| pptx_file := deck_q2; style_guide := Some plain_style;
     slide_updater := true; is_running := true; is_checking := true;
     speech_queue := [];
     speech_buffer := ["revenue grew"; "in the second quarter"; "by twelve percent"];
     generated_slide_indices := ∅;
     status := idle_status;
     powerpoint := Some show; workers := []; model_log := [] |}.


(** The JSON text of an answer that carries a chart and an image
    suggestion at once, with a layout that announces no visual. *)
Definition ev_json_text : string :=
  "{" +:+ dq +:+ "title" +:+ dq +:+ ": " +:+ dq +:+ "EV adoption" +:+ dq +:+ ", "
  +:+ dq +:+ "points" +:+ dq +:+ ": [" +:+ dq +:+ "Sales up 35%" +:+ dq +:+ "], "
  +:+ dq +:+ "image_suggestion" +:+ dq +:+ ": " +:+ dq +:+ "electric car" +:+ dq +:+ ", "
  +:+ dq +:+ "layout" +:+ dq +:+ ": " +:+ dq +:+ "text_only" +:+ dq +:+ ", "
  +:+ dq +:+ "chart_data" +:+ dq +:+ ": {" +:+ dq +:+ "type" +:+ dq +:+ ": "
  +:+ dq +:+ "bar" +:+ dq +:+ ", " +:+ dq +:+ "labels" +:+ dq +:+ ": ["
  +:+ dq +:+ "2022" +:+ dq +:+ ", " +:+ dq +:+ "2023" +:+ dq +:+ "], "
  +:+ dq +:+ "values" +:+ dq +:+ ": [10, 14]}}".

(** The answer of the model around it. *)
Definition ev_reply : string :=
  "Here is the slide:" +:+ nl +:+ ev_json_text +:+ nl.

(** What [json.loads] makes of [ev_json_text]. *)
Definition ev_content : json :=
  JObj [ ("title", JStr "EV adoption");
         ("points", JArr [JStr "Sales up 35%"]);
         ("image_suggestion", JStr "electric car");
         ("layout", JStr "text_only");
         ("chart_data",
          JObj [ ("type", JStr "bar");
                 ("labels", JArr [JStr "2022"; JStr "2023"]);
                 ("values", JArr [JNum (10 # 1); JNum (14 # 1)]) ]) ].

(** [json.loads] on that one text; every other text is taken not to
    parse. *)
Definition ev_loads (text : string) : option json :=
  if String.eqb text ev_json_text then Some ev_content else None.

Definition ev_model : collaborators := answering ev_reply ev_loads.

(** Collaborators whose model answers with no JSON object at all. *)
Definition chatty : collaborators :=
  answering "Sorry, I cannot help with that." (fun _ => None).

(** The show has been closed: [_get_active_presentation] finds nothing. *)
Definition show_closed : app :=
  set_powerpoint None listening.

(** A deck is selected and its show runs on slide 1, but only two
    utterances have come in. *)
Definition two_utterances : app :=
  set_speech [] ["revenue grew"; "in the second quarter"] listening.

(** The model names a topic when asked about a deviation and answers
    [ev_reply] when asked for content. *)
Definition assistant : collaborators :=
  {| model_generate_content :=
       fun prompt =>
         if String.prefix (nl +:+ "        Analyze the following.") prompt
         then Some "Battery prices" else Some ev_reply;
     json_loads := ev_loads;
     create_chart := fun _ => Some "temp_visuals/temp_chart.png";
     get_icon := fun _ => None;
     get_image := fun _ => None;
     path_exists := fun _ => true;
     abspath := fun p => p;
     com_text := fun v => match v with JStr s => Some s | _ => None end;
     picture_loads := fun _ => true |}.

(** [listening] with a thread of [handle_update] in flight: it has its
    content and has not yet inserted the slide behind slide 1. *)
Definition insert_in_flight : app :=
  set_workers [ {| w_topic := "EV adoption"; w_slide_index := 1%Z;
                   w_is_update := false; w_action_text := "Inserting";
                   w_phase := Generated ev_content |} ]
              listening.

(** [listening] after a slide was inserted behind slide 1. *)
Definition after_insert : app :=
  apply_step ev_model 1 false ev_content listening.

(** An afternoon at the desk. *)
Definition afternoon : list Session.event :=
  [ Session.Start;
    Session.Heard (VoiceProcessor.Recognized "   ");
    Session.Heard (VoiceProcessor.Recognized "batteries got cheaper");
    Session.Heard VoiceProcessor.UnknownValueError;
    Session.QueueTimer;
    Session.CheckTimer;
    Session.ManualGenerate "Battery prices";
    Session.Stop ].

Definition arial_red : ThemeAnalyzer.font :=
  {| ThemeAnalyzer.f_name := Some "Arial";
     ThemeAnalyzer.f_size := Some 558800%Z;
     ThemeAnalyzer.f_color :=
       Some {| ThemeAnalyzer.red := 192; ThemeAnalyzer.green := 0;
               ThemeAnalyzer.blue := 0 |} |}.

Definition georgia_plain : ThemeAnalyzer.font :=
  {| ThemeAnalyzer.f_name := Some "Georgia";
     ThemeAnalyzer.f_size := None;
     ThemeAnalyzer.f_color := None |}.

(** One slide master: two title placeholders in Arial, one in Georgia, a
    body in Georgia and a picture placeholder. *)
Definition one_master : list (list ThemeAnalyzer.placeholder) :=
  [ [ {| ThemeAnalyzer.ph_type := ThemeAnalyzer.TITLE;
         ThemeAnalyzer.ph_font := Some georgia_plain |};
      {| ThemeAnalyzer.ph_type := ThemeAnalyzer.CENTER_TITLE;
         ThemeAnalyzer.ph_font := Some arial_red |};
      {| ThemeAnalyzer.ph_type := ThemeAnalyzer.SUBTITLE;
         ThemeAnalyzer.ph_font := Some arial_red |};
      {| ThemeAnalyzer.ph_type := ThemeAnalyzer.BODY;
         ThemeAnalyzer.ph_font := Some georgia_plain |};
      {| ThemeAnalyzer.ph_type := ThemeAnalyzer.OTHER_PLACEHOLDER;
         ThemeAnalyzer.ph_font := None |} ] ].

(** The style guide that [get_style] makes of [one_master]. *)
Definition one_master_style : style :=
  {| title_font_name := "Arial"; title_font_size := (558800 # 12700)%Q;
     body_font_name := "Georgia"; body_font_size := (18 # 1)%Q;
     primary_color_rgb := "C00000"; accent_color_rgb := "595959" |}.

(** A deck that opens and whose show starts. *)
Definition good_deck : Session.chosen_deck :=
  {| Session.cd_file := deck_q2;
     Session.cd_masters := Some one_master;
     Session.cd_show := Some show |}.


(** Collaborators as [ev_model], at a moment when the icon look-up finds
    an icon and saves it. *)
Definition icon_found : collaborators :=
  {| model_generate_content := model_generate_content ev_model;
     json_loads := json_loads ev_model;
     create_chart := create_chart ev_model;
     get_icon := fun _ => Some "temp_visuals/temp_0.png";
     get_image := get_image ev_model;
     path_exists := path_exists ev_model;
     abspath := abspath ev_model;
     com_text := com_text ev_model;
     picture_loads := picture_loads ev_model |}.

(** Content with an image suggestion and no chart. *)
Definition image_content : json :=
  JObj [ ("title", JStr "EV adoption");
         ("points", JArr [JStr "Sales up 35%"]);
         ("image_suggestion", JStr "electric car");
         ("layout", JStr "text_left_visual_right") ].

End Sample.

(* ===================================================================== *)
(** * Properties *)
(* ===================================================================== *)

Section SpeechBuffer.
Import Application.

Lemma append_last_n (b : list string) (x : string) :
  length b <= maxlen ->
  Deque.append maxlen b x = last_n maxlen (b ++ [x]).
Proof.
  intros Hb. unfold Deque.append, last_n, maxlen in *.
  rewrite length_app. simpl length.
  destruct (Nat.ltb_spec 10 (length b + 1)) as [Hlt | Hge].
  - assert (Hlen : length b = 10) by lia.
    destruct b as [| y b']; [discriminate |].
    simpl in Hlen. simpl length.
    replace (S (length b') + 1 - 10) with 1 by lia. reflexivity.
  - replace (length b + 1 - 10) with 0 by lia. reflexivity.
Qed.

Lemma last_n_length {A} (n : nat) (l : list A) :
  length (last_n n l) = Nat.min n (length l).
Proof. unfold last_n. rewrite length_skipn. lia. Qed.

Lemma last_n_app_last_n {A} (n : nat) (l r : list A) :
  last_n n (last_n n l ++ r) = last_n n (l ++ r).
Proof.
  unfold last_n. rewrite !length_app, length_skipn.
  destruct (Nat.le_gt_cases (length l) n) as [Hle | Hgt].
  - replace (length l - n) with 0 by lia. simpl. f_equal. lia.
  - rewrite !skipn_app, length_skipn.
    replace (length l - (length l - n) + length r - n) with (length r) by lia.
    replace (length l + length r - n - length l) with (length r - n) by lia.
    replace (length r - (length l - (length l - n))) with (length r - n) by lia.
    rewrite skipn_skipn. f_equal. f_equal.
    destruct (Nat.le_gt_cases (length r) n); lia.
Qed.

Lemma drain_last_n (queue buffer : list string) :
  length buffer <= maxlen ->
  drain queue buffer = last_n maxlen (buffer ++ queue).
Proof.
  revert buffer. induction queue as [| x queue IH]; intros buffer Hb.
  - simpl. rewrite app_nil_r. unfold last_n.
    replace (length buffer - maxlen) with 0 by lia. reflexivity.
  - simpl. rewrite IH.
    + rewrite append_last_n by exact Hb.
      rewrite last_n_app_last_n, <- app_assoc. reflexivity.
    + rewrite append_last_n by exact Hb. rewrite last_n_length. lia.
Qed.

Lemma drain_length (queue buffer : list string) :
  length buffer <= maxlen -> length (drain queue buffer) <= maxlen.
Proof.
  intros Hb. rewrite drain_last_n by exact Hb. rewrite last_n_length. lia.
Qed.

(** The invariant of the queue and the buffer under puts and ticks. *)
Lemma speech_run_invariant (events : list speech_event) (a : app) :
  length (speech_buffer a) <= maxlen ->
  length (speech_buffer (speech_run events a)) <= maxlen
  /\ last_n maxlen (speech_buffer (speech_run events a)
                    ++ speech_queue (speech_run events a))
     = last_n maxlen (speech_buffer a ++ speech_queue a ++ put_texts events).
Proof.
  revert a. induction events as [| e events IH]; intros a Hb.
  - simpl. rewrite app_nil_r. split; [exact Hb | reflexivity].
  - destruct e as [text |]; simpl speech_run; simpl put_texts.
    + specialize (IH (put_speech text a) Hb). destruct IH as [IH1 IH2].
      split; [exact IH1 |]. unfold speech_run in *. simpl. rewrite IH2. simpl.
      rewrite <- (app_assoc (speech_queue a)). reflexivity.
    + assert (Hd : length (speech_buffer (process_speech_queue a)) <= maxlen)
        by (simpl; apply drain_length; exact Hb).
      specialize (IH (process_speech_queue a) Hd). destruct IH as [IH1 IH2].
      split; [exact IH1 |]. unfold speech_run in *. simpl. rewrite IH2. simpl.
      rewrite drain_last_n by exact Hb.
      rewrite last_n_app_last_n, <- app_assoc. reflexivity.
Qed.

End SpeechBuffer.

Section SpeechBufferClaim.
Import Application.

Lemma last_n_app_long {A} (n : nat) (l r : list A) :
  n <= length r -> last_n n (l ++ r) = last_n n r.
Proof.
  intros Hr. unfold last_n. rewrite length_app, skipn_app.
  replace (length l + length r - n - length l) with (length r - n) by lia.
  rewrite skipn_all2 by lia. reflexivity.
Qed.

(** C8.  Whatever way more than ten utterances are put on the queue and
    drained into the buffer, the buffer ends as exactly the ten put last,
    in the order they came; its length is then ten, and at no point of
    the run is it more than ten. *)
Theorem C8_buffer_keeps_ten_most_recent (events : list speech_event) (a : app) :
  length (speech_buffer a) <= 10 ->
  10 < length (put_texts events) ->
  let a' := process_speech_queue (speech_run events a) in
  speech_buffer a' = last_n 10 (put_texts events)
  /\ length (speech_buffer a') = 10
  /\ (forall before after : list speech_event,
        events = before ++ after ->
        length (speech_buffer (speech_run before a)) <= 10).
Proof.
  intros Hb Hlong a'.
  destruct (speech_run_invariant events a Hb) as [Hlen Hinv].
  assert (Hbuf : speech_buffer a' = last_n 10 (put_texts events)).
  { subst a'. simpl. rewrite drain_last_n by exact Hlen.
    fold maxlen. rewrite Hinv. rewrite app_assoc.
    apply last_n_app_long. unfold maxlen. lia. }
  split; [exact Hbuf |]. split.
  - rewrite Hbuf, last_n_length. lia.
  - intros before after _.
    apply (speech_run_invariant before a Hb).
Qed.

Lemma C8_buffer_keeps_ten_most_recent_witness :
  speech_buffer
    (process_speech_queue
       (speech_run
          [Put "u1"; Put "u2"; Put "u3"; Tick; Put "u4"; Put "u5"; Put "u6";
           Put "u7"; Tick; Put "u8"; Put "u9"; Put "u10"; Put "u11"; Put "u12"]
          Sample.fresh))
  = ["u3"; "u4"; "u5"; "u6"; "u7"; "u8"; "u9"; "u10"; "u11"; "u12"].
Proof.
  refine (proj1 (C8_buffer_keeps_ten_most_recent _ _ _ _)); simpl; lia.
Defined.

End SpeechBufferClaim.

Section SlideText.
Import SlideUpdater PyStr.

Lemma shape_texts_broken (shapes : list pptx_shape) (acc : list string) :
  has_broken shapes = true -> shape_texts shapes acc = None.
Proof.
  revert acc. induction shapes as [| sh rest IH]; intros acc Hb; [discriminate |].
  destruct sh; simpl in *; auto.
Qed.

Lemma shape_texts_sound (shapes : list pptx_shape) (acc : list string) :
  has_broken shapes = false ->
  shape_texts shapes acc = Some (acc ++ visible_texts shapes).
Proof.
  revert acc. induction shapes as [| sh rest IH]; intros acc Hb.
  - simpl. rewrite app_nil_r. reflexivity.
  - destruct sh as [| text |]; simpl in *; [auto | | discriminate].
    destruct (nonempty text); [| auto].
    rewrite IH by exact Hb. rewrite <- app_assoc. reflexivity.
Qed.

(** C10.  [get_text_from_slide] always returns a string: the empty one
    when the deck file is missing or cannot be read, when the index is
    outside 1..number of slides, and when reading a shape fails; for an
    index in range it is the texts of the shapes of that slide (those
    with a text frame that holds some text), joined by newlines. *)
Theorem C10_get_text_from_slide_total (file : deck_file) (slide_index : Z) :
  (file = FileMissing \/ file = FileUnreadable ->
     get_text_from_slide file slide_index = EmptyString)
  /\ (forall prs_slides,
        file = FileDeck prs_slides ->
        (slide_index < 1 \/ Z.of_nat (length prs_slides) < slide_index)%Z ->
        get_text_from_slide file slide_index = EmptyString)
  /\ (forall prs_slides,
        file = FileDeck prs_slides ->
        (1 <= slide_index <= Z.of_nat (length prs_slides))%Z ->
        exists shapes,
          nth_error prs_slides (Z.to_nat (slide_index - 1)) = Some shapes
          /\ get_text_from_slide file slide_index
             = if has_broken shapes then EmptyString
               else join nl (visible_texts shapes)).
Proof.
  split; [| split].
  - intros [-> | ->]; reflexivity.
  - intros prs_slides -> Hout. unfold get_text_from_slide.
    destruct (Z.ltb_spec 0 slide_index); destruct (Z.leb_spec slide_index (Z.of_nat (length prs_slides)));
      simpl; try reflexivity; lia.
  - intros prs_slides -> [Hlo Hhi]. unfold get_text_from_slide.
    destruct (Z.ltb_spec 0 slide_index); [| lia].
    destruct (Z.leb_spec slide_index (Z.of_nat (length prs_slides))); [| lia].
    simpl.
    destruct (nth_error prs_slides (Z.to_nat (slide_index - 1))) as [shapes |] eqn:Hnth.
    + exists shapes. split; [reflexivity |].
      destruct (has_broken shapes) eqn:Hb.
      * rewrite shape_texts_broken by exact Hb. reflexivity.
      * rewrite shape_texts_sound by exact Hb. reflexivity.
    + apply nth_error_None in Hnth. lia.
Qed.

Lemma C10_get_text_from_slide_total_witness :
  exists shapes,
    nth_error [ [TextFrame "Q2 Revenue"; NoTextFrame; TextFrame ""; TextFrame "Up 12%"];
                [TextFrame "Outlook"] ] (Z.to_nat (1 - 1)) = Some shapes
    /\ get_text_from_slide Sample.deck_q2 1
       = if has_broken shapes then EmptyString else join nl (visible_texts shapes).
Proof.
  refine (proj2 (proj2 (C10_get_text_from_slide_total Sample.deck_q2 1)) _ _ _).
  - reflexivity.
  - simpl. lia.
Defined.

End SlideText.

Section Deviation.
Import ContentGenerator PyStr.
Variable E : collaborators.

Lemma nonempty_length (s : string) :
  (0 <? String.length s) = true -> s <> EmptyString.
Proof. destruct s; [discriminate | congruence]. Qed.

(** C7.  [check_for_deviation] always returns: with no topic when the
    call to the model fails, when the answer is blank, and when its last
    line reads none in whatever case; and a topic it returns is never
    empty, never reads none, and is the last line of the answer without
    the blanks around it.  How many words that line has is not looked
    at. *)
Theorem C7_deviation_topic_is_last_line (slide_text speech_text : string) :
  let answer := model_generate_content E (deviation_prompt slide_text speech_text) in
  match check_for_deviation E slide_text speech_text with
  | Some topic =>
      topic <> EmptyString
      /\ lower topic <> "none"
      /\ exists text line,
           answer = Some text
           /\ last_error_line (splitlines (strip text)) = Some line
           /\ topic = strip line
  | None =>
      answer = None
      \/ (exists text, answer = Some text /\ splitlines (strip text) = [])
      \/ (exists text line,
            answer = Some text
            /\ last_error_line (splitlines (strip text)) = Some line
            /\ (lower (strip line) = "none" \/ strip line = EmptyString))
  end.
Proof.
  intros answer. subst answer. unfold check_for_deviation.
  destruct (model_generate_content E (deviation_prompt slide_text speech_text))
    as [text |]; [| left; reflexivity].
  destruct (splitlines (strip text)) as [| l rest] eqn:Hlines.
  - simpl. right. left. exists text. split; [reflexivity | exact Hlines].
  - cbn [last_error_line].
    destruct (String.eqb_spec (lower (strip (List.last rest l))) "none") as [Hnone | Hnone];
      cbn [negb andb].
    + right. right. exists text, (List.last rest l).
      rewrite Hlines. cbn [last_error_line]. auto.
    + destruct (0 <? String.length (strip (List.last rest l))) eqn:Hlen.
      * split; [apply nonempty_length; exact Hlen |].
        split; [exact Hnone |].
        exists text, (List.last rest l). rewrite Hlines. auto.
      * right. right. exists text, (List.last rest l).
        rewrite Hlines. cbn [last_error_line].
        split; [reflexivity |]. split; [reflexivity |]. right.
        destruct (strip (List.last rest l)); [reflexivity | discriminate].
Qed.

End Deviation.

(** C7, as it was stated, fails: an answer of eleven words comes back as
    the topic. *)
Lemma C7_topic_longer_than_ten_words :
  ContentGenerator.check_for_deviation
    (Sample.answering Sample.eleven_words (fun _ => None))
    "Q2 Revenue" "electric cars are everywhere now"
  = Some Sample.eleven_words
  /\ PyStr.word_count Sample.eleven_words = 11.
Proof. split; reflexivity. Qed.

Section DetectionCycle.
Import Application ContentGenerator PyStr.
Variable E : collaborators.

Lemma check_for_deviation_nonempty (slide_text speech_text topic : string) :
  check_for_deviation E slide_text speech_text = Some topic ->
  nonempty topic = true.
Proof.
  unfold check_for_deviation.
  destruct (model_generate_content E _) as [text |]; [| discriminate].
  destruct (last_error_line _) as [line |]; [| discriminate].
  destruct (negb _); [| discriminate]. cbn [andb].
  destruct (strip line) eqn:Hs; [discriminate |].
  intros [= <-]. reflexivity.
Qed.

Lemma set_is_checking_restore (a : app) :
  is_checking a = false -> set_is_checking false (set_is_checking true a) = a.
Proof. destruct a; simpl; intros ->; reflexivity. Qed.

(** C9.  A detection cycle that finds fewer than three utterances in the
    buffer, or no current slide, does nothing: no prompt is sent, the
    buffer, the tracked set, the deck, the status and the threads are as
    before; only the flag of the running check is lowered again, so that
    the state after a cycle started by [periodic_check] is the state
    before it. *)
Theorem C9_sparse_cycle_is_noop (a : app) :
  length (speech_buffer a) < 3 \/ no_current_slide a ->
  run_deviation_check E a = set_is_checking false a
  /\ (is_running a = true -> is_checking a = false -> periodic_check E a = a).
Proof.
  intros Hpre.
  assert (Hrun : forall b, speech_buffer b = speech_buffer a ->
                           powerpoint b = powerpoint a ->
                           run_deviation_check E b = set_is_checking false b).
  { intros b Hbuf Hppt. unfold run_deviation_check. rewrite Hbuf, Hppt.
    destruct (slide_updater b); cbn [negb orb]; [| reflexivity].
    destruct Hpre as [Hlt | [Hnone | Hzero]].
    - destruct (Nat.ltb_spec (length (speech_buffer a)) 3); [reflexivity | lia].
    - rewrite Hnone. destruct (_ <? _); reflexivity.
    - rewrite Hzero. cbn [Z.eqb]. destruct (_ <? _); reflexivity. }
  split.
  - apply Hrun; reflexivity.
  - intros Hr Hc. unfold periodic_check. rewrite Hr, Hc. cbn [negb andb].
    rewrite Hrun by reflexivity. apply set_is_checking_restore. exact Hc.
Qed.

(** C2.  A detection cycle that reads the buffer sends its utterances,
    joined by blanks, to the model.  When the model names a new topic the
    buffer is emptied, so that a second snapshot taken at once is empty;
    when it names none the buffer is left as it was. *)
Theorem C2_buffer_cleared_on_deviation_only (a : app) (current_index : Z) :
  slide_updater a = true ->
  3 <= length (speech_buffer a) ->
  SlideUpdater.get_current_slide_index (powerpoint a) = Some current_index ->
  current_index <> 0%Z ->
  let slide_text := checked_slide_text (pptx_file a) current_index in
  let recent_speech := join " " (speech_buffer a) in
  let a' := run_deviation_check E a in
  model_log a' = model_log a ++ [deviation_prompt slide_text recent_speech]
  /\ speech_queue a' = speech_queue a
  /\ match check_for_deviation E slide_text recent_speech with
     | Some _ => speech_buffer a' = [] /\ join " " (speech_buffer a') = EmptyString
     | None => speech_buffer a' = speech_buffer a
     end.
Proof.
  intros Hsu Hlen Hidx Hnz slide_text recent_speech a'.
  subst a' slide_text recent_speech.
  unfold run_deviation_check, checked_slide_text.
  rewrite Hsu, Hidx. cbn [negb orb].
  destruct (Nat.ltb_spec (length (speech_buffer a)) 3); [lia |].
  destruct (Z.eqb_spec current_index 0); [contradiction |].
  set (slide_text := if negb _ then _ else _).
  destruct (check_for_deviation E slide_text (join " " (speech_buffer a)))
    as [topic |] eqn:Hcheck.
  - rewrite (check_for_deviation_nonempty _ _ _ Hcheck). simpl. auto.
  - simpl. auto.
Qed.

End DetectionCycle.

Lemma C9_sparse_cycle_is_noop_witness :
  Application.run_deviation_check Sample.assistant Sample.two_utterances
  = Application.set_is_checking false Sample.two_utterances
  /\ Application.run_deviation_check Sample.assistant Sample.show_closed
     = Application.set_is_checking false Sample.show_closed.
Proof.
  split.
  - refine (proj1 (C9_sparse_cycle_is_noop Sample.assistant Sample.two_utterances _)).
    left. simpl. lia.
  - refine (proj1 (C9_sparse_cycle_is_noop Sample.assistant Sample.show_closed _)).
    right. left. reflexivity.
Defined.

Lemma C2_buffer_cleared_on_deviation_only_witness :
  Application.speech_buffer
    (Application.run_deviation_check
       (Sample.answering "Electric vehicle adoption" (fun _ => None)) Sample.listening)
  = [].
Proof.
  refine (proj1 (proj2 (proj2 (C2_buffer_cleared_on_deviation_only
            (Sample.answering "Electric vehicle adoption" (fun _ => None))
            Sample.listening 1%Z _ _ _ _)))).
  - reflexivity.
  - simpl. lia.
  - reflexivity.
  - discriminate.
Defined.

(** C2, as it was stated, fails: the cycle reads the three utterances, the
    model answers None, and the buffer still holds all three, so the next
    snapshot is not empty. *)
Lemma C2_buffer_kept_when_no_deviation :
  Application.model_log
    (Application.run_deviation_check
       (Sample.answering "None" (fun _ => None)) Sample.listening)
  = [ContentGenerator.deviation_prompt
       ("Q2 Revenue" +:+ PyStr.nl +:+ "Up 12%")
       "revenue grew in the second quarter by twelve percent"]
  /\ Application.speech_buffer
       (Application.run_deviation_check
          (Sample.answering "None" (fun _ => None)) Sample.listening)
     = ["revenue grew"; "in the second quarter"; "by twelve percent"]
  /\ PyStr.join " "
       (Application.speech_buffer
          (Application.run_deviation_check
             (Sample.answering "None" (fun _ => None)) Sample.listening))
     = "revenue grew in the second quarter by twelve percent".
Proof. split; [| split]; reflexivity. Qed.

Section Apply.
Import Application ContentGenerator PyStr.
Variable E : collaborators.

Lemma extract_json_no_brace (text : string) :
  index "{" text = None -> _extract_json E text = None.
Proof. unfold _extract_json. intros ->. reflexivity. Qed.

Lemma generate_none_when_unparsed (topic text : string) :
  model_generate_content E (content_prompt topic) = Some text ->
  _extract_json E text = None ->
  generate_slide_content E topic = None.
Proof. unfold generate_slide_content. intros -> ->. reflexivity. Qed.

Lemma generate_none_when_call_fails (topic : string) :
  model_generate_content E (content_prompt topic) = None ->
  generate_slide_content E topic = None.
Proof. unfold generate_slide_content. intros ->. reflexivity. Qed.

(** C4.  When content generation gives nothing (the call fails, the
    answer holds no JSON object that parses, or the object is empty), a
    run of [_generate_and_apply] changes neither the tracked set nor the
    deck, live or saved; all it does is send the prompt and post the
    failure status. *)
Theorem C4_no_content_no_mutation (a : app) (topic : string) (slide_index : Z)
        (is_update : bool) (action_text : string) :
  generate_slide_content E topic = None ->
  let a' := _generate_and_apply E topic slide_index is_update action_text a in
  generated_slide_indices a' = generated_slide_indices a
  /\ powerpoint a' = powerpoint a
  /\ status a' = {| st_text := "Failed to generate content. Listening...";
                    st_color := "#EA4335"; st_pulse := false |}
  /\ a' = _set_status "Failed to generate content. Listening..." "#EA4335" false
            (log_call (content_prompt topic) a).
Proof.
  intros Hnone a'. subst a'.
  unfold _generate_and_apply, generate_step. rewrite Hnone. simpl. auto.
Qed.

End Apply.

Lemma C4_no_content_no_mutation_witness :
  Application.powerpoint
    (Application._generate_and_apply Sample.chatty "Electric vehicles" 1 false
                                     "Inserting" Sample.listening)
  = Application.powerpoint Sample.listening.
Proof.
  refine (proj1 (proj2 (C4_no_content_no_mutation Sample.chatty Sample.listening
                          "Electric vehicles" 1%Z false "Inserting" _))).
  apply generate_none_when_unparsed with (text := "Sorry, I cannot help with that.").
  - reflexivity.
  - apply extract_json_no_brace. reflexivity.
Defined.

Section InsertPath.
Import Application.
Variable E : collaborators.

(** The insert path tracks the index after the current one as soon as
    content was generated; what became of the insertion plays no part. *)
Lemma insert_path_tracks_next_index (a : app) (slide_index : Z) (content : json) :
  generated_slide_indices (apply_step E slide_index false content a)
  = {[ (slide_index + 1)%Z ]} ∪ generated_slide_indices a.
Proof. reflexivity. Qed.

End InsertPath.

(** C3 at the input that breaks it: content is generated, the show is
    closed, so nothing is inserted, and index 2 is tracked all the same. *)
Lemma C3_failed_insert_still_tracked :
  Application.powerpoint
    (Application._generate_and_apply Sample.ev_model "Electric vehicles" 1 false
                                     "Inserting" Sample.show_closed)
  = None
  /\ Application.generated_slide_indices Sample.show_closed = ∅
  /\ Application.generated_slide_indices
       (Application._generate_and_apply Sample.ev_model "Electric vehicles" 1 false
                                        "Inserting" Sample.show_closed)
     = {[ 2%Z ]} ∪ ∅.
Proof. split; [| split]; reflexivity. Qed.

Section UpdatePath.
Import SlideUpdater.
Variable E : collaborators.

Lemma delete_nth_length {A} (n : nat) (l : list A) :
  n < length l -> length (delete_nth n l) = length l - 1.
Proof.
  revert n. induction l as [| x l IH]; intros n Hn; simpl in *; [lia |].
  destruct n as [| n]; simpl; [lia |].
  rewrite IH by lia. lia.
Qed.

Lemma delete_down_all (k : nat) (shapes : list shape) :
  length shapes = k -> delete_down k shapes = [].
Proof.
  revert shapes. induction k as [| k IH]; intros shapes Hlen.
  - destruct shapes; [reflexivity | discriminate].
  - cbn [delete_down]. apply IH. unfold Delete.
    rewrite delete_nth_length by lia. lia.
Qed.

Lemma delete_all_shapes_nil (shapes : list shape) : delete_all_shapes shapes = [].
Proof. apply delete_down_all. reflexivity. Qed.

Lemma replace_nth_length {A} (n : nat) (x : A) (l : list A) :
  length (replace_nth n x l) = length l.
Proof.
  revert n. induction l as [| y l IH]; intros [| n]; simpl; auto.
Qed.

Lemma nth_error_replace_nth {A} (n : nat) (x : A) (l : list A) :
  n < length l -> nth_error (replace_nth n x l) n = Some x.
Proof.
  revert n. induction l as [| y l IH]; intros [| n] Hn; simpl in *;
    try lia; [reflexivity | apply IH; lia].
Qed.

Lemma replace_nth_twice {A} (n : nat) (x y : A) (l : list A) :
  replace_nth n x (replace_nth n y l) = replace_nth n x l.
Proof.
  revert n. induction l as [| z l IH]; intros [| n]; simpl; auto.
  rewrite IH. reflexivity.
Qed.

Lemma item_Some {A} (l : list A) (i : Z) (x : A) :
  item l i = Some x ->
  (1 <= i <= Z.of_nat (length l))%Z
  /\ Z.to_nat (i - 1) < length l
  /\ nth_error l (Z.to_nat (i - 1)) = Some x.
Proof.
  unfold item.
  destruct (Z.leb_spec 1 i); destruct (Z.leb_spec i (Z.of_nat (length l)));
    cbn [andb]; try discriminate.
  intros H1. repeat split; try lia; exact H1.
Qed.

Lemma item_in_range {A} (l : list A) (i : Z) (x : A) :
  (1 <= i <= Z.of_nat (length l))%Z ->
  nth_error l (Z.to_nat (i - 1)) = Some x ->
  item l i = Some x.
Proof.
  intros [Hlo Hhi] Hnth. unfold item.
  destruct (Z.leb_spec 1 i); [| lia].
  destruct (Z.leb_spec i (Z.of_nat (length l))); [| lia].
  exact Hnth.
Qed.

(** The slides after [set_shapes] on a slide that exists. *)
Lemma set_shapes_slides (pres : presentation) (i : Z) (target : slide)
      (shapes : list shape) :
  item (slides pres) i = Some target ->
  slides (set_shapes i shapes pres)
  = replace_nth (Z.to_nat (i - 1))
                {| sl_layout := sl_layout target; sl_shapes := shapes |}
                (slides pres).
Proof.
  intros Hitem. apply item_Some in Hitem. destruct Hitem as (_ & _ & Hnth).
  unfold set_shapes, with_slides. cbn [slides]. rewrite Hnth. reflexivity.
Qed.

Lemma set_shapes_item (pres : presentation) (i : Z) (target : slide)
      (shapes : list shape) :
  item (slides pres) i = Some target ->
  item (slides (set_shapes i shapes pres)) i
  = Some {| sl_layout := sl_layout target; sl_shapes := shapes |}.
Proof.
  intros Hitem. rewrite (set_shapes_slides _ _ _ _ Hitem).
  apply item_Some in Hitem. destruct Hitem as (Hrange & Hlt & _).
  apply item_in_range.
  - rewrite replace_nth_length. exact Hrange.
  - apply nth_error_replace_nth. exact Hlt.
Qed.

(** What [update_existing_slide] leaves of a slide that exists: the
    shapes [_add_content_to_slide] lays out on an empty slide. *)
Lemma update_try_spec (pres : presentation) (i : Z) (target : slide)
      (content_json : json) (style_guide : option style) :
  item (slides pres) i = Some target ->
  update_try E pres i content_json style_guide
  = let laid := _add_content_to_slide E content_json style_guide [] in
    let pres2 := set_shapes i (fst laid) pres in
    match snd laid with
    | None => (pres2, false)
    | Some _ =>
        match GotoSlide i pres2 with
        | None => (pres2, false)
        | Some pres3 => (Save pres3, true)
        end
    end.
Proof.
  intros Hitem. unfold update_try. rewrite Hitem, delete_all_shapes_nil.
  destruct (_add_content_to_slide E content_json style_guide []) as [shapes [u |]];
    reflexivity.
Qed.

Lemma replace_nth_same {A} (n : nat) (x : A) (l : list A) :
  nth_error l n = Some x -> replace_nth n x l = l.
Proof.
  revert n. induction l as [| y l IH]; intros [| n] Hn; simpl in *;
    try discriminate.
  - congruence.
  - rewrite IH by exact Hn. reflexivity.
Qed.

(** [set_shapes] with the shapes the slide has already changes nothing. *)
Lemma set_shapes_fixed (pres : presentation) (i : Z) (layout : Z)
      (shapes : list shape) :
  item (slides pres) i = Some {| sl_layout := layout; sl_shapes := shapes |} ->
  set_shapes i shapes pres = pres.
Proof.
  intros Hitem. apply item_Some in Hitem. destruct Hitem as (_ & _ & Hnth).
  unfold set_shapes, with_slides. rewrite Hnth. cbn [sl_layout].
  rewrite replace_nth_same by exact Hnth.
  destruct pres; reflexivity.
Qed.

Lemma GotoSlide_Some (i : Z) (pres pres3 : presentation) :
  GotoSlide i pres = Some pres3 ->
  pres3 = {| slides := slides pres; show_position := i; saved := saved pres |}.
Proof.
  unfold GotoSlide. destruct (_ && _); [| discriminate]. congruence.
Qed.

Lemma GotoSlide_slides (i : Z) (p q : presentation) :
  slides p = slides q ->
  GotoSlide i p
  = match GotoSlide i q with
    | Some _ => Some {| slides := slides p; show_position := i; saved := saved p |}
    | None => None
    end.
Proof.
  intros Hs. unfold GotoSlide. rewrite Hs. destruct (_ && _); reflexivity.
Qed.

(** As long as the collaborators answer the same, updating a slide twice
    in a row with the same content is the same as updating it once: the
    whole presentation (slides, position, saved copy) is equal after the
    second update to what it was after the first.  The reason is in the
    second part: after an update the slide holds exactly the shapes that
    are laid out on an empty slide for this content, whatever it held
    before. *)
Lemma update_again_is_fixed (active : option presentation) (slide_index : Z)
        (content_json : json) (style_guide : option style) :
  let once := update_existing_slide E active slide_index content_json style_guide in
  let twice := update_existing_slide E once slide_index content_json style_guide in
  twice = once
  /\ (forall pres target,
        active = Some pres ->
        item (slides pres) slide_index = Some target ->
        exists pres1,
          once = Some pres1
          /\ item (slides pres1) slide_index
             = Some {| sl_layout := sl_layout target;
                       sl_shapes :=
                         fst (_add_content_to_slide E content_json style_guide []) |}).
Proof.
  intros once twice. subst once twice.
  destruct active as [pres |]; [| split; [reflexivity | discriminate]].
  cbn [update_existing_slide].
  destruct (item (slides pres) slide_index) as [target |] eqn:Hitem.
  2:{ split.
      - unfold update_try. rewrite Hitem. cbn [fst]. rewrite Hitem. reflexivity.
      - intros pres0 target0 [= <-] Habs. congruence. }
  rewrite (update_try_spec pres slide_index target _ _ Hitem).
  cbv zeta.
  set (laid := _add_content_to_slide E content_json style_guide []).
  pose proof (set_shapes_item pres slide_index target (fst laid) Hitem) as Hitem2.
  set (pres2 := set_shapes slide_index (fst laid) pres) in *.
  assert (Hfix2 : set_shapes slide_index (fst laid) pres2 = pres2)
    by (eapply set_shapes_fixed; exact Hitem2).
  destruct (snd laid) as [u |] eqn:Hsnd.
  - destruct (GotoSlide slide_index pres2) as [pres3 |] eqn:Hgoto.
    + pose proof (GotoSlide_Some _ _ _ Hgoto) as ->.
      cbn [fst]. split.
      * f_equal.
        match goal with |- fst (update_try E ?q _ _ _) = _ => set (saved3 := q) end.
        assert (Hitem3 : item (slides saved3) slide_index
                         = Some {| sl_layout := sl_layout target;
                                   sl_shapes := fst laid |}) by exact Hitem2.
        rewrite (update_try_spec saved3 slide_index _ _ _ Hitem3).
        fold laid. cbv zeta. rewrite Hsnd.
        rewrite (set_shapes_fixed saved3 slide_index _ _ Hitem3).
        rewrite (GotoSlide_slides slide_index saved3 pres2 eq_refl), Hgoto.
        reflexivity.
      * intros pres0 target0 [= <-] Ht. rewrite Hitem in Ht. injection Ht as <-.
        eexists. split; [reflexivity |]. exact Hitem2.
    + cbn [fst]. split.
      * f_equal. rewrite (update_try_spec pres2 slide_index _ _ _ Hitem2).
        fold laid. cbv zeta. rewrite Hsnd, Hfix2, Hgoto. reflexivity.
      * intros pres0 target0 [= <-] Ht. rewrite Hitem in Ht. injection Ht as <-.
        eexists. split; [reflexivity |]. exact Hitem2.
  - cbn [fst]. split.
    + f_equal. rewrite (update_try_spec pres2 slide_index _ _ _ Hitem2).
      fold laid. cbv zeta. rewrite Hsnd, Hfix2. reflexivity.
    + intros pres0 target0 [= <-] Ht. rewrite Hitem in Ht. injection Ht as <-.
      eexists. split; [reflexivity |]. exact Hitem2.
Qed.

End UpdatePath.

Section Visuals.
Import SlideUpdater ContentGenerator.
Variable E : collaborators.

(** C6.  The content that [generate_slide_content] returns is the parsed
    object as it is: nothing checks that a chart and an image suggestion
    exclude each other, or what the layout says.  The slide builder uses
    at most one of the two: the chart whenever [chart_data] is truthy,
    without a look at [image_suggestion]; the image suggestion (icon
    first, image when no icon is found) only when [chart_data] is falsy. *)
Theorem C6_chart_before_image :
  (forall topic content,
      generate_slide_content E topic = Some content ->
      exists text,
        model_generate_content E (content_prompt topic) = Some text
        /\ _extract_json E text = Some content)
  /\ (forall content chart_data shapes,
        get content "chart_data" = Some chart_data ->
        truthy chart_data = true ->
        resolve_visual E content shapes = (shapes, Some (create_chart E chart_data)))
  /\ (forall content chart_data image_suggestion shapes,
        get content "chart_data" = Some chart_data ->
        truthy chart_data = false ->
        get content "image_suggestion" = Some image_suggestion ->
        resolve_visual E content shapes
        = (shapes,
           Some (if truthy image_suggestion then
                   if path_truthy (get_icon E image_suggestion)
                   then get_icon E image_suggestion
                   else get_image E image_suggestion
                 else None))).
Proof.
  split; [| split].
  - intros topic content. unfold generate_slide_content.
    destruct (model_generate_content E (content_prompt topic)) as [text |];
      [| discriminate].
    destruct (_extract_json E text) as [v |] eqn:Hv; [| discriminate].
    destruct (truthy v); [| discriminate].
    intros [= <-]. exists text. split; [reflexivity | exact Hv].
  - intros content chart_data shapes Hget Htrue.
    unfold resolve_visual, bind. rewrite Hget. cbn [lift ret].
    rewrite Htrue. reflexivity.
  - intros content chart_data image_suggestion shapes Hget Hfalse Himg.
    unfold resolve_visual, bind. rewrite Hget. cbn [lift ret].
    rewrite Hfalse, Himg. cbn [lift ret].
    destruct (truthy image_suggestion); [| reflexivity].
    destruct (path_truthy (get_icon E image_suggestion)); reflexivity.
Qed.

End Visuals.

Lemma C6_chart_before_image_witness :
  SlideUpdater.resolve_visual Sample.ev_model Sample.ev_content []
  = ([], Some (Some "temp_visuals/temp_chart.png")).
Proof.
  refine (proj1 (proj2 (C6_chart_before_image Sample.ev_model)) Sample.ev_content _ [] _ _);
    reflexivity.
Defined.

(** C6, as it was stated, fails: the content generated from this answer
    carries a chart and an image suggestion together, and its layout is
    the one without a visual. *)
Lemma C6_content_with_chart_and_image :
  ContentGenerator.generate_slide_content Sample.ev_model "Electric vehicles"
  = Some Sample.ev_content
  /\ get Sample.ev_content "image_suggestion" = Some (JStr "electric car")
  /\ (exists chart, get Sample.ev_content "chart_data" = Some chart
                    /\ truthy chart = true)
  /\ get Sample.ev_content "layout" = Some (JStr "text_only").
Proof.
  split; [reflexivity |]. split; [reflexivity |]. split; [| reflexivity].
  eexists. split; reflexivity.
Qed.

Section Threads.
Import Application.
Variable E : collaborators.

Lemma generate_step_frame (topic action_text : string) (a : app) :
  powerpoint (fst (generate_step E topic action_text a)) = powerpoint a
  /\ generated_slide_indices (fst (generate_step E topic action_text a))
     = generated_slide_indices a
  /\ workers (fst (generate_step E topic action_text a)) = workers a.
Proof.
  unfold generate_step.
  destruct (ContentGenerator.generate_slide_content E topic) as [content |];
    [destruct (truthy content) |]; simpl; auto.
Qed.

(** C1.  Applies are not serialised.  Every call of [handle_update]
    starts one more [_generate_and_apply] thread, whatever number is
    already running, and returns without touching the deck or the
    tracked set.  What is ordered is one run in itself: a step of a
    thread changes the deck or the tracked set only if it is the second
    half of a run, taken after that run's own content has been
    generated. *)
Theorem C1_applies_are_not_serialised :
  (forall topic slide_index is_update a,
      running_applies (handle_update topic slide_index is_update a)
      = S (running_applies a)
      /\ powerpoint (handle_update topic slide_index is_update a) = powerpoint a
      /\ generated_slide_indices (handle_update topic slide_index is_update a)
         = generated_slide_indices a)
  /\ (forall a a',
        step E a a' ->
        (powerpoint a' = powerpoint a
         /\ generated_slide_indices a' = generated_slide_indices a)
        \/ (exists i w content,
              nth_error (workers a) i = Some w
              /\ w_phase w = Generated content
              /\ powerpoint a'
                 = powerpoint (apply_step E (w_slide_index w) (w_is_update w) content a)
              /\ generated_slide_indices a'
                 = generated_slide_indices
                     (apply_step E (w_slide_index w) (w_is_update w) content a))).
Proof.
  split.
  - intros topic slide_index is_update a. split; [| split; reflexivity].
    unfold running_applies, handle_update. cbn [workers set_workers _set_status].
    rewrite List.filter_app, length_app. cbn. lia.
  - intros a a' Hstep. destruct Hstep as [i a a' Hstep].
    unfold step_worker in Hstep.
    destruct (nth_error (workers a) i) as [w |] eqn:Hnth; [| discriminate].
    destruct (w_phase w) as [| content |] eqn:Hphase; [| | discriminate].
    + left.
      pose proof (generate_step_frame (w_topic w) (w_action_text w) a) as (Hp & Hg & _).
      destruct (generate_step E (w_topic w) (w_action_text w) a) as [a1 [content |]];
        injection Hstep as <-; cbn [fst] in *; simpl; auto.
    + right. exists i, w, content. injection Hstep as <-. simpl. auto.
Qed.

End Threads.

Lemma C1_applies_are_not_serialised_witness :
  Application.running_applies
    (Application.handle_update "Battery prices" 1 false
       (Application.handle_update "Electric vehicles" 1 false Sample.listening))
  = 2.
Proof.
  exact (proj1 (proj1 (C1_applies_are_not_serialised Sample.ev_model)
                  "Battery prices" 1%Z false
                  (Application.handle_update "Electric vehicles" 1 false
                                             Sample.listening))).
Defined.

(** C1, as it was stated, fails.  An automatic update for slide 1 is
    started and, before its thread has done anything, a manual generate is
    issued.  Two applies are then running.  Let the second thread take its
    two steps: it has inserted its slide (the deck grows from two slides to
    three) and finished while the first is still at its start; the first
    then runs and inserts a slide of its own. *)
Lemma C1_second_apply_overtakes_first :
  Application.running_applies
    (Application.handle_manual_generate "Battery prices"
       (Application.handle_update "Electric vehicles" 1 false
                                  Sample.listening))
  = 2
  /\ Application.deck_size Sample.listening = Some 2
  /\ exists during after,
       Application.run_schedule Sample.ev_model [1; 1]
         (Application.handle_manual_generate "Battery prices"
            (Application.handle_update "Electric vehicles" 1 false
                                       Sample.listening))
       = Some during
       /\ Application.phase_of 0 during = Some Application.Started
       /\ Application.phase_of 1 during = Some Application.Finished
       /\ Application.deck_size during = Some 3
       /\ Application.run_schedule Sample.ev_model [0; 0] during = Some after
       /\ Application.phase_of 0 after = Some Application.Finished
       /\ Application.deck_size after = Some 4.
Proof.
  split; [reflexivity |]. split; [reflexivity |].
  eexists. eexists.
  split; [vm_compute; reflexivity |].
  split; [vm_compute; reflexivity |].
  split; [vm_compute; reflexivity |].
  split; [vm_compute; reflexivity |].
  split; [vm_compute; reflexivity |].
  split; vm_compute; reflexivity.
Qed.

(* ===================================================================== *)
(** * Further properties of slide_updater.py *)
(* ===================================================================== *)

Section DeckStructure.
Import SlideUpdater.
Variable E : collaborators.

Lemma insert_at_split {A} (n : nat) (x : A) (l : list A) :
  n <= length l -> insert_at n x l = firstn n l ++ x :: skipn n l.
Proof.
  revert l. induction n as [| n IH]; intros l Hn; [reflexivity |].
  destruct l as [| y l]; simpl in *; [lia |].
  rewrite IH by lia. reflexivity.
Qed.

Lemma nth_error_middle {A} (n : nat) (x : A) (l : list A) :
  n <= length l -> nth_error (firstn n l ++ x :: skipn n l) n = Some x.
Proof.
  intros Hn. rewrite nth_error_app2 by (rewrite length_firstn; lia).
  rewrite length_firstn. replace (n - Nat.min n (length l)) with 0 by lia.
  reflexivity.
Qed.

Lemma replace_nth_middle {A} (n : nat) (x y : A) (l : list A) :
  n <= length l ->
  replace_nth n y (firstn n l ++ x :: skipn n l) = firstn n l ++ y :: skipn n l.
Proof.
  revert l. induction n as [| n IH]; intros l Hn; [reflexivity |].
  destruct l as [| z l]; simpl in *; [lia |].
  rewrite IH by lia. reflexivity.
Qed.

Lemma nth_error_replace_nth_other {A} (n m : nat) (x : A) (l : list A) :
  n <> m -> nth_error (replace_nth n x l) m = nth_error l m.
Proof.
  revert n m. induction l as [| y l IH]; intros [| n] [| m] Hne; simpl;
    try reflexivity; try congruence.
  apply IH. congruence.
Qed.

Lemma insert_try_in_range (pres : presentation) (slide_index : Z)
        (content_json : json) (style_guide : option style) :
  (0 <= slide_index <= Z.of_nat (length (slides pres)))%Z ->
  let laid := _add_content_to_slide E content_json style_guide [] in
  let new_slide := {| sl_layout := ppLayoutBlank; sl_shapes := fst laid |} in
  let after := firstn (Z.to_nat slide_index) (slides pres)
               ++ new_slide :: skipn (Z.to_nat slide_index) (slides pres) in
  insert_try E pres slide_index content_json style_guide
  = match snd laid with
    | Some _ =>
        ({| slides := after; show_position := (slide_index + 1)%Z; saved := after |},
         true)
    | None =>
        ({| slides := after; show_position := show_position pres; saved := saved pres |},
         false)
    end.
Proof.
  intros [Hlo Hhi] laid new_slide after.
  assert (Hn : Z.to_nat slide_index <= length (slides pres)) by lia.
  unfold insert_try, SlidesAdd.
  destruct (Z.leb_spec 1 (slide_index + 1)); [| lia].
  destruct (Z.leb_spec (slide_index + 1) (Z.of_nat (length (slides pres)) + 1)); [| lia].
  cbn [andb]. fold laid.
  replace (slide_index + 1 - 1)%Z with slide_index by lia.
  assert (Hset : set_shapes (slide_index + 1) (fst laid)
                   (with_slides
                      (insert_at (Z.to_nat slide_index)
                                 {| sl_layout := ppLayoutBlank; sl_shapes := [] |}) pres)
                 = {| slides := after; show_position := show_position pres;
                      saved := saved pres |}).
  { unfold set_shapes, with_slides. cbn [slides show_position saved].
    replace (slide_index + 1 - 1)%Z with slide_index by lia.
    rewrite insert_at_split by exact Hn.
    rewrite nth_error_middle by exact Hn.
    rewrite replace_nth_middle by exact Hn. reflexivity. }
  destruct laid as [shapes [u |]] eqn:Hlaid; cbn [fst snd] in *; rewrite Hset.
  - unfold GotoSlide. cbn [slides show_position saved].
    assert (Hlen : length after = S (length (slides pres))).
    { subst after. rewrite length_app. cbn [length].
      rewrite length_firstn, length_skipn. lia. }
    rewrite Hlen.
    destruct (Z.leb_spec 1 (slide_index + 1)); [| lia].
    destruct (Z.leb_spec (slide_index + 1) (Z.of_nat (S (length (slides pres))))); [| lia].
    reflexivity.
  - reflexivity.
Qed.

(** X1.  The insert path on an index of the deck (0 for the front).  The new
    slide stands right after slide [slide_index], all the slides that were
    there are kept in their order, and the new slide holds what the layout
    put on it.  When the layout ran to its end the show is on the new slide
    and the deck is saved; when it raised, the new slide stays in the deck
    with what was laid out so far, the show is where it was and nothing is
    saved. *)
Theorem insert_keeps_slides_and_adds_one (pres : presentation) (slide_index : Z)
        (content_json : json) (style_guide : option style) :
  (0 <= slide_index <= Z.of_nat (length (slides pres)))%Z ->
  let laid := _add_content_to_slide E content_json style_guide [] in
  let new_slide := {| sl_layout := ppLayoutBlank; sl_shapes := fst laid |} in
  let after := firstn (Z.to_nat slide_index) (slides pres)
               ++ new_slide :: skipn (Z.to_nat slide_index) (slides pres) in
  insert_try E pres slide_index content_json style_guide
  = match snd laid with
    | Some _ =>
        ({| slides := after; show_position := (slide_index + 1)%Z; saved := after |},
         true)
    | None =>
        ({| slides := after; show_position := show_position pres; saved := saved pres |},
         false)
    end.
Proof. exact (insert_try_in_range pres slide_index content_json style_guide). Qed.

(** X2.  An index outside the deck, or no running show, is contained: the
    insert path and the update path leave the presentation as it was. *)
Theorem out_of_range_changes_nothing (pres : presentation) (slide_index : Z)
        (content_json : json) (style_guide : option style) :
  ((slide_index < 0 \/ Z.of_nat (length (slides pres)) < slide_index)%Z ->
     insert_new_slide_after_current E (Some pres) slide_index content_json style_guide
     = Some pres)
  /\ ((slide_index < 1 \/ Z.of_nat (length (slides pres)) < slide_index)%Z ->
        update_existing_slide E (Some pres) slide_index content_json style_guide
        = Some pres)
  /\ insert_new_slide_after_current E None slide_index content_json style_guide = None
  /\ update_existing_slide E None slide_index content_json style_guide = None.
Proof.
  split; [| split; [| split; reflexivity]].
  - intros Hout. unfold insert_new_slide_after_current, insert_try, SlidesAdd.
    destruct (Z.leb_spec 1 (slide_index + 1));
      destruct (Z.leb_spec (slide_index + 1) (Z.of_nat (length (slides pres)) + 1));
      cbn [andb fst]; try reflexivity; lia.
  - intros Hout. unfold update_existing_slide, update_try, item.
    destruct (Z.leb_spec 1 slide_index);
      destruct (Z.leb_spec slide_index (Z.of_nat (length (slides pres))));
      cbn [andb fst]; try reflexivity; lia.
Qed.

(** X3.  The update path touches one slide only: the deck keeps its length,
    every other slide is what it was, and the slide itself keeps its
    layout. *)
Theorem update_touches_one_slide (pres : presentation) (slide_index : Z)
        (content_json : json) (style_guide : option style) :
  let pres' := fst (update_try E pres slide_index content_json style_guide) in
  length (slides pres') = length (slides pres)
  /\ (forall j, j <> slide_index -> item (slides pres') j = item (slides pres) j)
  /\ (forall target,
        item (slides pres) slide_index = Some target ->
        exists shapes,
          item (slides pres') slide_index
          = Some {| sl_layout := sl_layout target; sl_shapes := shapes |}).
Proof.
  intros pres'. subst pres'.
  destruct (item (slides pres) slide_index) as [target |] eqn:Hitem.
  2:{ unfold update_try. rewrite Hitem. cbn [fst].
      split; [reflexivity |]. split; [reflexivity | discriminate]. }
  rewrite (update_try_spec E pres slide_index target _ _ Hitem). cbv zeta.
  set (laid := _add_content_to_slide E content_json style_guide []).
  pose proof (set_shapes_slides pres slide_index target (fst laid) Hitem) as Hslides.
  pose proof (set_shapes_item pres slide_index target (fst laid) Hitem) as Hitem2.
  set (pres2 := set_shapes slide_index (fst laid) pres) in *.
  assert (Hgoal : forall q : presentation,
             slides q = slides pres2 ->
             length (slides q) = length (slides pres)
             /\ (forall j, j <> slide_index -> item (slides q) j = item (slides pres) j)
             /\ (forall target0,
                   Some target = Some target0 ->
                   exists shapes,
                     item (slides q) slide_index
                     = Some {| sl_layout := sl_layout target0; sl_shapes := shapes |})).
  { intros q Hq. rewrite Hq. split; [| split].
    - rewrite Hslides. apply replace_nth_length.
    - intros j Hj. rewrite Hslides. unfold item. rewrite replace_nth_length.
      destruct ((1 <=? j)%Z && (j <=? Z.of_nat (length (slides pres)))%Z) eqn:Hr;
        [| reflexivity].
      apply andb_prop in Hr. destruct Hr as [H1 H2].
      apply Z.leb_le in H1. apply nth_error_replace_nth_other.
      apply item_Some in Hitem. lia.
    - intros target0 [= <-]. exists (fst laid). exact Hitem2. }
  destruct (snd laid); [| apply Hgoal; reflexivity].
  destruct (GotoSlide slide_index pres2) as [pres3 |] eqn:Hgoto;
    [| apply Hgoal; reflexivity].
  apply GotoSlide_Some in Hgoto. subst pres3. apply Hgoal. reflexivity.
Qed.

End DeckStructure.

Lemma insert_keeps_slides_and_adds_one_witness :
  SlideUpdater.insert_try Sample.ev_model Sample.show 1 Sample.ev_content
                          (Some Sample.plain_style)
  = (let laid := SlideUpdater._add_content_to_slide Sample.ev_model Sample.ev_content
                   (Some Sample.plain_style) [] in
     let after := [Sample.title_slide;
                   {| sl_layout := ppLayoutBlank; sl_shapes := fst laid |};
                   Sample.title_slide] in
     ({| slides := after; show_position := 2; saved := after |}, true)).
Proof.
  refine (insert_keeps_slides_and_adds_one Sample.ev_model Sample.show 1%Z
            Sample.ev_content (Some Sample.plain_style) _).
  simpl. lia.
Defined.

Lemma out_of_range_changes_nothing_witness :
  SlideUpdater.update_existing_slide Sample.ev_model (Some Sample.show) 5
                                     Sample.ev_content (Some Sample.plain_style)
  = Some Sample.show.
Proof.
  refine (proj1 (proj2 (out_of_range_changes_nothing Sample.ev_model Sample.show 5%Z
                          Sample.ev_content (Some Sample.plain_style))) _).
  right. simpl. lia.
Defined.

Lemma update_touches_one_slide_witness :
  item (slides (fst (SlideUpdater.update_try Sample.ev_model Sample.show 1
                       Sample.ev_content (Some Sample.plain_style)))) 2
  = item (slides Sample.show) 2.
Proof.
  refine (proj1 (proj2 (update_touches_one_slide Sample.ev_model Sample.show 1%Z
                          Sample.ev_content (Some Sample.plain_style))) 2%Z _).
  discriminate.
Defined.

(* ===================================================================== *)
(** * Further properties of main.py *)
(* ===================================================================== *)

Section Handoff.
Import Application ContentGenerator PyStr.
Variable E : collaborators.

Lemma speech_run_frame (events : list speech_event) (a : app) :
  powerpoint (speech_run events a) = powerpoint a
  /\ generated_slide_indices (speech_run events a) = generated_slide_indices a
  /\ slide_updater (speech_run events a) = slide_updater a
  /\ workers (speech_run events a) = workers a.
Proof.
  revert a. induction events as [| e events IH]; intros a; [simpl; auto |].
  unfold speech_run in *. cbn [fold_left].
  destruct (IH (speech_step a e)) as (H1 & H2 & H3 & H4).
  rewrite H1, H2, H3, H4. destruct e; simpl; auto.
Qed.

Lemma run_deviation_check_outcome (a : app) :
  let a' := run_deviation_check E a in
  powerpoint a' = powerpoint a
  /\ generated_slide_indices a' = generated_slide_indices a
  /\ speech_queue a' = speech_queue a
  /\ pptx_file a' = pptx_file a
  /\ style_guide a' = style_guide a
  /\ is_checking a' = false
  /\ ((workers a' = workers a /\ speech_buffer a' = speech_buffer a)
      \/ (exists topic current_index,
            SlideUpdater.get_current_slide_index (powerpoint a) = Some current_index
            /\ current_index <> 0%Z
            /\ topic <> EmptyString
            /\ 3 <= length (speech_buffer a)
            /\ speech_buffer a' = []
            /\ workers a'
               = workers a
                 ++ [{| w_topic := topic;
                        w_slide_index := current_index;
                        w_is_update :=
                          bool_decide (current_index ∈ generated_slide_indices a);
                        w_action_text :=
                          if bool_decide (current_index ∈ generated_slide_indices a)
                          then "Updating" else "Inserting";
                        w_phase := Started |}])).
Proof.
  intros a'. subst a'. unfold run_deviation_check.
  destruct (slide_updater a); cbn [negb orb];
    [| simpl; repeat (split; [reflexivity |]); left; split; reflexivity].
  destruct (Nat.ltb_spec (length (speech_buffer a)) 3) as [Hlt | Hge];
    [simpl; repeat (split; [reflexivity |]); left; split; reflexivity |].
  destruct (SlideUpdater.get_current_slide_index (powerpoint a))
    as [current_index |] eqn:Hidx;
    [| simpl; repeat (split; [reflexivity |]); left; split; reflexivity].
  destruct (Z.eqb_spec current_index 0) as [Hz | Hnz];
    [simpl; repeat (split; [reflexivity |]); left; split; reflexivity |].
  set (slide_text := if negb _ then _ else _).
  destruct (check_for_deviation E slide_text (join " " (speech_buffer a)))
    as [topic |] eqn:Hcheck;
    [| simpl; repeat (split; [reflexivity |]); left; split; reflexivity].
  pose proof (check_for_deviation_nonempty E _ _ _ Hcheck) as Hne.
  rewrite Hne. simpl. repeat (split; [reflexivity |]).
  right. exists topic, current_index.
  split; [reflexivity |]. split; [exact Hnz |].
  split; [destruct topic; [discriminate | congruence] |].
  split; [exact Hge |]. split; reflexivity.
Qed.

(** X7.  A detection cycle, whatever it finds, leaves the deck, the tracked
    set, the queue, the deck file and the style guide alone and lowers the
    flag of the running check.  It ends in one of two ways.  Either no
    thread is started and the buffer is what it was; or exactly one
    [_generate_and_apply] thread is started, for the slide the show is on
    and a topic that is not empty, as an update if that slide is in the
    tracked set and as an insert if it is not, and then the buffer is
    empty. *)
Theorem cycle_hands_off_or_keeps_buffer (a : app) :
  let a' := run_deviation_check E a in
  powerpoint a' = powerpoint a
  /\ generated_slide_indices a' = generated_slide_indices a
  /\ speech_queue a' = speech_queue a
  /\ pptx_file a' = pptx_file a
  /\ style_guide a' = style_guide a
  /\ is_checking a' = false
  /\ ((workers a' = workers a /\ speech_buffer a' = speech_buffer a)
      \/ (exists topic current_index,
            SlideUpdater.get_current_slide_index (powerpoint a) = Some current_index
            /\ current_index <> 0%Z
            /\ topic <> EmptyString
            /\ 3 <= length (speech_buffer a)
            /\ speech_buffer a' = []
            /\ workers a'
               = workers a
                 ++ [{| w_topic := topic;
                        w_slide_index := current_index;
                        w_is_update :=
                          bool_decide (current_index ∈ generated_slide_indices a);
                        w_action_text :=
                          if bool_decide (current_index ∈ generated_slide_indices a)
                          then "Updating" else "Inserting";
                        w_phase := Started |}])).
Proof. exact (run_deviation_check_outcome a). Qed.

(** X8.  The slide that the insert path has just added is updated, not
    followed by one more slide, when the next deviation is found on it:
    after an insertion that ran to its end, and whatever speech arrives
    next, a detection cycle that finds a topic starts an update of slide
    [slide_index + 1]. *)
Theorem inserted_slide_is_updated_next (a : app) (pres : presentation)
        (slide_index : Z) (content : json) (events : list speech_event)
        (topic : string) :
  powerpoint a = Some pres ->
  (0 <= slide_index <= Z.of_nat (length (slides pres)))%Z ->
  snd (SlideUpdater._add_content_to_slide E content (style_guide a) []) <> None ->
  slide_updater a = true ->
  let a1 := speech_run events (apply_step E slide_index false content a) in
  3 <= length (speech_buffer a1) ->
  check_for_deviation E (checked_slide_text (pptx_file a1) (slide_index + 1))
                      (join " " (speech_buffer a1)) = Some topic ->
  workers (run_deviation_check E a1)
  = workers a1 ++ [{| w_topic := topic; w_slide_index := (slide_index + 1)%Z;
                      w_is_update := true; w_action_text := "Updating";
                      w_phase := Started |}].
Proof.
  intros Hppt Hrange Hlaid Hsu a1 Hlen Hcheck.
  destruct (speech_run_frame events (apply_step E slide_index false content a))
    as (Hp & Hg & Hs & _). fold a1 in Hp, Hg, Hs.
  assert (Hpos : SlideUpdater.get_current_slide_index (powerpoint a1)
                 = Some (slide_index + 1)%Z).
  { rewrite Hp. unfold apply_step. cbn [powerpoint _set_status
      set_generated_slide_indices set_powerpoint].
    rewrite Hppt. cbn [SlideUpdater.insert_new_slide_after_current].
    rewrite (insert_try_in_range E _ _ _ _ Hrange). cbv zeta.
    destruct (snd (SlideUpdater._add_content_to_slide E content (style_guide a) []));
      [reflexivity | contradiction]. }
  assert (Hin : (slide_index + 1)%Z ∈ generated_slide_indices a1).
  { rewrite Hg. unfold apply_step.
    cbn [generated_slide_indices _set_status set_generated_slide_indices].
    apply elem_of_union. left. apply elem_of_singleton. reflexivity. }
  unfold run_deviation_check, checked_slide_text in *.
  rewrite Hs. cbn [slide_updater apply_step _set_status set_generated_slide_indices
    set_powerpoint]. rewrite Hsu. cbn [negb orb].
  destruct (Nat.ltb_spec (length (speech_buffer a1)) 3); [lia |].
  rewrite Hpos.
  destruct (Z.eqb_spec (slide_index + 1) 0); [lia |].
  rewrite Hcheck, (check_for_deviation_nonempty E _ _ _ Hcheck).
  cbn [workers set_is_checking handle_update set_workers _set_status
       generated_slide_indices set_speech log_call].
  rewrite (bool_decide_eq_true_2 _ Hin). reflexivity.
Qed.

(** X9.  A manual generate does nothing when the topic is blank, when no deck
    was selected or when no slide is shown.  In every other case it starts
    exactly one thread, and that thread inserts: also on a slide of the
    tracked set it never updates.  The topic goes out as it was typed. *)
Theorem manual_generate_always_inserts (topic : string) (a : app) :
  (strip topic = EmptyString \/ slide_updater a = false \/ no_current_slide a ->
     handle_manual_generate topic a = a)
  /\ (forall current_index,
        strip topic <> EmptyString ->
        slide_updater a = true ->
        SlideUpdater.get_current_slide_index (powerpoint a) = Some current_index ->
        current_index <> 0%Z ->
        workers (handle_manual_generate topic a)
        = workers a ++ [{| w_topic := topic; w_slide_index := current_index;
                           w_is_update := false; w_action_text := "Inserting";
                           w_phase := Started |}]
        /\ powerpoint (handle_manual_generate topic a) = powerpoint a
        /\ generated_slide_indices (handle_manual_generate topic a)
           = generated_slide_indices a
        /\ speech_buffer (handle_manual_generate topic a) = speech_buffer a).
Proof.
  unfold handle_manual_generate. split.
  - intros [Hblank | [Hsu | [Hnone | Hzero]]].
    + rewrite Hblank. reflexivity.
    + destruct (negb (nonempty (strip topic))); [reflexivity |].
      rewrite Hsu. reflexivity.
    + destruct (negb (nonempty (strip topic))); [reflexivity |].
      destruct (negb (slide_updater a)); [reflexivity |].
      rewrite Hnone. reflexivity.
    + destruct (negb (nonempty (strip topic))); [reflexivity |].
      destruct (negb (slide_updater a)); [reflexivity |].
      rewrite Hzero. reflexivity.
  - intros current_index Hne Hsu Hidx Hnz.
    destruct (strip topic) eqn:Hs; [contradiction |]. cbn [nonempty negb].
    rewrite Hsu, Hidx. cbn [negb].
    destruct (Z.eqb_spec current_index 0); [contradiction |].
    repeat split.
Qed.

End Handoff.

Section SessionInvariants.
Import Application VoiceProcessor Session ContentGenerator PyStr.
Variable E : collaborators.

(** What a detection cycle does to the speech and to the deck. *)
Lemma run_deviation_check_frame (a : app) :
  powerpoint (run_deviation_check E a) = powerpoint a
  /\ generated_slide_indices (run_deviation_check E a) = generated_slide_indices a
  /\ speech_queue (run_deviation_check E a) = speech_queue a
  /\ (speech_buffer (run_deviation_check E a) = speech_buffer a
      \/ speech_buffer (run_deviation_check E a) = []).
Proof.
  unfold run_deviation_check.
  destruct (negb (slide_updater a) || (length (speech_buffer a) <? 3));
    [simpl; auto |].
  destruct (SlideUpdater.get_current_slide_index (powerpoint a)) as [current_index |];
    [| simpl; auto].
  destruct (current_index =? 0)%Z; [simpl; auto |].
  destruct (check_for_deviation E _ _) as [topic |]; [| simpl; auto].
  destruct (nonempty topic); simpl; auto.
Qed.

Lemma periodic_check_frame (a : app) :
  powerpoint (periodic_check E a) = powerpoint a
  /\ generated_slide_indices (periodic_check E a) = generated_slide_indices a
  /\ speech_queue (periodic_check E a) = speech_queue a
  /\ (speech_buffer (periodic_check E a) = speech_buffer a
      \/ speech_buffer (periodic_check E a) = []).
Proof.
  unfold periodic_check. destruct (is_running a && negb (is_checking a)); [| auto].
  apply (run_deviation_check_frame (set_is_checking true a)).
Qed.

Lemma handle_manual_generate_frame (topic : string) (a : app) :
  powerpoint (handle_manual_generate topic a) = powerpoint a
  /\ generated_slide_indices (handle_manual_generate topic a) = generated_slide_indices a
  /\ speech_queue (handle_manual_generate topic a) = speech_queue a
  /\ speech_buffer (handle_manual_generate topic a) = speech_buffer a.
Proof.
  unfold handle_manual_generate.
  destruct (negb (nonempty (strip topic))); [auto |].
  destruct (negb (slide_updater a)); [auto |].
  destruct (SlideUpdater.get_current_slide_index (powerpoint a)) as [i |]; [| auto].
  destruct (i =? 0)%Z; simpl; auto.
Qed.

Lemma step_worker_speech (i : nat) (a a' : app) :
  step_worker E i a = Some a' ->
  speech_queue a' = speech_queue a /\ speech_buffer a' = speech_buffer a.
Proof.
  unfold step_worker.
  destruct (nth_error (workers a) i) as [w |]; [| discriminate].
  destruct (w_phase w) as [| content |]; [| | discriminate].
  - unfold generate_step.
    destruct (generate_slide_content E (w_topic w)) as [content |];
      [destruct (truthy content) |]; intros [= <-]; simpl; auto.
  - intros [= <-]. unfold apply_step. destruct (w_is_update w); simpl; auto.
Qed.

Lemma step_worker_tracked (i : nat) (a a' : app) :
  step_worker E i a = Some a' ->
  generated_slide_indices a ⊆ generated_slide_indices a'.
Proof.
  unfold step_worker.
  destruct (nth_error (workers a) i) as [w |]; [| discriminate].
  destruct (w_phase w) as [| content |]; [| | discriminate].
  - unfold generate_step.
    destruct (generate_slide_content E (w_topic w)) as [content |];
      [destruct (truthy content) |]; intros [= <-]; simpl; reflexivity.
  - intros [= <-]. unfold apply_step. destruct (w_is_update w); simpl.
    + reflexivity.
    + apply union_subseteq_r.
Qed.

Lemma append_Forall {A} (P : A -> Prop) (m : nat) (d : list A) (x : A) :
  Forall P d -> P x -> Forall P (Deque.append m d x).
Proof.
  intros Hd Hx. unfold Deque.append.
  assert (Hall : Forall P (d ++ [x])) by (apply Forall_app; split; [exact Hd | auto]).
  destruct (m <? length (d ++ [x])); [| exact Hall].
  destruct (d ++ [x]) as [| y rest]; [constructor |].
  inversion Hall; assumption.
Qed.

Lemma drain_Forall (P : string -> Prop) (queue buffer : list string) :
  Forall P buffer -> Forall P queue -> Forall P (drain queue buffer).
Proof.
  revert buffer. induction queue as [| x queue IH]; intros buffer Hb Hq; [exact Hb |].
  inversion Hq; subst. simpl. apply IH; [apply append_Forall |]; assumption.
Qed.

Lemma speech_ok_same (a a' : app) :
  speech_queue a' = speech_queue a ->
  speech_buffer a' = speech_buffer a \/ speech_buffer a' = [] ->
  speech_ok a -> speech_ok a'.
Proof.
  unfold speech_ok. intros -> [-> | ->]; [auto |].
  intros (_ & _ & Hq). simpl. repeat split; [lia | constructor | exact Hq].
Qed.

Lemma handle_speech_ok (a : app) (e : event) :
  speech_ok a -> speech_ok (handle E a e).
Proof.
  intros Hok. destruct e as [| | r | | | topic | i]; cbn [handle].
  - unfold start_processing.
    destruct (periodic_check_frame
                (_set_status "Listening for speech..." "#4285F4" true
                             (set_is_running true a))) as (_ & _ & Hq & Hb).
    eapply speech_ok_same; [exact Hq | exact Hb | exact Hok].
  - exact Hok.
  - destruct r as [text | |]; cbn [_audio_callback]; [| exact Hok | exact Hok].
    destruct (nonempty (strip text)) eqn:Hne; [| exact Hok].
    destruct Hok as (Hlen & Hb & Hq). repeat split; [exact Hlen | exact Hb |].
    cbn [speech_queue put_speech set_speech]. apply Forall_app. split; [exact Hq |].
    constructor; [| constructor]. unfold not_blank.
    destruct (strip text); [discriminate | congruence].
  - destruct Hok as (Hlen & Hb & Hq).
    repeat split; cbn [speech_buffer speech_queue process_speech_queue set_speech].
    + apply (drain_length (speech_queue a) (speech_buffer a)). exact Hlen.
    + apply drain_Forall; assumption.
    + constructor.
  - destruct (periodic_check_frame a) as (_ & _ & Hq & Hb).
    eapply speech_ok_same; [exact Hq | exact Hb | exact Hok].
  - destruct (handle_manual_generate_frame topic a) as (_ & _ & Hq & Hb).
    eapply speech_ok_same; [exact Hq | left; exact Hb | exact Hok].
  - destruct (step_worker E i a) as [a' |] eqn:Hstep; [| exact Hok].
    destruct (step_worker_speech i a a' Hstep) as [Hq Hb].
    eapply speech_ok_same; [exact Hq | left; exact Hb | exact Hok].
Qed.

(** X11.  Through a whole session, whatever the order of the buttons, the
    voice callbacks, the timers and the thread steps, the speech buffer
    never holds more than ten utterances, and no utterance in the buffer
    or still on the queue is blank. *)
Theorem session_keeps_speech_bounded_and_not_blank (events : list event) (a : app) :
  length (speech_buffer a) <= 10 ->
  Forall not_blank (speech_buffer a) ->
  Forall not_blank (speech_queue a) ->
  length (speech_buffer (run E events a)) <= 10
  /\ Forall not_blank (speech_buffer (run E events a))
  /\ Forall not_blank (speech_queue (run E events a)).
Proof.
  intros Hlen Hb Hq.
  assert (Hok : speech_ok a) by (repeat split; assumption).
  clear Hlen Hb Hq. revert a Hok.
  induction events as [| e events IH]; intros a Hok; [exact Hok |].
  unfold run in *. cbn [fold_left]. apply IH. apply handle_speech_ok. exact Hok.
Qed.

Lemma handle_deck_frame (a : app) (e : event) :
  is_thread_step e = false ->
  powerpoint (handle E a e) = powerpoint a
  /\ generated_slide_indices (handle E a e) = generated_slide_indices a.
Proof.
  intros Hnt. destruct e as [| | r | | | topic | i]; cbn [handle];
    try discriminate.
  - unfold start_processing.
    destruct (periodic_check_frame
                (_set_status "Listening for speech..." "#4285F4" true
                             (set_is_running true a))) as (Hp & Hg & _).
    rewrite Hp, Hg. split; reflexivity.
  - split; reflexivity.
  - destruct r as [text | |]; cbn [_audio_callback]; try (split; reflexivity).
    destruct (nonempty (strip text)); split; reflexivity.
  - split; reflexivity.
  - destruct (periodic_check_frame a) as (Hp & Hg & _). auto.
  - destruct (handle_manual_generate_frame topic a) as (Hp & Hg & _). auto.
Qed.

(** X12.  Only the threads of [handle_update] write to the deck and to the
    tracked set: a run of events with no thread step among them (starts,
    stops, speech, both timers, manual requests) leaves the presentation
    and the tracked set as they were. *)
Theorem only_apply_threads_touch_the_deck (events : list event) (a : app) :
  forallb (fun e => negb (is_thread_step e)) events = true ->
  powerpoint (run E events a) = powerpoint a
  /\ generated_slide_indices (run E events a) = generated_slide_indices a.
Proof.
  revert a. induction events as [| e events IH]; intros a Hall; [split; reflexivity |].
  cbn [forallb] in Hall. apply andb_prop in Hall. destruct Hall as [He Hrest].
  unfold run in *. cbn [fold_left].
  destruct (IH (handle E a e) Hrest) as [Hp Hg]. rewrite Hp, Hg.
  apply handle_deck_frame. destruct (is_thread_step e); [discriminate | reflexivity].
Qed.

(** X13.  Within a session the tracked set only grows: an index that is
    tracked stays tracked, whatever happens next. *)
Theorem tracked_indices_are_never_dropped (events : list event) (a : app)
        (index : Z) :
  index ∈ generated_slide_indices a ->
  index ∈ generated_slide_indices (run E events a).
Proof.
  revert a. induction events as [| e events IH]; intros a Hin; [exact Hin |].
  unfold run in *. cbn [fold_left]. apply IH.
  destruct (is_thread_step e) eqn:Hts.
  - destruct e; try discriminate. cbn [handle].
    destruct (step_worker E i a) as [a' |] eqn:Hstep; [| exact Hin].
    apply (step_worker_tracked i a a' Hstep). exact Hin.
  - destruct (handle_deck_frame a e Hts) as [_ Hg]. rewrite Hg. exact Hin.
Qed.

End SessionInvariants.

(* ===================================================================== *)
(** * Further properties of content_generator.py *)
(* ===================================================================== *)

Section JsonExtraction.
Import ContentGenerator PyStr.
Variable E : collaborators.

Lemma index_app_miss (c : ascii) (pre s : string) :
  index c pre = None ->
  index c (pre +:+ s) = option_map (Nat.add (String.length pre)) (index c s).
Proof.
  induction pre as [| x pre IH]; intros Hmiss;
    red_append; cbn [index String.length] in *.
  - destruct (index c s); reflexivity.
  - destruct (Ascii.eqb x c); [discriminate |].
    destruct (index c pre); [discriminate |].
    rewrite IH by reflexivity. destruct (index c s); reflexivity.
Qed.

Lemma rindex_app_hit (c : ascii) (s t : string) (i : nat) :
  rindex c t = Some i -> rindex c (s +:+ t) = Some (String.length s + i).
Proof.
  intros Hhit. induction s as [| x s IH];
    red_append; cbn [rindex String.length]; [exact Hhit |].
  rewrite IH. reflexivity.
Qed.

Lemma substring_zero (n : nat) (s : string) : substring n 0 s = EmptyString.
Proof.
  revert n. induction s as [| x s IH]; intros [| n]; simpl; auto.
Qed.

Lemma substring_prefix (body post : string) :
  substring 0 (String.length body) (body +:+ post) = body.
Proof.
  induction body as [| x body IH]; red_append; cbn [String.length substring].
  - apply substring_zero.
  - rewrite IH. reflexivity.
Qed.

Lemma substring_skip (pre s : string) (n : nat) :
  substring (String.length pre) n (pre +:+ s) = substring 0 n s.
Proof.
  induction pre as [| x pre IH]; red_append; cbn [String.length substring];
    [reflexivity | exact IH].
Qed.

Lemma length_append (s t : string) :
  String.length (s +:+ t) = String.length s + String.length t.
Proof.
  induction s as [| x s IH]; red_append; cbn [String.length];
    [reflexivity | rewrite IH; reflexivity].
Qed.

Lemma substring_through (inner post : string) (c : ascii) :
  substring 0 (S (String.length inner)) (inner +:+ String c post)
  = inner +:+ String c EmptyString.
Proof.
  induction inner as [| x inner IH]; red_append; cbn [String.length substring].
  - rewrite substring_zero. reflexivity.
  - rewrite IH. reflexivity.
Qed.

(** X14.  What [_extract_json] hands to the parser is the text from the first
    opening brace to the last closing brace: prose before the object (with
    no opening brace in it) and after it (with no closing brace in it) is
    cut away.  When the last closing brace stands before the first
    opening brace, the parser is given the empty string. *)
Theorem extract_json_cuts_the_surrounding_text :
  (forall pre inner post,
      index "{" pre = None ->
      rindex "}" post = None ->
      _extract_json E (pre +:+ "{" +:+ inner +:+ "}" +:+ post)
      = json_loads E ("{" +:+ inner +:+ "}"))
  /\ (forall text i r,
        index "{" text = Some i ->
        rindex "}" text = Some r ->
        r < i ->
        _extract_json E text = json_loads E EmptyString).
Proof.
  split.
  - intros pre inner post Hpre Hpost. unfold _extract_json. red_append.
    rewrite (index_app_miss _ pre _ Hpre). cbn [index].
    rewrite Ascii.eqb_refl. cbn [option_map].
    assert (Hr : rindex "}" (pre +:+ String "{" (inner +:+ String "}" post))
                 = Some (String.length pre + S (String.length inner))).
    { apply rindex_app_hit. cbn [rindex].
      rewrite (rindex_app_hit "}" inner (String "}" post) 0).
      - rewrite Nat.add_0_r. reflexivity.
      - cbn [rindex]. rewrite Hpost, Ascii.eqb_refl. reflexivity. }
    rewrite Hr. unfold slice. rewrite Nat.add_0_r.
    replace (String.length pre + S (String.length inner) + 1 - String.length pre)
      with (S (S (String.length inner))) by lia.
    rewrite substring_skip. cbn [substring].
    rewrite substring_through. reflexivity.
  - intros text i r Hi Hr Hlt. unfold _extract_json. rewrite Hi, Hr. unfold slice.
    replace (r + 1 - i) with 0 by lia. rewrite substring_zero. reflexivity.
Qed.

End JsonExtraction.

Section TopicLine.
Import ContentGenerator PyStr.
Variable E : collaborators.

Lemma all_chars_append (p : ascii -> bool) (s t : string) :
  all_chars p (s +:+ t) = all_chars p s && all_chars p t.
Proof.
  induction s as [| x s IH]; red_append; cbn [all_chars]; [reflexivity |].
  rewrite IH. apply andb_assoc.
Qed.

Lemma all_chars_lstrip (p : ascii -> bool) (s : string) :
  all_chars p s = true -> all_chars p (lstrip s) = true.
Proof.
  induction s as [| x s IH]; intros Hs; [reflexivity |].
  cbn [lstrip]. destruct (is_space x); [| exact Hs].
  simpl in Hs. apply andb_prop in Hs. apply IH. tauto.
Qed.

Lemma all_chars_rstrip (p : ascii -> bool) (s : string) :
  all_chars p s = true -> all_chars p (rstrip s) = true.
Proof.
  induction s as [| x s IH]; intros Hs; [reflexivity |].
  simpl in Hs. apply andb_prop in Hs. destruct Hs as [Hx Hs].
  specialize (IH Hs). cbn [rstrip].
  destruct (rstrip s) as [| y kept].
  - destruct (is_space x); simpl; [reflexivity | rewrite Hx; reflexivity].
  - cbn [all_chars] in *. rewrite Hx, IH. reflexivity.
Qed.

Lemma rstrip_idempotent (s : string) : rstrip (rstrip s) = rstrip s.
Proof.
  induction s as [| x s IH]; [reflexivity |].
  cbn [rstrip]. destruct (rstrip s) as [| y kept] eqn:Hk.
  - destruct (is_space x) eqn:Hx; [reflexivity |]. cbn [rstrip]. rewrite Hx. reflexivity.
  - cbn [rstrip] in *. rewrite IH. reflexivity.
Qed.

Lemma lstrip_rstrip_lstrip (s : string) : lstrip (rstrip (lstrip s)) = rstrip (lstrip s).
Proof.
  induction s as [| x s IH]; [reflexivity |].
  cbn [lstrip]. destruct (is_space x) eqn:Hx; [exact IH |].
  cbn [rstrip]. destruct (rstrip s) as [| y kept];
    rewrite ?Hx; cbn [lstrip]; rewrite ?Hx; reflexivity.
Qed.

Lemma strip_idempotent (s : string) : strip (strip s) = strip s.
Proof.
  unfold strip. rewrite lstrip_rstrip_lstrip. apply rstrip_idempotent.
Qed.

Lemma splitlines_from_no_linebreak (n : nat) :
  forall s cur,
    String.length s <= n ->
    all_chars not_linebreak cur = true ->
    Forall (fun line => all_chars not_linebreak line = true) (splitlines_from cur s).
Proof.
  induction n as [| n IH]; intros s cur Hlen Hcur.
  - destruct s; [| simpl in Hlen; lia]. simpl.
    destruct cur; [constructor | constructor; [exact Hcur | constructor]].
  - destruct s as [| c rest].
    + simpl. destruct cur; [constructor | constructor; [exact Hcur | constructor]].
    + simpl in Hlen. cbn [splitlines_from].
      destruct (is_linebreak c) eqn:Hc.
      * constructor; [exact Hcur |].
        destruct (Ascii.eqb c CR).
        -- destruct rest as [| c' rest']; [apply IH; [simpl; lia | reflexivity] |].
           destruct (Ascii.eqb c' LF); apply IH; simpl in *; try lia; reflexivity.
        -- apply IH; [lia | reflexivity].
      * apply IH; [lia |]. rewrite all_chars_append, Hcur. simpl.
        unfold not_linebreak. rewrite Hc. reflexivity.
Qed.

Lemma last_error_line_Forall (P : string -> Prop) (lines : list string) (line : string) :
  Forall P lines -> last_error_line lines = Some line -> P line.
Proof.
  intros Hall. destruct lines as [| l rest]; [discriminate |].
  cbn [last_error_line]. intros [= <-].
  inversion Hall as [| ? ? Hl Hrest]; subst. clear Hall.
  revert l Hl. induction Hrest as [| y rest Hy Hrest IH]; intros l Hl; [exact Hl |].
  cbn [List.last]. destruct rest; [exact Hy | apply IH; exact Hl].
Qed.

(** X15.  A topic that [check_for_deviation] returns is one trimmed line: it
    holds no line boundary, and stripping it again changes nothing (it
    neither starts nor ends with a blank). *)
Theorem deviation_topic_is_one_trimmed_line (slide_text speech_text topic : string) :
  check_for_deviation E slide_text speech_text = Some topic ->
  all_chars not_linebreak topic = true /\ strip topic = topic.
Proof.
  unfold check_for_deviation.
  destruct (model_generate_content E _) as [text |]; [| discriminate].
  destruct (last_error_line (splitlines (strip text))) as [line |] eqn:Hlast;
    [| discriminate].
  destruct (negb _ && _); [| discriminate]. intros [= <-].
  split; [| apply strip_idempotent].
  unfold strip at 1. apply all_chars_rstrip, all_chars_lstrip.
  refine (last_error_line_Forall
            (fun l => all_chars not_linebreak l = true) _ _ _ Hlast).
  apply (splitlines_from_no_linebreak (String.length (strip text))); [lia | reflexivity].
Qed.

End TopicLine.

(* ===================================================================== *)
(** * Further properties of the slide layout *)
(* ===================================================================== *)

Section LayoutFrame.
Import SlideUpdater PyStr PyNum.
Variable E : collaborators.

Lemma appends_ret {A} (a : A) : appends (ret a).
Proof. intros pre l Hl. split; [reflexivity | exact Hl]. Qed.

Lemma appends_raise {A} : appends (@raise A).
Proof. intros pre l Hl. split; [reflexivity | exact Hl]. Qed.

Lemma appends_lift {A} (o : option A) : appends (lift o).
Proof. destruct o; [apply appends_ret | apply appends_raise]. Qed.

Lemma appends_bind {A B} (m : M A) (k : A -> M B) :
  appends m -> (forall a, appends (k a)) -> appends (bind m k).
Proof.
  intros Hm Hk pre l Hl. destruct (Hm pre l Hl) as [Heq Hne].
  unfold bind. rewrite Heq.
  destruct (m l) as [l1 [a |]]; cbn [fst snd] in *.
  - apply Hk. exact Hne.
  - split; [reflexivity | exact Hne].
Qed.

Lemma appends_add (x : shape) : appends (modify (fun shapes => shapes ++ [x])).
Proof.
  intros pre l Hl. unfold modify. cbn [fst snd]. rewrite app_assoc.
  split; [reflexivity |]. destruct l; discriminate.
Qed.

Lemma on_last_app {A} (f : A -> A) (pre l : list A) :
  l <> [] -> on_last f (pre ++ l) = pre ++ on_last f l.
Proof.
  intros Hl. induction pre as [| x pre IH]; [reflexivity |].
  cbn [app on_last]. rewrite IH.
  destruct (pre ++ l) eqn:Hpl; [| reflexivity].
  destruct pre; [contradiction | discriminate].
Qed.

Lemma on_last_not_nil {A} (f : A -> A) (l : list A) : l <> [] -> on_last f l <> [].
Proof.
  destruct l as [| x [| y l]]; intros Hl; [contradiction | discriminate | discriminate].
Qed.

Lemma appends_on_box (f : textbox -> textbox) : appends (on_box f).
Proof.
  intros pre l Hl. unfold on_box, modify. cbn [fst snd].
  rewrite on_last_app by exact Hl.
  split; [reflexivity | apply on_last_not_nil; exact Hl].
Qed.

Lemma appends_for_each {A} (items : list A) (body : A -> M unit) :
  (forall x, appends (body x)) -> appends (for_each items body).
Proof.
  intros Hbody. induction items as [| x items IH]; cbn [for_each].
  - apply appends_ret.
  - apply appends_bind; [apply Hbody | intros _; exact IH].
Qed.

Lemma reads_only_lift {A} (o : option A) : reads_only (lift o).
Proof. destruct o; intros shapes; reflexivity. Qed.

Lemma reads_only_resolve_visual (content_json : json) :
  reads_only (resolve_visual E content_json).
Proof.
  intros shapes. unfold resolve_visual, bind.
  destruct (get content_json "chart_data") as [chart_data |]; [| reflexivity].
  cbn [lift ret]. destruct (truthy chart_data); [reflexivity |].
  destruct (get content_json "image_suggestion") as [image_suggestion |];
    [| reflexivity].
  cbn [lift ret]. destruct (truthy image_suggestion); [| reflexivity].
  destruct (negb (path_truthy (get_icon E image_suggestion))); reflexivity.
Qed.

Lemma frames_bind_reads {A B} (m : M A) (k : A -> M B) :
  reads_only m -> (forall a, frames (k a)) -> frames (bind m k).
Proof.
  intros Hm Hk pre. unfold bind. rewrite (Hm pre), (Hm []).
  destruct (snd (m [])) as [a |]; [apply Hk |].
  rewrite app_nil_r. reflexivity.
Qed.

Lemma frames_add_then {B} (x : shape) (k : unit -> M B) :
  (forall u, appends (k u)) ->
  frames (bind (modify (fun shapes => shapes ++ [x])) k).
Proof.
  intros Hk pre. unfold bind, modify. cbn [app].
  destruct (Hk tt pre [x]) as [Heq _]; [discriminate |]. exact Heq.
Qed.

Lemma add_content_frames (content_json : json) (style_guide : option style) :
  frames (_add_content_to_slide E content_json style_guide).
Proof.
  unfold _add_content_to_slide.
  apply frames_bind_reads; [apply reads_only_lift | intros layout].
  apply frames_bind_reads; [apply reads_only_resolve_visual | intros visual_path].
  apply frames_add_then. intros _.
  repeat first
    [ apply appends_bind
    | apply appends_lift
    | apply appends_on_box
    | apply appends_add
    | apply appends_for_each
    | match goal with |- forall _, appends _ => intro end ].
  destruct visual_path as [path |]; [| apply appends_ret].
  destruct (nonempty path && path_exists E path); [| apply appends_ret].
  destruct (picture_loads E (abspath E path)); [apply appends_add | apply appends_raise].
Qed.

(** X4.  The layout only adds shapes.  Whatever is on the slide when
    [_add_content_to_slide] runs stays there, unchanged and in front, also
    when the layout raises on its way; and what is added, and whether the
    layout raises, is the same as on an empty slide. *)
Theorem layout_only_adds_shapes (content_json : json) (style_guide : option style)
        (shapes : list shape) :
  _add_content_to_slide E content_json style_guide shapes
  = (shapes ++ fst (_add_content_to_slide E content_json style_guide []),
     snd (_add_content_to_slide E content_json style_guide [])).
Proof. exact (add_content_frames content_json style_guide shapes). Qed.

End LayoutFrame.

Section LayoutRule.
Import SlideUpdater PyStr PyNum.
Variable E : collaborators.

Lemma same_frame_refl (t : textbox) : same_frame t t.
Proof. repeat split. Qed.

Lemma same_frame_trans (t1 t2 t3 : textbox) :
  same_frame t1 t2 -> same_frame t2 t3 -> same_frame t1 t3.
Proof.
  unfold same_frame. intros (H1 & H2 & H3 & H4 & H5 & H6) (G1 & G2 & G3 & G4 & G5 & G6).
  repeat split; congruence.
Qed.

Lemma keeps_box_ret {A} (a : A) : keeps_box (ret a).
Proof. intros pre t. exists t. split; [reflexivity | apply same_frame_refl]. Qed.

Lemma keeps_box_raise {A} : keeps_box (@raise A).
Proof. intros pre t. exists t. split; [reflexivity | apply same_frame_refl]. Qed.

Lemma keeps_box_lift {A} (o : option A) : keeps_box (lift o).
Proof. destruct o; [apply keeps_box_ret | apply keeps_box_raise]. Qed.

Lemma keeps_box_bind {A B} (m : M A) (k : A -> M B) :
  keeps_box m -> (forall a, keeps_box (k a)) -> keeps_box (bind m k).
Proof.
  intros Hm Hk pre t. destruct (Hm pre t) as (t1 & Heq & Hsame).
  unfold bind. destruct (m (pre ++ [Textbox t])) as [s1 [a |]]; cbn [fst] in *; subst s1.
  - destruct (Hk a pre t1) as (t2 & Heq2 & Hsame2).
    exists t2. split; [exact Heq2 | eapply same_frame_trans; eassumption].
  - exists t1. split; [reflexivity | exact Hsame].
Qed.

Lemma keeps_box_runs (f : list run -> list run) : keeps_box (on_box (with_runs f)).
Proof.
  intros pre t. exists (with_runs f t). unfold on_box, modify. cbn [fst].
  rewrite on_last_app by discriminate. split; [reflexivity | repeat split].
Qed.

Lemma keeps_box_for_each {A} (items : list A) (body : A -> M unit) :
  (forall x, keeps_box (body x)) -> keeps_box (for_each items body).
Proof.
  intros Hbody. induction items as [| x items IH]; cbn [for_each].
  - apply keeps_box_ret.
  - apply keeps_box_bind; [apply Hbody | intros _; exact IH].
Qed.

Lemma bind_run {A B} (m : M A) (k : A -> M B) (shapes : list shape) :
  bind m k shapes
  = match m shapes with
    | (shapes', Some a) => k a shapes'
    | (shapes', None) => (shapes', None)
    end.
Proof. reflexivity. Qed.

Lemma picture_step (visual_path : option string) (shapes out : list shape) :
  match visual_path with
  | Some path =>
      if nonempty path && path_exists E path then
        if picture_loads E (abspath E path) then
          modify (AddPicture (abspath E path)
                             (inch_to_points (6 # 1)) (inch_to_points (5 # 2))
                             (inch_to_points (7 # 2)) (inch_to_points (7 # 2)))
        else raise
      else ret tt
  | None => ret tt
  end shapes = (out, Some tt) ->
  out = shapes ++ picture_of E visual_path.
Proof.
  unfold picture_of. destruct visual_path as [path |].
  - destruct (nonempty path && path_exists E path).
    + destruct (picture_loads E (abspath E path)); [| discriminate].
      intros [= <-]. reflexivity.
    + intros [= <-]. symmetry. apply app_nil_r.
  - intros [= <-]. symmetry. apply app_nil_r.
Qed.

(** X5.  The layout rule.  When [_add_content_to_slide] runs to its end on an
    empty slide, the slide holds the title box, the body box and the
    watermark, in this order, and the picture after them if the visual
    that was resolved names a file that exists.  With a visual both text
    boxes are 5.5 inches wide and the title is aligned left; without one
    they are 9 inches wide and the title is centred.  The body is aligned
    left in both cases.  The width follows the resolved path alone: a path
    to a file that does not exist still gives the narrow text. *)
Theorem layout_follows_the_visual (content_json : json) (style_guide : option style)
        (out : list shape) :
  _add_content_to_slide E content_json style_guide [] = (out, Some tt) ->
  exists visual_path title body logo,
    resolve_visual E content_json [] = ([], Some visual_path)
    /\ out = Textbox title :: Textbox body :: Textbox logo :: picture_of E visual_path
    /\ tb_width title = text_width visual_path
    /\ tb_width body = text_width visual_path
    /\ tb_alignment title
       = Some (if path_truthy visual_path then ppAlignLeft else ppAlignCenter)
    /\ tb_alignment body = Some ppAlignLeft
    /\ map r_text (tb_runs logo) = ["Updated live by Savi.ai"].
Proof.
  intros Hrun. unfold _add_content_to_slide in Hrun.
  run_statement Hrun.
  rewrite bind_run in Hrun.
  pose proof (reads_only_resolve_visual E content_json []) as Hvisual.
  destruct (resolve_visual E content_json []) as [s0 [visual_path |]];
    cbn [snd] in Hvisual; injection Hvisual as ->; [| discriminate Hrun].
  exists visual_path.
  do 15 run_statement Hrun.
  rewrite bind_run in Hrun.
  match type of Hrun with
  | context [for_each ?items ?loop_body [Textbox ?T; Textbox ?B]] =>
      assert (Hloop : keeps_box (for_each items loop_body));
      [ apply keeps_box_for_each; intros point_text;
        repeat first
          [ apply keeps_box_bind
          | apply keeps_box_lift
          | apply keeps_box_runs
          | match goal with |- forall _, keeps_box _ => intro end ]
      | destruct (Hloop [Textbox T] B) as (body_box & Hfst & Hsame);
        cbn [app] in Hfst;
        destruct (for_each items loop_body [Textbox T; Textbox B]) as [s1 [u |]];
        cbn [fst] in Hfst; subst s1; [| discriminate Hrun] ]
  end.
  do 6 run_statement Hrun.
  destruct Hsame as (_ & _ & _ & Hwidth & _ & _).
  apply picture_step in Hrun. cbn [app] in Hrun. subst out.
  do 3 eexists. split; [reflexivity |]. split; [reflexivity |].
  unfold text_width.
  cbn [tb_width tb_alignment tb_runs set_alignment format_all with_runs set_text
       nonempty map r_text set_color set_font_size plain_run].
  split; [destruct (path_truthy visual_path); reflexivity |].
  split; [rewrite Hwidth; destruct (path_truthy visual_path); reflexivity |].
  split; [destruct (path_truthy visual_path); reflexivity |].
  split; reflexivity.
Qed.

End LayoutRule.

(* ===================================================================== *)
(** * Properties of theme_analyzer.py and of the deck selection *)
(* ===================================================================== *)

Section Theme.
Import ThemeAnalyzer PyNum.

Lemma pick_source {A} (score : A -> nat) (items : list A) (best : option A) (k : A) :
  pick score best items = Some k -> best = Some k \/ In k items.
Proof.
  revert best. induction items as [| x items IH]; intros best Hpick; [left; exact Hpick |].
  cbn [pick] in Hpick. apply IH in Hpick. destruct Hpick as [Hbest | Hin].
  - destruct best as [b |].
    + destruct (score b <? score x); injection Hbest as <-; [right; left |]; auto.
    + injection Hbest as <-. right. left. reflexivity.
  - right. right. exact Hin.
Qed.

Lemma pick_is_maximal {A} (score : A -> nat) (items : list A) (best : option A) (k : A) :
  pick score best items = Some k ->
  (forall b, best = Some b -> score b <= score k)
  /\ (forall y, In y items -> score y <= score k).
Proof.
  revert best. induction items as [| x items IH]; intros best Hpick.
  - cbn [pick] in Hpick. subst best. split.
    + intros b [= <-]. lia.
    + intros y [].
  - cbn [pick] in Hpick. apply IH in Hpick. destruct Hpick as [Hbest Hrest].
    assert (Hx : score x <= score k
                 /\ forall b, best = Some b -> score b <= score k).
    { destruct best as [b |].
      - destruct (Nat.ltb_spec (score b) (score x)) as [Hlt | Hge].
        + specialize (Hbest x eq_refl). split; [exact Hbest |].
          intros b0 [= <-]. lia.
        + specialize (Hbest b eq_refl). split; [lia |].
          intros b0 [= <-]. exact Hbest.
      - split; [apply Hbest; reflexivity | discriminate]. }
    destruct Hx as [Hx Hb]. split; [exact Hb |].
    intros y [<- | Hin]; [exact Hx | apply Hrest; exact Hin].
Qed.

Lemma pick_some {A} (score : A -> nat) (items : list A) (b : A) :
  exists k, pick score (Some b) items = Some k.
Proof.
  revert b. induction items as [| x items IH]; intros b; [exists b; reflexivity |].
  cbn [pick]. destruct (score b <? score x); apply IH.
Qed.

(** What [most_common_or] returns: the default on an empty list, and
    otherwise an item of the list that no other value outnumbers. *)
Lemma most_common_or_spec {A} (eqb : A -> A -> bool) (items : list A) (default : A) :
  (items = [] /\ most_common_or eqb items default = default)
  \/ (In (most_common_or eqb items default) items
      /\ forall y, In y items ->
                   count eqb y items <= count eqb (most_common_or eqb items default) items).
Proof.
  unfold most_common_or. destruct items as [| x items]; [left; split; reflexivity |].
  right.
  destruct (pick_some (fun y => count eqb y (x :: items)) items x) as [k Hk].
  cbn [pick]. rewrite Hk.
  pose proof (pick_source _ items (Some x) k Hk) as Hsrc.
  pose proof (pick_is_maximal _ items (Some x) k Hk) as [Hb Hmax].
  cbv beta in Hb, Hmax.
  split.
  - destruct Hsrc as [[= <-] | Hin]; [left; reflexivity | right; exact Hin].
  - intros y [<- | Hin]; [apply Hb; reflexivity | apply Hmax; exact Hin].
Qed.

Lemma count_absent (name : string) (names : list string) :
  ~ In name names -> count String.eqb name names = 0.
Proof.
  induction names as [| y names IH]; intros Hnot; [reflexivity |].
  cbn [count]. destruct (String.eqb_spec y name) as [-> | Hne].
  - exfalso. apply Hnot. left. reflexivity.
  - apply IH. intros Hin. apply Hnot. right. exact Hin.
Qed.

(** X16.  The font names of the style guide.  The title font is Calibri when no
    title, centred-title or subtitle placeholder of any master names a
    font; otherwise it is one of the names found there, and no name is
    found there more often.  The same holds for the body font and the body
    placeholders. *)
Theorem style_fonts_are_most_frequent (slide_masters : list (list placeholder))
        (s : style) :
  get_style (Some slide_masters) = Style s ->
  let title_names := names_of (fonts_of is_title_type slide_masters) in
  let body_names := names_of (fonts_of is_body_type slide_masters) in
  ((title_names = [] /\ title_font_name s = "Calibri")
   \/ (In (title_font_name s) title_names
       /\ forall other,
            count String.eqb other title_names
            <= count String.eqb (title_font_name s) title_names))
  /\ ((body_names = [] /\ body_font_name s = "Calibri")
      \/ (In (body_font_name s) body_names
          /\ forall other,
               count String.eqb other body_names
               <= count String.eqb (body_font_name s) body_names)).
Proof.
  intros Hstyle title_names body_names.
  destruct slide_masters as [| m ms]; [discriminate |].
  cbn [get_style] in Hstyle. injection Hstyle as <-. cbn [title_font_name body_font_name].
  fold title_names body_names.
  assert (Hgen : forall names : list string,
             (names = [] /\ most_common_or String.eqb names "Calibri" = "Calibri")
             \/ (In (most_common_or String.eqb names "Calibri") names
                 /\ forall other,
                      count String.eqb other names
                      <= count String.eqb (most_common_or String.eqb names "Calibri")
                                          names)).
  { intros names.
    destruct (most_common_or_spec String.eqb names "Calibri") as [Hnil | [Hin Hmax]];
      [left; exact Hnil | right].
    split; [exact Hin |]. intros other.
    destruct (in_dec string_dec other names) as [Hother | Hother].
    - apply Hmax. exact Hother.
    - rewrite (count_absent other names Hother). lia. }
  split; apply Hgen.
Qed.

Lemma hex_digit_hex_char (d : nat) :
  d < 16 -> hex_digit (hex_char d) = Some (Z.of_nat d).
Proof.
  intros Hd. do 16 (destruct d as [| d]; [reflexivity |]). lia.
Qed.

Lemma hex_from_hex2 (acc : Z) (n : nat) (rest : string) :
  n < 256 ->
  hex_from acc (hex2 n +:+ rest) = hex_from (256 * acc + Z.of_nat n)%Z rest.
Proof.
  intros Hn. unfold hex2. red_append. cbn [hex_from].
  rewrite (hex_digit_hex_char (n / 16)) by (apply Nat.Div0.div_lt_upper_bound; lia).
  rewrite (hex_digit_hex_char (n mod 16)) by (apply Nat.mod_upper_bound; lia).
  f_equal. pose proof (Nat.div_mod_eq n 16). lia.
Qed.

Lemma int_base16_str_rgb (c : RGBColor) :
  valid_rgb c ->
  int_base16 (str_rgb c)
  = Some (65536 * Z.of_nat (red c) + 256 * Z.of_nat (green c) + Z.of_nat (blue c))%Z.
Proof.
  intros (Hr & Hg & Hb). unfold int_base16, str_rgb.
  change (hex2 (red c) +:+ hex2 (green c) +:+ hex2 (blue c))
    with (String (hex_char (red c / 16))
                 (String (hex_char (red c mod 16))
                         (hex2 (green c) +:+ hex2 (blue c)))).
  change (String (hex_char (red c / 16))
                 (String (hex_char (red c mod 16))
                         (hex2 (green c) +:+ hex2 (blue c))))
    with (hex2 (red c) +:+ hex2 (green c) +:+ hex2 (blue c)).
  rewrite (hex_from_hex2 0 (red c)) by exact Hr.
  rewrite hex_from_hex2 by exact Hg.
  replace (hex2 (blue c)) with (hex2 (blue c) +:+ EmptyString) by reflexivity.
  rewrite hex_from_hex2 by exact Hb.
  cbn [hex_from]. f_equal. lia.
Qed.

Lemma most_common_or_valid (colors : list RGBColor) (default : RGBColor) :
  Forall valid_rgb colors -> valid_rgb default ->
  valid_rgb (most_common_or rgb_eqb colors default).
Proof.
  intros Hall Hd.
  destruct (most_common_or_spec rgb_eqb colors default) as [[_ ->] | [Hin _]];
    [exact Hd |].
  rewrite List.Forall_forall in Hall. apply Hall. exact Hin.
Qed.

Lemma colors_of_valid (wanted : placeholder_type -> bool)
      (slide_masters : list (list placeholder)) :
  (forall ph f c, In ph (concat slide_masters) -> ph_font ph = Some f ->
                  f_color f = Some c -> valid_rgb c) ->
  Forall valid_rgb (colors_of (fonts_of wanted slide_masters)).
Proof.
  intros Hvalid. apply List.Forall_forall. intros c Hc.
  unfold colors_of in Hc. apply in_flat_map in Hc. destruct Hc as (f & Hf & Hc).
  unfold fonts_of in Hf. apply in_flat_map in Hf. destruct Hf as (ph & Hph & Hf).
  destruct (wanted (ph_type ph)); [| destruct Hf].
  destruct (ph_font ph) as [f0 |] eqn:Hfont; [| destruct Hf].
  destruct Hf as [<- | []].
  destruct (f_color f0) as [c0 |] eqn:Hcol; [| destruct Hc].
  destruct Hc as [<- | []].
  eapply Hvalid; eassumption.
Qed.

(** X17.  The two colours of a style guide always parse.  Whatever the slide
    masters hold (with colour components in 0..255, as python-pptx keeps
    them), [int(..., 16)] of the primary and of the accent colour is
    defined, and it is the number 0xRRGGBB of some colour: the layout
    cannot raise at a colour of a style guide that [get_style] made. *)
Theorem style_colours_always_parse (slide_masters : list (list placeholder))
        (s : style) :
  (forall ph f c, In ph (concat slide_masters) -> ph_font ph = Some f ->
                  f_color f = Some c -> valid_rgb c) ->
  get_style (Some slide_masters) = Style s ->
  exists primary accent,
    valid_rgb primary /\ valid_rgb accent
    /\ primary_color_rgb s = str_rgb primary
    /\ accent_color_rgb s = str_rgb accent
    /\ int_base16 (primary_color_rgb s)
       = Some (65536 * Z.of_nat (red primary) + 256 * Z.of_nat (green primary)
               + Z.of_nat (blue primary))%Z
    /\ int_base16 (accent_color_rgb s)
       = Some (65536 * Z.of_nat (red accent) + 256 * Z.of_nat (green accent)
               + Z.of_nat (blue accent))%Z.
Proof.
  intros Hvalid Hstyle.
  destruct slide_masters as [| m ms]; [discriminate |].
  cbn [get_style] in Hstyle. injection Hstyle as <-.
  cbn [primary_color_rgb accent_color_rgb].
  set (primary := most_common_or rgb_eqb _ _).
  set (accent := most_common_or rgb_eqb _ _).
  assert (Hp : valid_rgb primary).
  { apply most_common_or_valid; [apply colors_of_valid; exact Hvalid |].
    unfold valid_rgb. simpl. lia. }
  assert (Ha : valid_rgb accent).
  { apply most_common_or_valid; [apply colors_of_valid; exact Hvalid |].
    unfold valid_rgb. simpl. lia. }
  exists primary, accent.
  split; [exact Hp |]. split; [exact Ha |].
  split; [reflexivity |]. split; [reflexivity |].
  split; apply int_base16_str_rgb; assumption.
Qed.

(** X18.  When [get_style] gives a style, when it gives none, and when it
    raises.  A file that cannot be opened gives none; a deck without any
    slide master makes [get_style] raise; every other deck gives a style,
    which is the default one (Calibri 32 and 18, 000000 and 595959) when no
    placeholder of the masters has a text frame. *)
Theorem style_defaults_and_failures :
  get_style None = NoStyle
  /\ get_style (Some []) = StyleRaises
  /\ (forall slide_masters,
        slide_masters <> [] ->
        exists s, get_style (Some slide_masters) = Style s)
  /\ (forall slide_masters,
        slide_masters <> [] ->
        (forall ph, In ph (concat slide_masters) -> ph_font ph = None) ->
        get_style (Some slide_masters)
        = Style {| title_font_name := "Calibri"; title_font_size := (32 # 1)%Q;
                   body_font_name := "Calibri"; body_font_size := (18 # 1)%Q;
                   primary_color_rgb := "000000"; accent_color_rgb := "595959" |}).
Proof.
  split; [reflexivity |]. split; [reflexivity |]. split.
  - intros [| m ms] Hne; [contradiction |]. eexists. reflexivity.
  - intros slide_masters Hne Hnone.
    assert (Hfonts : forall wanted, fonts_of wanted slide_masters = []).
    { intros wanted. unfold fonts_of.
      induction (concat slide_masters) as [| ph phs IH]; [reflexivity |].
      cbn [flat_map]. rewrite (Hnone ph) by (left; reflexivity).
      rewrite IH by (intros ph' Hin; apply Hnone; right; exact Hin).
      destruct (wanted (ph_type ph)); reflexivity. }
    destruct slide_masters as [| m ms]; [contradiction |].
    cbn [get_style]. rewrite !Hfonts. reflexivity.
Qed.

End Theme.

Section DeckSelection.
Import Application Session ThemeAnalyzer.
Variable E : collaborators.







(** A pick does not stop a thread: one in flight when the deck is picked inserts
    its slide afterwards and tracks index 2, where the show then stands;
    the next detection cycle starts an update of that slide. *)
Example thread_in_flight_tracks_after_pick :
  let picked := select_file_and_start_show (Some Sample.good_deck)
                                           Sample.insert_in_flight in
  let after := run Sample.assistant [ThreadStep 0] picked in
  generated_slide_indices picked = ∅
  /\ elements (generated_slide_indices after) = [2%Z]
  /\ map w_is_update (workers (run_deviation_check Sample.assistant after))
     = [false; true]
  /\ map w_slide_index (workers (run_deviation_check Sample.assistant after))
     = [1%Z; 2%Z].
Proof. vm_compute. repeat split. Qed.

End DeckSelection.

Section LayoutCompletes.
Import SlideUpdater PyStr PyNum.
Variable E : collaborators.

Lemma completes_ret {A} (a : A) : completes (ret a).
Proof. intros shapes. exists a. reflexivity. Qed.

Lemma completes_modify (f : list shape -> list shape) : completes (modify f).
Proof. intros shapes. exists tt. reflexivity. Qed.

Lemma completes_on_box (f : textbox -> textbox) : completes (on_box f).
Proof. intros shapes. exists tt. reflexivity. Qed.

Lemma completes_bind {A B} (m : M A) (k : A -> M B) :
  completes m -> (forall a, completes (k a)) -> completes (bind m k).
Proof.
  intros Hm Hk shapes. destruct (Hm shapes) as [a Ha]. unfold bind.
  destruct (m shapes) as [s1 r]. cbn [snd] in Ha. subst r. apply Hk.
Qed.

Lemma completes_bind_some {A B} (a : A) (k : A -> M B) :
  completes (k a) -> completes (bind (lift (Some a)) k).
Proof. intros Hk shapes. apply Hk. Qed.

Lemma completes_for_each {A} (items : list A) (body : A -> M unit) :
  (forall x, In x items -> completes (body x)) -> completes (for_each items body).
Proof.
  induction items as [| x items IH]; intros Hbody; cbn [for_each].
  - apply completes_ret.
  - apply completes_bind; [apply Hbody; left; reflexivity |].
    intros _. apply IH. intros y Hy. apply Hbody. right. exact Hy.
Qed.

Lemma completes_resolve_visual (fields : list (string * json)) :
  completes (resolve_visual E (JObj fields)).
Proof.
  intros shapes. unfold resolve_visual, bind. cbn [get lift ret].
  destruct (truthy _); [eexists; reflexivity |].
  destruct (truthy _); [| eexists; reflexivity].
  destruct (negb _); eexists; reflexivity.
Qed.

(** X6.  When the layout runs to its end.  With content that is an object
    whose title PowerPoint takes as text and whose points are a list of
    strings, a style guide whose two colours parse, and pictures that
    load, [_add_content_to_slide] does not raise, whatever is on the
    slide. *)
Theorem layout_completes_on_well_formed_content
        (fields : list (string * json)) (sg : style) (title_text : string)
        (texts : list string) (primary accent : Z) (shapes : list shape) :
  com_text E (match assoc "title" fields with
              | Some v => v
              | None => JStr "New Topic"
              end) = Some title_text ->
  match assoc "points" fields with
  | Some v => v
  | None => JArr []
  end = JArr (map JStr texts) ->
  int_base16 (primary_color_rgb sg) = Some primary ->
  int_base16 (accent_color_rgb sg) = Some accent ->
  (forall path, picture_loads E (abspath E path) = true) ->
  snd (_add_content_to_slide E (JObj fields) (Some sg) shapes) = Some tt.
Proof.
  intros Htitle Hpoints Hprimary Haccent Hloads.
  assert (Hall : completes (_add_content_to_slide E (JObj fields) (Some sg))).
  { unfold _add_content_to_slide. cbn [get_default].
    apply completes_bind_some.
    apply completes_bind; [apply completes_resolve_visual | intros visual_path].
    apply completes_bind; [apply completes_modify | intros _].
    apply completes_bind_some. rewrite Htitle.
    apply completes_bind_some.
    apply completes_bind; [apply completes_on_box | intros _].
    apply completes_bind_some.
    do 3 (apply completes_bind; [apply completes_on_box | intros _]).
    rewrite Hprimary. apply completes_bind_some.
    do 2 (apply completes_bind; [apply completes_on_box | intros _]).
    apply completes_bind; [apply completes_modify | intros _].
    apply completes_bind; [apply completes_on_box | intros _].
    rewrite Hpoints. apply completes_bind_some. cbn [iterate].
    apply completes_bind_some.
    apply completes_bind.
    - apply completes_for_each. intros x Hx.
      apply in_map_iff in Hx. destruct Hx as (text & <- & _). cbn [add_str].
      apply completes_bind_some.
      do 4 (apply completes_bind; [apply completes_on_box | intros _]).
      rewrite Haccent. apply completes_bind_some. apply completes_on_box.
    - intros _.
      apply completes_bind; [apply completes_on_box | intros _].
      apply completes_bind; [apply completes_modify | intros _].
      do 2 (apply completes_bind; [apply completes_on_box | intros _]).
      change (int_base16 "A0A0A0") with (Some 10526880%Z).
      apply completes_bind_some.
      apply completes_bind; [apply completes_on_box | intros _].
      destruct visual_path as [path |]; [| apply completes_ret].
      destruct (nonempty path && path_exists E path); [| apply completes_ret].
      rewrite Hloads. apply completes_modify. }
  destruct (Hall shapes) as [[] Hdone]. exact Hdone.
Qed.

End LayoutCompletes.

(* ===================================================================== *)
(** * Two updates in a row *)
(* ===================================================================== *)

Section LayoutShapes.
Import SlideUpdater PyStr PyNum.
Variable E : collaborators.

Lemma bind_lift_Some {A B} (a : A) (k : A -> M B) (shapes : list shape) :
  bind (lift (Some a)) k shapes = k a shapes.
Proof. reflexivity. Qed.

Lemma bind_modify {B} (f : list shape -> list shape) (k : unit -> M B)
      (shapes : list shape) :
  bind (modify f) k shapes = k tt (f shapes).
Proof. reflexivity. Qed.

Lemma bind_on_box {B} (f : textbox -> textbox) (k : unit -> M B)
      (pre : list shape) (t : textbox) :
  bind (on_box f) k (pre ++ [Textbox t]) = k tt (pre ++ [Textbox (f t)]).
Proof.
  unfold on_box. rewrite bind_modify. rewrite on_last_app by discriminate.
  reflexivity.
Qed.

Lemma bind_on_box1 {B} (f : textbox -> textbox) (k : unit -> M B) (t : textbox) :
  bind (on_box f) k [Textbox t] = k tt [Textbox (f t)].
Proof. exact (bind_on_box f k [] t). Qed.

Lemma bind_on_box2 {B} (f : textbox -> textbox) (k : unit -> M B)
      (a : shape) (t : textbox) :
  bind (on_box f) k [a; Textbox t] = k tt [a; Textbox (f t)].
Proof. exact (bind_on_box f k [a] t). Qed.

Lemma bind_on_box3 {B} (f : textbox -> textbox) (k : unit -> M B)
      (a b : shape) (t : textbox) :
  bind (on_box f) k [a; b; Textbox t] = k tt [a; b; Textbox (f t)].
Proof. exact (bind_on_box f k [a; b] t). Qed.

Lemma on_box_run (f : textbox -> textbox) (pre : list shape) (t : textbox) :
  on_box f (pre ++ [Textbox t]) = (pre ++ [Textbox (f t)], Some tt).
Proof.
  unfold on_box, modify. rewrite on_last_app by discriminate. reflexivity.
Qed.

(** The loop over the points adds one formatted line per point to the
    box that was added last. *)
Lemma body_loop (sg : style) (accent : Z) (texts : list string)
      (pre : list shape) (t : textbox) :
  int_base16 (accent_color_rgb sg) = Some accent ->
  for_each (map JStr texts)
    (fun point_text =>
       line <- lift (add_str point_text crlf) ;;
       on_box (insert_after line) ;;
       on_box (format_last (set_bullet msoTrue)) ;;
       on_box (format_last (set_font_name (body_font_name sg))) ;;
       on_box (format_last (set_font_size (int_of_float (body_font_size sg)))) ;;
       accent <- lift (int_base16 (accent_color_rgb sg)) ;;
       on_box (format_last (set_color accent)))
    (pre ++ [Textbox t])
  = (pre ++ [Textbox (with_runs (fun runs => runs ++ map (body_run sg accent) texts) t)],
     Some tt).
Proof.
  intros Haccent. rewrite Haccent. revert t.
  induction texts as [| text texts IH]; intros t.
  - cbn [map for_each ret]. unfold with_runs. rewrite app_nil_r.
    destruct t; reflexivity.
  - cbn [map for_each]. rewrite bind_run.
    cbn [add_str]. rewrite bind_lift_Some.
    do 4 rewrite bind_on_box. rewrite bind_lift_Some, on_box_run.
    rewrite IH. f_equal. f_equal. f_equal.
    unfold format_last, insert_after, with_runs. cbn [tb_runs tb_orientation
      tb_left tb_top tb_width tb_height tb_alignment].
    rewrite !on_last_app by discriminate. cbn [on_last].
    rewrite <- app_assoc. reflexivity.
Qed.

Lemma layout_shapes (fields : list (string * json)) (sg : style)
      (title_text : string) (texts : list string) (primary accent : Z)
      (visual_path : option string) :
  com_text E (match assoc "title" fields with
              | Some v => v
              | None => JStr "New Topic"
              end) = Some title_text ->
  match assoc "points" fields with
  | Some v => v
  | None => JArr []
  end = JArr (map JStr texts) ->
  int_base16 (primary_color_rgb sg) = Some primary ->
  int_base16 (accent_color_rgb sg) = Some accent ->
  (forall path, picture_loads E (abspath E path) = true) ->
  snd (resolve_visual E (JObj fields) []) = Some visual_path ->
  _add_content_to_slide E (JObj fields) (Some sg) []
  = (Textbox (title_box sg primary visual_path title_text)
     :: Textbox (body_box sg accent visual_path texts)
     :: Textbox logo_box
     :: picture_of E visual_path, Some tt).
Proof.
  intros Htitle Hpoints Hprimary Haccent Hloads Hvisual.
  unfold _add_content_to_slide. cbn [get_default].
  rewrite bind_lift_Some, bind_run.
  rewrite (reads_only_resolve_visual E (JObj fields) []), Hvisual.
  cbv beta iota. rewrite bind_modify. cbn [AddTextbox app]. cbv beta.
  rewrite bind_lift_Some. cbv beta. rewrite Htitle, bind_lift_Some. cbv beta.
  rewrite bind_on_box1. cbv beta.
  rewrite bind_lift_Some. cbv beta.
  do 3 (rewrite bind_on_box1; cbv beta).
  rewrite Hprimary, bind_lift_Some. cbv beta.
  do 2 (rewrite bind_on_box1; cbv beta).
  rewrite bind_modify. cbn [AddTextbox app]. cbv beta.
  rewrite bind_on_box2. cbv beta.
  rewrite bind_lift_Some. cbv beta. rewrite Hpoints. cbn [iterate].
  rewrite bind_lift_Some. cbv beta.
  rewrite bind_run.
  match goal with
  | |- context [for_each _ _ [?a; Textbox ?t]] =>
      change [a; Textbox t] with ([a] ++ [Textbox t])
  end.
  rewrite (body_loop sg accent texts _ _ Haccent). cbn [app].
  rewrite bind_on_box2. cbv beta.
  rewrite bind_modify. cbn [AddTextbox app]. cbv beta.
  do 2 (rewrite bind_on_box3; cbv beta).
  change (int_base16 "A0A0A0") with (Some 10526880%Z).
  rewrite bind_lift_Some. cbv beta.
  rewrite bind_on_box3. cbv beta.
  unfold title_box, body_box, logo_box, text_width, picture_of, set_text.
  destruct (nonempty title_text); destruct visual_path as [path |];
    try (destruct (path_truthy (Some path)));
    try (destruct (nonempty path && path_exists E path));
    rewrite ?Hloads; reflexivity.
Qed.

End LayoutShapes.


Section UpdateAgain.
Import SlideUpdater PyStr PyNum.
Variables E1 E2 : collaborators.

Lemma bind_congr {A B} (m1 m2 : M A) (k1 k2 : A -> M B) (shapes : list shape) :
  m1 shapes = m2 shapes ->
  (forall a shapes', k1 a shapes' = k2 a shapes') ->
  bind m1 k1 shapes = bind m2 k2 shapes.
Proof.
  intros Hm Hk. unfold bind. rewrite Hm.
  destruct (m2 shapes) as [shapes' [a |]]; [apply Hk | reflexivity].
Qed.

(** With the same answers the layout is the same. *)
Lemma layout_same_answers (content_json : json) (style_guide : option style)
      (shapes : list shape) :
  same_answers E1 E2 content_json ->
  _add_content_to_slide E1 content_json style_guide shapes
  = _add_content_to_slide E2 content_json style_guide shapes.
Proof.
  intros (Hvisual & Htext & Hexists & Habs & Hloads).
  unfold _add_content_to_slide.
  apply bind_congr; [reflexivity | intros layout s0].
  apply bind_congr.
  { rewrite (reads_only_resolve_visual E1 content_json s0),
            (reads_only_resolve_visual E2 content_json s0), Hvisual.
    reflexivity. }
  intros visual_path s1.
  apply bind_congr; [reflexivity | intros _ s2].
  apply bind_congr; [reflexivity | intros title s3].
  apply bind_congr; [rewrite Htext; reflexivity | intros title_text s4].
  repeat (apply bind_congr; [reflexivity | intros ? ?]).
  destruct visual_path as [path |]; [| reflexivity].
  rewrite Hexists, Habs, Hloads. reflexivity.
Qed.

Lemma update_same_layout (active : option presentation) (slide_index : Z)
      (content_json : json) (style_guide : option style) :
  (forall shapes, _add_content_to_slide E1 content_json style_guide shapes
                  = _add_content_to_slide E2 content_json style_guide shapes) ->
  update_existing_slide E1 active slide_index content_json style_guide
  = update_existing_slide E2 active slide_index content_json style_guide.
Proof.
  intros Hsame. destruct active as [pres |]; [| reflexivity].
  unfold update_existing_slide, update_try.
  destruct (item (slides pres) slide_index) as [target |]; [| reflexivity].
  rewrite Hsame. reflexivity.
Qed.

(** C5.  Two updates of a slide in a row with the same content, the
    collaborators answering as [E1] at the first and as [E2] at the
    second.  No stale shape is left: after each update the slide holds
    exactly the shapes laid out on an empty slide for this content with
    the answers of that moment, whatever it held before.  With content
    and a style guide that are well formed these are the title box, the
    body box with one bulleted line per point, the watermark and, when a
    visual was resolved to a file that exists, the picture; the first
    update has no part in them.  When the collaborators answer the
    second time what they answered the first time, the second update
    changes nothing at all: slides, position and saved copy are as the
    first update left them. *)
Theorem C5_update_lays_out_afresh (active : option presentation) (slide_index : Z)
        (content_json : json) (style_guide : option style) :
  let once := update_existing_slide E1 active slide_index content_json style_guide in
  let twice := update_existing_slide E2 once slide_index content_json style_guide in
  (same_answers E1 E2 content_json -> twice = once)
  /\ (forall pres target,
        active = Some pres ->
        item (slides pres) slide_index = Some target ->
        exists pres1 pres2,
          once = Some pres1 /\ twice = Some pres2
          /\ item (slides pres1) slide_index
             = Some {| sl_layout := sl_layout target;
                       sl_shapes :=
                         fst (_add_content_to_slide E1 content_json style_guide []) |}
          /\ item (slides pres2) slide_index
             = Some {| sl_layout := sl_layout target;
                       sl_shapes :=
                         fst (_add_content_to_slide E2 content_json style_guide []) |})
  /\ (forall pres target fields sg title_text texts primary accent visual_path,
        active = Some pres ->
        item (slides pres) slide_index = Some target ->
        content_json = JObj fields ->
        style_guide = Some sg ->
        com_text E2 (match assoc "title" fields with
                     | Some v => v
                     | None => JStr "New Topic"
                     end) = Some title_text ->
        match assoc "points" fields with
        | Some v => v
        | None => JArr []
        end = JArr (map JStr texts) ->
        int_base16 (primary_color_rgb sg) = Some primary ->
        int_base16 (accent_color_rgb sg) = Some accent ->
        (forall path, picture_loads E2 (abspath E2 path) = true) ->
        snd (resolve_visual E2 content_json []) = Some visual_path ->
        shapes_on twice slide_index
        = Some (Textbox (title_box sg primary visual_path title_text)
                :: Textbox (body_box sg accent visual_path texts)
                :: Textbox logo_box
                :: picture_of E2 visual_path)).
Proof.
  intros once twice.
  assert (Hboth : forall pres target,
            active = Some pres ->
            item (slides pres) slide_index = Some target ->
            exists pres1 pres2,
              once = Some pres1 /\ twice = Some pres2
              /\ item (slides pres1) slide_index
                 = Some {| sl_layout := sl_layout target;
                           sl_shapes :=
                             fst (_add_content_to_slide E1 content_json style_guide []) |}
              /\ item (slides pres2) slide_index
                 = Some {| sl_layout := sl_layout target;
                           sl_shapes :=
                             fst (_add_content_to_slide E2 content_json style_guide []) |}).
  { intros pres target Hactive Hitem.
    destruct (proj2 (update_again_is_fixed E1 active slide_index content_json
                       style_guide) pres target Hactive Hitem)
      as (pres1 & Honce & Hitem1).
    fold once in Honce.
    destruct (proj2 (update_again_is_fixed E2 once slide_index content_json
                       style_guide) pres1 _ Honce Hitem1)
      as (pres2 & Htwice & Hitem2).
    fold twice in Htwice. cbn [sl_layout] in Hitem2.
    exists pres1, pres2. repeat split; assumption. }
  split; [| split; [exact Hboth |]].
  - intros Hsame. subst twice.
    rewrite <- (update_same_layout once slide_index content_json style_guide
                  (fun shapes => layout_same_answers content_json style_guide
                                                     shapes Hsame)).
    apply (update_again_is_fixed E1).
  - intros pres target fields sg title_text texts primary accent visual_path
           Hactive Hitem -> -> Htitle Hpoints Hprimary Haccent Hloads Hvisual.
    destruct (Hboth pres target Hactive Hitem) as (pres1 & pres2 & _ & -> & _ & Hitem2).
    unfold shapes_on. rewrite Hitem2. cbn [option_map sl_shapes].
    rewrite (layout_shapes E2 fields sg title_text texts primary accent visual_path
               Htitle Hpoints Hprimary Haccent Hloads Hvisual).
    reflexivity.
Qed.

End UpdateAgain.

Lemma C5_second_lookup_changes_the_slide :
  elements (Application.generated_slide_indices Sample.after_insert) = [2%Z]
  /\ shapes_on
       (SlideUpdater.update_existing_slide Sample.icon_found
          (Application.powerpoint Sample.after_insert) 2
          Sample.image_content (Some Sample.plain_style)) 2
     = Some [ Textbox (title_box Sample.plain_style 0
                                 (Some "temp_visuals/temp_0.png") "EV adoption");
              Textbox (body_box Sample.plain_style 5855577
                                (Some "temp_visuals/temp_0.png") ["Sales up 35%"]);
              Textbox logo_box;
              Picture {| pic_file := "temp_visuals/temp_0.png";
                         pic_left := SlideUpdater.inch_to_points (6 # 1);
                         pic_top := SlideUpdater.inch_to_points (5 # 2);
                         pic_width := SlideUpdater.inch_to_points (7 # 2);
                         pic_height := SlideUpdater.inch_to_points (7 # 2) |} ]
  /\ shapes_on
       (SlideUpdater.update_existing_slide Sample.ev_model
          (SlideUpdater.update_existing_slide Sample.icon_found
             (Application.powerpoint Sample.after_insert) 2
             Sample.image_content (Some Sample.plain_style))
          2 Sample.image_content (Some Sample.plain_style)) 2
     = Some [ Textbox (title_box Sample.plain_style 0 None "EV adoption");
              Textbox (body_box Sample.plain_style 5855577 None ["Sales up 35%"]);
              Textbox logo_box ].
Proof. vm_compute. repeat split. Qed.

Lemma C5_update_lays_out_afresh_witness :
  SlideUpdater.update_existing_slide Sample.icon_found
    (SlideUpdater.update_existing_slide Sample.ev_model (Some Sample.show) 1
                                        Sample.ev_content (Some Sample.plain_style))
    1 Sample.ev_content (Some Sample.plain_style)
  = SlideUpdater.update_existing_slide Sample.ev_model (Some Sample.show) 1
                                       Sample.ev_content (Some Sample.plain_style)
  /\ shapes_on
       (SlideUpdater.update_existing_slide Sample.ev_model
          (SlideUpdater.update_existing_slide Sample.icon_found (Some Sample.show) 1
             Sample.image_content (Some Sample.plain_style))
          1 Sample.image_content (Some Sample.plain_style)) 1
     = Some [ Textbox (title_box Sample.plain_style 0 None "EV adoption");
              Textbox (body_box Sample.plain_style 5855577 None ["Sales up 35%"]);
              Textbox logo_box ].
Proof.
  split.
  - refine (proj1 (C5_update_lays_out_afresh Sample.ev_model Sample.icon_found
                     (Some Sample.show) 1%Z Sample.ev_content
                     (Some Sample.plain_style)) _).
    repeat split.
  - refine (proj2 (proj2 (C5_update_lays_out_afresh Sample.icon_found Sample.ev_model
                            (Some Sample.show) 1%Z Sample.image_content
                            (Some Sample.plain_style)))
              Sample.show Sample.title_slide _ Sample.plain_style
              "EV adoption" ["Sales up 35%"] 0%Z 5855577%Z None
              _ _ _ _ _ _ _ _ _ _); reflexivity.
Defined.

(* ===================================================================== *)
(** * From a deviation to the new slide *)
(* ===================================================================== *)

Section Pipeline.
Import Application ContentGenerator PyStr.
Variable E : collaborators.

Lemma generate_slide_content_truthy (topic : string) (content : json) :
  generate_slide_content E topic = Some content -> truthy content = true.
Proof.
  unfold generate_slide_content.
  destruct (model_generate_content E (content_prompt topic)) as [text |]; [| discriminate].
  destruct (_extract_json E text) as [v |]; [| discriminate].
  destruct (truthy v) eqn:Hv; [| discriminate]. intros [= <-]. exact Hv.
Qed.

Lemma nth_error_snoc {A} (l : list A) (x : A) : nth_error (l ++ [x]) (length l) = Some x.
Proof.
  rewrite nth_error_app2 by lia. rewrite Nat.sub_diag. reflexivity.
Qed.

Lemma replace_nth_snoc {A} (l : list A) (x y : A) :
  replace_nth (length l) y (l ++ [x]) = l ++ [y].
Proof. induction l as [| z l IH]; [reflexivity |]. simpl. rewrite IH. reflexivity. Qed.

(** X10.  The whole way of an automatic insert.  The show is on a slide that is
    not tracked, three utterances or more are in the buffer, the model
    names a new topic and then returns content for it.  The detection
    cycle followed by the two steps of the thread it starts ends with the
    buffer empty, one slide more in the deck (what the insert path makes
    of it), the index after the current slide in the tracked set, and the
    thread finished. *)
Theorem deviation_ends_in_a_new_slide (a : app) (pres : presentation)
        (current_index : Z) (topic : string) (content : json) :
  slide_updater a = true ->
  3 <= length (speech_buffer a) ->
  powerpoint a = Some pres ->
  show_position pres = current_index ->
  (1 <= current_index <= Z.of_nat (length (slides pres)))%Z ->
  current_index ∉ generated_slide_indices a ->
  check_for_deviation E (checked_slide_text (pptx_file a) current_index)
                      (join " " (speech_buffer a)) = Some topic ->
  generate_slide_content E topic = Some content ->
  exists a',
    run_schedule E [length (workers a); length (workers a)] (run_deviation_check E a)
    = Some a'
    /\ speech_buffer a' = []
    /\ powerpoint a'
       = Some (fst (SlideUpdater.insert_try E pres current_index content (style_guide a)))
    /\ deck_size a' = Some (S (length (slides pres)))
    /\ generated_slide_indices a'
       = {[ (current_index + 1)%Z ]} ∪ generated_slide_indices a
    /\ phase_of (length (workers a)) a' = Some Finished.
Proof.
  intros Hsu Hlen Hppt Hpos Hrange Hnot Hcheck Hgen.
  unfold run_deviation_check, checked_slide_text in *.
  rewrite Hsu, Hppt. cbn [negb orb SlideUpdater.get_current_slide_index].
  destruct (Nat.ltb_spec (length (speech_buffer a)) 3); [lia |].
  rewrite Hpos. destruct (Z.eqb_spec current_index 0); [lia |].
  rewrite Hcheck, (check_for_deviation_nonempty E _ _ _ Hcheck).
  cbn [generated_slide_indices set_speech log_call _set_status].
  rewrite (bool_decide_eq_false_2 _ Hnot).
  unfold run_schedule, step_worker.
  cbn [workers set_is_checking handle_update set_workers _set_status set_speech log_call].
  rewrite nth_error_snoc. cbn [w_phase w_topic w_action_text].
  unfold generate_step. rewrite Hgen, (generate_slide_content_truthy _ _ Hgen).
  cbn [workers set_workers _set_status log_call set_is_checking handle_update set_speech].
  rewrite replace_nth_snoc, nth_error_snoc.
  cbn [w_phase set_phase w_slide_index w_is_update].
  eexists. split; [reflexivity |].
  unfold apply_step, deck_size, phase_of.
  cbn [speech_buffer powerpoint generated_slide_indices workers style_guide
       set_workers _set_status set_generated_slide_indices set_powerpoint
       log_call set_is_checking set_speech handle_update Deque.clear].
  rewrite Hppt. cbn [SlideUpdater.insert_new_slide_after_current option_map].
  rewrite replace_nth_snoc, nth_error_snoc. cbn [w_phase set_phase].
  split; [reflexivity |]. split; [reflexivity |]. split; [| split; reflexivity].
  rewrite (insert_try_in_range E pres current_index content (style_guide a)) by lia.
  cbv zeta. f_equal.
  destruct (snd (SlideUpdater._add_content_to_slide E content (style_guide a) []));
    cbn [fst slides]; rewrite length_app; cbn [length];
    rewrite length_firstn, length_skipn; lia.
Qed.

End Pipeline.

(* ===================================================================== *)
(** * The further properties at sample inputs *)
(* ===================================================================== *)

Lemma layout_follows_the_visual_witness :
  exists visual_path title body logo,
    SlideUpdater.resolve_visual Sample.ev_model Sample.ev_content []
    = ([], Some visual_path)
    /\ fst (SlideUpdater._add_content_to_slide Sample.ev_model Sample.ev_content
              (Some Sample.plain_style) [])
       = Textbox title :: Textbox body :: Textbox logo
         :: picture_of Sample.ev_model visual_path
    /\ tb_width title = text_width visual_path
    /\ tb_width body = text_width visual_path
    /\ tb_alignment title
       = Some (if SlideUpdater.path_truthy visual_path then ppAlignLeft else ppAlignCenter)
    /\ tb_alignment body = Some ppAlignLeft
    /\ map r_text (tb_runs logo) = ["Updated live by Savi.ai"].
Proof.
  refine (layout_follows_the_visual Sample.ev_model Sample.ev_content
            (Some Sample.plain_style) _ _).
  reflexivity.
Defined.

Lemma layout_completes_on_well_formed_content_witness :
  snd (SlideUpdater._add_content_to_slide Sample.ev_model Sample.ev_content
         (Some Sample.plain_style) [Existing "Title 1"])
  = Some tt.
Proof.
  refine (layout_completes_on_well_formed_content Sample.ev_model _ Sample.plain_style
            "EV adoption" ["Sales up 35%"] 0%Z 5855577%Z [Existing "Title 1"]
            _ _ _ _ _); reflexivity.
Defined.

Lemma inserted_slide_is_updated_next_witness :
  Application.workers
    (Application.run_deviation_check Sample.assistant
       (Application.speech_run [] Sample.after_insert))
  = Application.workers (Application.speech_run [] Sample.after_insert)
    ++ [{| Application.w_topic := "Battery prices";
           Application.w_slide_index := (1 + 1)%Z;
           Application.w_is_update := true;
           Application.w_action_text := "Updating";
           Application.w_phase := Application.Started |}].
Proof.
  assert (Hsame : Sample.after_insert
                  = Application.apply_step Sample.assistant 1 false Sample.ev_content
                                           Sample.listening) by reflexivity.
  rewrite Hsame.
  refine (inserted_slide_is_updated_next Sample.assistant Sample.listening Sample.show
            1%Z Sample.ev_content [] "Battery prices" _ _ _ _ _ _).
  - reflexivity.
  - simpl. lia.
  - discriminate.
  - reflexivity.
  - simpl. lia.
  - reflexivity.
Defined.

Lemma manual_generate_always_inserts_witness :
  Application.workers
    (Application.handle_manual_generate "Battery prices" Sample.after_insert)
  = Application.workers Sample.after_insert
    ++ [{| Application.w_topic := "Battery prices";
           Application.w_slide_index := 2%Z;
           Application.w_is_update := false;
           Application.w_action_text := "Inserting";
           Application.w_phase := Application.Started |}].
Proof.
  refine (proj1 (proj2 (manual_generate_always_inserts "Battery prices"
                          Sample.after_insert) 2%Z _ _ _ _)).
  - discriminate.
  - reflexivity.
  - reflexivity.
  - discriminate.
Defined.

Lemma deviation_ends_in_a_new_slide_witness :
  exists a',
    Application.run_schedule Sample.assistant [0; 0]
      (Application.run_deviation_check Sample.assistant Sample.listening)
    = Some a'
    /\ Application.speech_buffer a' = []
    /\ Application.powerpoint a'
       = Some (fst (SlideUpdater.insert_try Sample.assistant Sample.show 1
                      Sample.ev_content (Some Sample.plain_style)))
    /\ Application.deck_size a' = Some 3
    /\ Application.generated_slide_indices a' = {[ (1 + 1)%Z ]} ∪ ∅
    /\ Application.phase_of 0 a' = Some Application.Finished.
Proof.
  refine (deviation_ends_in_a_new_slide Sample.assistant Sample.listening Sample.show
            1%Z "Battery prices" Sample.ev_content _ _ _ _ _ _ _ _).
  - reflexivity.
  - simpl. lia.
  - reflexivity.
  - reflexivity.
  - simpl. lia.
  - apply not_elem_of_empty.
  - reflexivity.
  - reflexivity.
Defined.

Lemma session_keeps_speech_bounded_and_not_blank_witness :
  length (Application.speech_buffer
            (Session.run Sample.assistant Sample.afternoon Sample.fresh)) <= 10
  /\ Forall not_blank
       (Application.speech_buffer
          (Session.run Sample.assistant Sample.afternoon Sample.fresh))
  /\ Forall not_blank
       (Application.speech_queue
          (Session.run Sample.assistant Sample.afternoon Sample.fresh)).
Proof.
  refine (session_keeps_speech_bounded_and_not_blank Sample.assistant Sample.afternoon
            Sample.fresh _ _ _).
  - simpl. lia.
  - constructor.
  - constructor.
Defined.

Lemma only_apply_threads_touch_the_deck_witness :
  Application.powerpoint (Session.run Sample.assistant Sample.afternoon Sample.after_insert)
  = Application.powerpoint Sample.after_insert.
Proof.
  refine (proj1 (only_apply_threads_touch_the_deck Sample.assistant Sample.afternoon
                   Sample.after_insert _)).
  reflexivity.
Defined.

Lemma tracked_indices_are_never_dropped_witness :
  2%Z ∈ Application.generated_slide_indices
         (Session.run Sample.assistant
            (Sample.afternoon ++ [Session.ThreadStep 0; Session.ThreadStep 0])
            Sample.after_insert).
Proof.
  refine (tracked_indices_are_never_dropped Sample.assistant _ Sample.after_insert 2%Z _).
  apply elem_of_union. left. apply elem_of_singleton. reflexivity.
Defined.

Lemma extract_json_cuts_the_surrounding_text_witness :
  ContentGenerator._extract_json Sample.ev_model
    ("Sure, here it is: " +:+ "{" +:+ "}" +:+ " Anything else?")
  = json_loads Sample.ev_model ("{" +:+ "}").
Proof.
  refine (proj1 (extract_json_cuts_the_surrounding_text Sample.ev_model)
            "Sure, here it is: " EmptyString " Anything else?" _ _); reflexivity.
Defined.

Lemma deviation_topic_is_one_trimmed_line_witness :
  all_chars not_linebreak "Battery prices" = true
  /\ PyStr.strip "Battery prices" = "Battery prices".
Proof.
  refine (deviation_topic_is_one_trimmed_line Sample.assistant "Q2 Revenue"
            "batteries got cheaper" "Battery prices" _).
  reflexivity.
Defined.

Lemma style_fonts_are_most_frequent_witness :
  (ThemeAnalyzer.names_of
     (ThemeAnalyzer.fonts_of ThemeAnalyzer.is_title_type Sample.one_master) = []
   /\ title_font_name Sample.one_master_style = "Calibri")
  \/ (In (title_font_name Sample.one_master_style)
         (ThemeAnalyzer.names_of
            (ThemeAnalyzer.fonts_of ThemeAnalyzer.is_title_type Sample.one_master))
      /\ forall other,
           ThemeAnalyzer.count String.eqb other
             (ThemeAnalyzer.names_of
                (ThemeAnalyzer.fonts_of ThemeAnalyzer.is_title_type Sample.one_master))
           <= ThemeAnalyzer.count String.eqb (title_font_name Sample.one_master_style)
                (ThemeAnalyzer.names_of
                   (ThemeAnalyzer.fonts_of ThemeAnalyzer.is_title_type
                                           Sample.one_master))).
Proof.
  refine (proj1 (style_fonts_are_most_frequent Sample.one_master
                   Sample.one_master_style _)).
  reflexivity.
Defined.

Lemma style_colours_always_parse_witness :
  exists primary accent,
    ThemeAnalyzer.valid_rgb primary /\ ThemeAnalyzer.valid_rgb accent
    /\ primary_color_rgb Sample.one_master_style = ThemeAnalyzer.str_rgb primary
    /\ accent_color_rgb Sample.one_master_style = ThemeAnalyzer.str_rgb accent
    /\ PyNum.int_base16 (primary_color_rgb Sample.one_master_style)
       = Some (65536 * Z.of_nat (ThemeAnalyzer.red primary)
               + 256 * Z.of_nat (ThemeAnalyzer.green primary)
               + Z.of_nat (ThemeAnalyzer.blue primary))%Z
    /\ PyNum.int_base16 (accent_color_rgb Sample.one_master_style)
       = Some (65536 * Z.of_nat (ThemeAnalyzer.red accent)
               + 256 * Z.of_nat (ThemeAnalyzer.green accent)
               + Z.of_nat (ThemeAnalyzer.blue accent))%Z.
Proof.
  refine (style_colours_always_parse Sample.one_master Sample.one_master_style _ _).
  - intros ph f c Hin Hfont Hcolor. simpl in Hin.
    repeat (destruct Hin as [<- | Hin];
            [simpl in Hfont; try discriminate; injection Hfont as <-;
             simpl in Hcolor; try discriminate; injection Hcolor as <-;
             unfold ThemeAnalyzer.valid_rgb; simpl; lia |]).
    destruct Hin.
  - reflexivity.
Defined.

Lemma style_defaults_and_failures_witness :
  exists s, ThemeAnalyzer.get_style (Some Sample.one_master) = ThemeAnalyzer.Style s.
Proof.
  refine (proj1 (proj2 (proj2 style_defaults_and_failures)) Sample.one_master _).
  discriminate.
Defined.

